(** * StrokeGenius: the PGA Tour scraper ([pga_scraper.py])

    A shallow embedding of [PGATourScraperFixed] and [test_scraper], and the
    properties of the extraction-with-fallback pipeline.

    Modelling conventions.
    - Python values are the inductive [pyval]; a [dict] is an association
      list in insertion order (keys are unique in every dict the program
      builds, and column order of a frame depends on insertion order).
    - Text is [string] over ASCII: [str.lower], [str.strip], [\d] and [A-Z]
      are the ASCII ones.
    - A Python [float] is kept as the decimal it was parsed from
      ([PyFloat m e] stands for the double nearest to [m * 10^e]).
    - Code that can raise lives in the [result] monad; code that also talks
      to the network or the file system lives in [M], a state-and-exception
      monad whose state records the requests sent and the files written.
      [try ... except Exception] is [try_except] / [try_exceptM].
    - [requests], [bs4], [json] and [pandas] are libraries: the parts of
      their behaviour the scraper relies on are modelled in the modules
      [bs4] and [pd] and in the [world] record.  [time.sleep] is kept for
      the exceptions it can raise.  Logging and printing have no influence
      on results and are left out. *)

From Stdlib Require Import String Ascii List ZArith Bool Lia DecimalString.
Import ListNotations.
Local Open Scope string_scope.
Local Open Scope list_scope.

(** ** Python values *)

Set Warnings "-register-all".

Inductive pyval : Type :=
| PyNone
| PyBool (b : bool)
| PyInt (z : Z)
| PyFloat (m : Z) (e : Z)
| PyNaN
| PyStr (s : string)
| PyList (l : list pyval)
| PyDict (d : list (string * pyval)).

(** A Record of the spec: a dict from field name to value. *)
Definition record : Type := list (string * pyval).

Fixpoint dict_get {A : Type} (key : string) (d : list (string * A)) : option A :=
  match d with
  | [] => None
  | (k, v) :: rest => if String.eqb k key then Some v else dict_get key rest
  end.

Definition keys {A : Type} (d : list (string * A)) : list string := map fst d.

(** ** Exceptions *)

Inductive exn : Type :=
| AttributeError
| TypeError
| ValueError
| KeyError
| IndexError
| JSONDecodeError
| RequestException
| OSError.

Inductive result (A : Type) : Type :=
| Ok (a : A)
| Raise (e : exn).
Arguments Ok {A} a.
Arguments Raise {A} e.

Definition rbind {A B : Type} (c : result A) (k : A -> result B) : result B :=
  match c with
  | Ok a => k a
  | Raise e => Raise e
  end.

(** [try: body / except Exception as e: handler]; every modelled exception
    derives from [Exception]. *)
Definition try_except {A : Type} (body : result A) (handler : exn -> result A) : result A :=
  match body with
  | Ok a => Ok a
  | Raise e => handler e
  end.

Declare Scope result_scope.
Delimit Scope result_scope with result.
Notation "x <- c ;; k" := (rbind c (fun x => k))
  (at level 61, c at next level, right associativity) : result_scope.

(** ** Text helpers (ASCII) *)

Module Text.

Definition is_upper (c : ascii) : bool :=
  (65 <=? nat_of_ascii c)%nat && (nat_of_ascii c <=? 90)%nat.

Definition is_digit (c : ascii) : bool :=
  (48 <=? nat_of_ascii c)%nat && (nat_of_ascii c <=? 57)%nat.

(** Characters removed by [str.strip()]: tab, LF, VT, FF, CR, FS, GS, RS, US
    and space. *)
Definition is_space (c : ascii) : bool :=
  let n := nat_of_ascii c in
  ((9 <=? n)%nat && (n <=? 13)%nat) || ((28 <=? n)%nat && (n <=? 32)%nat).

Definition lower_char (c : ascii) : ascii :=
  if is_upper c then ascii_of_nat (nat_of_ascii c + 32) else c.

(** [s.lower()] on ASCII text: the capitals A to Z become small letters and
    every other character is kept, also one outside ASCII, which
    [str.lower] would change. *)
Fixpoint lower (s : string) : string :=
  match s with
  | EmptyString => EmptyString
  | String c rest => String (lower_char c) (lower rest)
  end.

Fixpoint filter (p : ascii -> bool) (s : string) : string :=
  match s with
  | EmptyString => EmptyString
  | String c rest => if p c then String c (filter p rest) else filter p rest
  end.

Fixpoint lstrip (s : string) : string :=
  match s with
  | EmptyString => EmptyString
  | String c rest => if is_space c then lstrip rest else s
  end.

Fixpoint rstrip (s : string) : string :=
  match s with
  | EmptyString => EmptyString
  | String c rest =>
      match rstrip rest with
      | EmptyString => if is_space c then EmptyString else String c EmptyString
      | r => String c r
      end
  end.

Definition strip (s : string) : string := rstrip (lstrip s).

(** [sub in s] for two strings. *)
Fixpoint contains (sub s : string) : bool :=
  String.prefix sub s ||
  match s with
  | EmptyString => false
  | String _ rest => contains sub rest
  end.

(** [s.replace(a, b)] for one-character [a] and [b]. *)
Fixpoint replace_char (a b : ascii) (s : string) : string :=
  match s with
  | EmptyString => EmptyString
  | String c rest => String (if Ascii.eqb c a then b else c) (replace_char a b rest)
  end.

Definition is_empty (s : string) : bool :=
  match s with
  | EmptyString => true
  | String _ _ => false
  end.

End Text.

(** ** The JSON-path extractor *)

(** The three candidate key-paths, in the order they are tried. *)
Definition paths : list (list string) :=
  [ ["props"; "pageProps"; "leaderboard"; "players"];
    ["props"; "pageProps"; "data"; "leaderboard"];
    ["props"; "pageProps"; "initialState"; "leaderboard"; "players"] ].

(** The inner [for key in path] loop: [Some current] when the loop runs to
    completion (the [else] branch), [None] when it breaks. *)
Fixpoint navigate (current : pyval) (path : list string) : option pyval :=
  match path with
  | [] => Some current
  | key :: rest =>
      match current with
      | PyDict d =>
          match dict_get key d with
          | Some v => navigate v rest
          | None => None
          end
      | _ => None
      end
  end.

(** [player.get(key, default)]: only a dict has the method. *)
Definition py_get (player : pyval) (key : string) (default : pyval) : result pyval :=
  match player with
  | PyDict d =>
      Ok (match dict_get key d with
          | Some v => v
          | None => default
          end)
  | _ => Raise AttributeError
  end.

(** The dict literal appended for one player. *)
Definition player_record (player : pyval) : result record :=
  (player_name <- py_get player "playerName" (PyStr "") ;;
   position <- py_get player "position" (PyStr "") ;;
   total_score <- py_get player "totalScore" (PyStr "") ;;
   score_to_par <- py_get player "scoreToPar" (PyStr "") ;;
   thru <- py_get player "thru" (PyStr "") ;;
   today <- py_get player "today" (PyStr "") ;;
   Ok [ ("player_name", player_name);
        ("position", position);
        ("total_score", total_score);
        ("score_to_par", score_to_par);
        ("thru", thru);
        ("today", today) ])%result.

(** [for player in current: players.append({...})]. *)
Fixpoint append_players (current : list pyval) (players : list record)
  : result (list record) :=
  match current with
  | [] => Ok players
  | player :: rest =>
      (r <- player_record player ;;
       append_players rest (players ++ [r]))%result
  end.

(** [for path in paths: ...] followed by [return []]. *)
Fixpoint extract_paths (data : pyval) (ps : list (list string)) (players : list record)
  : result (list record) :=
  match ps with
  | [] => Ok []
  | path :: rest =>
      match navigate data path with
      | Some (PyList current) => append_players current players
      | _ => extract_paths data rest players
      end
  end.

Definition _extract_leaderboard_from_json (data : pyval) : result (list record) :=
  try_except (extract_paths data paths []) (fun _ => Ok []).

(** ** The parsed markup ([bs4]) *)

Module bs4.

(** The tree the parser builds: tags and the strings between them
    (comments and other special strings are not part of the model).  An
    attribute value is a string, or a list of strings for the multi-valued
    attribute [class]. *)
Inductive attr_value : Type :=
| AttrStr (s : string)
| AttrList (l : list string).

Inductive node : Type :=
| NavigableString (s : string)
| Tag (name : string) (attrs : list (string * attr_value)) (contents : list node).

(** What an attribute is matched against: a string or a function. *)
Inductive matcher : Type :=
| MStr (s : string)
| MFun (f : option string -> bool).

(** [tag.descendants]: every node below the tag, in document order. *)
Fixpoint descendants (n : node) : list node :=
  match n with
  | NavigableString _ => []
  | Tag _ _ contents => flat_map (fun c => c :: descendants c) contents
  end.

Definition tag_name (n : node) : option string :=
  match n with
  | NavigableString _ => None
  | Tag name _ _ => Some name
  end.

Definition tag_attrs (n : node) : list (string * attr_value) :=
  match n with
  | NavigableString _ => []
  | Tag _ attrs _ => attrs
  end.

(** One attribute value against one matcher.  A list value matches when one
    of its items does, or when the items joined by a space do; a function is
    called on the value ([None] when the attribute is absent); a string
    matches by equality, and an absent attribute only matches the empty
    string. *)
Definition matches (markup : option attr_value) (m : matcher) : bool :=
  match m, markup with
  | MFun f, None => f None
  | MFun f, Some (AttrStr s) => f (Some s)
  | MFun f, Some (AttrList l) =>
      existsb (fun item => f (Some item)) l || f (Some (String.concat " " l))
  | MStr v, None => Text.is_empty v
  | MStr v, Some (AttrStr s) => String.eqb s v
  | MStr v, Some (AttrList l) =>
      existsb (fun item => String.eqb item v) l || String.eqb (String.concat " " l) v
  end.

Definition search_tag (names : list string) (attrs : list (string * matcher)) (n : node)
  : bool :=
  match n with
  | NavigableString _ => false
  | Tag name tattrs _ =>
      existsb (String.eqb name) names &&
      forallb (fun am => matches (dict_get (fst am) tattrs) (snd am)) attrs
  end.

(** [tag.find_all(names, attrs)]; an empty [names] is not used here. *)
Definition find_all (n : node) (names : list string) (attrs : list (string * matcher))
  : list node :=
  List.filter (search_tag names attrs) (descendants n).

(** [tag.find(name, attrs)]: the first match or [None]. *)
Definition find (n : node) (name : string) (attrs : list (string * matcher))
  : option node :=
  hd_error (find_all n [name] attrs).

(** [tag.find(string=pattern)], with the pattern as a predicate on text. *)
Definition find_string (n : node) (pattern : string -> bool) : option string :=
  hd_error
    (flat_map
       (fun d => match d with
                 | NavigableString s => if pattern s then [s] else []
                 | Tag _ _ _ => []
                 end)
       (descendants n)).

(** [tag.get_text(strip=True)]: the descendant strings, each stripped, the
    empty ones dropped, concatenated. *)
Definition get_text_strip (n : node) : string :=
  String.concat ""
    (flat_map
       (fun d => match d with
                 | NavigableString s =>
                     let t := Text.strip s in
                     if Text.is_empty t then [] else [t]
                 | Tag _ _ _ => []
                 end)
       (descendants n)).

(** [tag.string]: the single string child, looking through single-child
    tags; [None] otherwise. *)
Fixpoint tag_string (n : node) : option string :=
  match n with
  | NavigableString s => Some s
  | Tag _ _ [c] => tag_string c
  | Tag _ _ _ => None
  end.

End bs4.
Import bs4.

(** ** Frames ([pandas]) *)

Module pd.

Record DataFrame : Type := {
  columns : list string;
  rows : list (list pyval)
}.

(** Keys of one record that are not columns yet, appended in order. *)
Fixpoint add_keys (cols ks : list string) : list string :=
  match ks with
  | [] => cols
  | k :: rest =>
      add_keys (if existsb (String.eqb k) cols then cols else cols ++ [k]) rest
  end.

(** Column order of [pd.DataFrame(list_of_dicts)]: the union of the keys in
    first-seen order. *)
Definition first_seen_keys (data : list record) : list string :=
  fold_left (fun cols r => add_keys cols (keys r)) data [].

(** A key a record lacks is filled with NaN. *)
Definition row_of (cols : list string) (r : record) : list pyval :=
  map (fun c => match dict_get c r with
                | Some v => v
                | None => PyNaN
                end) cols.

(** [pd.DataFrame(data)] for a list of dicts; [pd.DataFrame()] is
    [DataFrame_of []].  Every cell keeps the value of its record: the types
    that pandas infers for a column are not modelled (a column of integers
    and nulls would hold floats and NaN).  Cells that are strings are the
    same in both. *)
Definition DataFrame_of (data : list record) : DataFrame :=
  let cols := first_seen_keys data in
  {| columns := cols; rows := map (row_of cols) data |}.

(** [df.empty]: some axis has length 0. *)
Definition empty (df : DataFrame) : bool :=
  (length (columns df) =? 0)%nat || (length (rows df) =? 0)%nat.

(** [df.iterrows()]: each row as a Series indexed by the columns. *)
Definition iterrows (df : DataFrame) : list (list (string * pyval)) :=
  map (fun r => combine (columns df) r) (rows df).

(** [row[key]]. *)
Definition series_getitem (row : list (string * pyval)) (key : string) : result pyval :=
  match dict_get key row with
  | Some v => Ok v
  | None => Raise KeyError
  end.

(** [row.get(key, default)]. *)
Definition series_get (row : list (string * pyval)) (key : string) (default : pyval)
  : pyval :=
  match dict_get key row with
  | Some v => v
  | None => default
  end.

(** What [df.to_csv(filename, index=False)] writes: the header line and one
    line per row (the text form of a cell is left to pandas). *)
Record csv : Type := {
  csv_header : list string;
  csv_rows : list (list pyval)
}.

Definition to_csv (df : DataFrame) : csv :=
  {| csv_header := columns df; csv_rows := rows df |}.

End pd.

(** ** The outside world and the monad of the scraper *)

Record Response : Type := {
  status_code : Z;
  (** [BeautifulSoup(response.content, 'html.parser')], the parsed body *)
  content : node
}.

Record state : Type := {
  requests : list string;
  files : list (string * pd.csv)
}.

Record world : Type := {
  (** outcome of a GET, given the requests sent before it *)
  http_get : list string -> string -> result Response;
  json_loads : string -> result pyval;
  (** [sys.get_int_max_str_digits()]: 4300 by default since Python 3.11,
      0 when there is no limit *)
  int_max_str_digits : nat;
  (** [datetime.now().strftime('%Y%m%d')] *)
  today : string
}.

Definition M (A : Type) : Type := state -> result A * state.

Definition ret {A : Type} (a : A) : M A := fun st => (Ok a, st).

Definition bind {A B : Type} (c : M A) (k : A -> M B) : M B :=
  fun st =>
    match c st with
    | (Ok a, st') => k a st'
    | (Raise e, st') => (Raise e, st')
    end.

Definition lift {A : Type} (r : result A) : M A := fun st => (r, st).

Definition try_exceptM {A : Type} (body : M A) (handler : exn -> M A) : M A :=
  fun st =>
    match body st with
    | (Ok a, st') => (Ok a, st')
    | (Raise e, st') => handler e st'
    end.

Declare Scope M_scope.
Delimit Scope M_scope with M.
Notation "x <- c ;; k" := (bind c (fun x => k))
  (at level 61, c at next level, right associativity) : M_scope.

(** [self.session.get(url)]. *)
Definition session_get (w : world) (url : string) : M Response :=
  fun st =>
    (http_get w (requests st) url,
     {| requests := requests st ++ [url]; files := files st |}).

(** The scraper object: [self.delay].  The session and its fixed headers
    belong to the [world]. *)
Record PGATourScraperFixed : Type := {
  delay : pyval
}.

(** [PGATourScraperFixed()]: the default delay is 1.0. *)
Definition default_scraper : PGATourScraperFixed := {| delay := PyFloat 1 0 |}.

(** [time.sleep(secs)]: a negative or NaN length is a [ValueError], a
    value that is not a number a [TypeError]; the wait itself has no other
    effect. *)
Definition time_sleep (secs : pyval) : result unit :=
  match secs with
  | PyInt z => if (z <? 0)%Z then Raise ValueError else Ok tt
  | PyFloat m _ => if (m <? 0)%Z then Raise ValueError else Ok tt
  | PyBool _ => Ok tt
  | PyNaN => Raise ValueError
  | _ => Raise TypeError
  end.

(** [response = self.session.get(url); time.sleep(self.delay)]. *)
Definition fetch (self : PGATourScraperFixed) (w : world) (url : string) : M Response :=
  (response <- session_get w url ;;
   _ <- lift (time_sleep (delay self)) ;;
   ret response)%M.

(** [df.to_csv(filename, index=False)] where the file system takes every
    write; [write_csv_to] is the write that can be refused. *)
Definition write_csv (filename : string) (df : pd.DataFrame) : M unit :=
  fun st =>
    (Ok tt,
     {| requests := requests st; files := files st ++ [(filename, pd.to_csv df)] |}).

(** [json.loads(script_tag.string)]; [json.loads(None)] is a [TypeError]. *)
Definition json_loads_string (w : world) (s : option string) : result pyval :=
  match s with
  | Some text => json_loads w text
  | None => Raise TypeError
  end.

(** ** Loops and indexing *)

(** [for x in l: body], threading the loop's accumulator. *)
Fixpoint for_each {A S : Type} (l : list A) (body : A -> S -> result S) (s : S)
  : result S :=
  match l with
  | [] => Ok s
  | x :: rest => (s' <- body x s ;; for_each rest body s')%result
  end.

(** [l[i]]. *)
Definition index {A : Type} (l : list A) (i : nat) : result A :=
  match nth_error l i with
  | Some a => Ok a
  | None => Raise IndexError
  end.

(** [cols[i].get_text(strip=True)]. *)
Definition text_at (cols : list node) (i : nat) : result pyval :=
  (c <- index cols i ;; Ok (PyStr (get_text_strip c)))%result.

(** [cols[i].get_text(strip=True) if len(cols) > i else '']. *)
Definition text_at_or_empty (cols : list node) (i : nat) : result pyval :=
  if (i <? length cols)%nat then text_at cols i else Ok (PyStr "").

(** ** The markup-table fallback extractor *)

(** [lambda x: x and class_name in x]. *)
Definition class_contains (class_name : string) : matcher :=
  MFun (fun x =>
          match x with
          | None => false
          | Some s => negb (Text.is_empty s) && Text.contains class_name s
          end).

Definition table_classes : list string := ["leaderboard"; "table"; "leaderboard-table"].

(** [for class_name in table_classes: table = soup.find(...); if table: break]. *)
Fixpoint find_table_by_class (soup : node) (classes : list string) : option node :=
  match classes with
  | [] => None
  | class_name :: rest =>
      match find soup "table" [("class", class_contains class_name)] with
      | Some table => Some table
      | None => find_table_by_class soup rest
      end
  end.

(** [re.compile(r'(Player|Position|Score)', re.I)] searched in a string. *)
Definition header_keyword (s : string) : bool :=
  let l := Text.lower s in
  Text.contains "player" l || Text.contains "position" l || Text.contains "score" l.

(** [for t in soup.find_all('table'): if t.find(string=...): table = t; break]. *)
Fixpoint find_table_by_keyword (tables : list node) : option node :=
  match tables with
  | [] => None
  | t :: rest =>
      match find_string t header_keyword with
      | Some _ => Some t
      | None => find_table_by_keyword rest
      end
  end.

(** The table the fallback extractor works on, if any. *)
Definition locate_table (soup : node) : option node :=
  match find_table_by_class soup table_classes with
  | Some table => Some table
  | None => find_table_by_keyword (find_all soup ["table"] [])
  end.

(** Body of [for row in rows] in [_scrape_leaderboard_table]. *)
Definition leaderboard_row (row : node) (players : list record) : result (list record) :=
  let cols := find_all row ["td"; "th"] [] in
  if (3 <=? length cols)%nat then
    (position <- text_at cols 0 ;;
     player_name <- text_at cols 1 ;;
     score <- text_at_or_empty cols 2 ;;
     thru <- text_at_or_empty cols 3 ;;
     today <- text_at_or_empty cols 4 ;;
     Ok (players ++ [ [ ("position", position);
                        ("player_name", player_name);
                        ("score", score);
                        ("thru", thru);
                        ("today", today) ] ]))%result
  else Ok players.

Definition _scrape_leaderboard_table (soup : node) : result pd.DataFrame :=
  try_except
    (players <-
       match locate_table soup with
       | Some table =>
           let rows := skipn 1 (find_all table ["tr"] []) in
           for_each rows leaderboard_row []
       | None => Ok []
       end ;;
     Ok (pd.DataFrame_of players))%result
    (fun _ => Ok (pd.DataFrame_of [])).

(** ** The primary source *)

Definition leaderboard_url : string := "https://www.pgatour.com/leaderboard".

Definition get_current_leaderboard (self : PGATourScraperFixed) (w : world) : M pd.DataFrame :=
  try_exceptM
    (response <- fetch self w leaderboard_url ;;
     if (status_code response =? 200)%Z then
       let soup := content response in
       match find soup "script" [("id", MStr "__NEXT_DATA__")] with
       | Some script_tag =>
           data <- lift (json_loads_string w (tag_string script_tag)) ;;
           leaderboard_data <- lift (_extract_leaderboard_from_json data) ;;
           match leaderboard_data with
           | _ :: _ => ret (pd.DataFrame_of leaderboard_data)
           | [] => lift (_scrape_leaderboard_table soup)
           end
       | None => lift (_scrape_leaderboard_table soup)
       end
     else ret (pd.DataFrame_of []))%M
    (fun _ => ret (pd.DataFrame_of [])).

(** ** The statistics page *)

Definition stat_urls : list (string * string) :=
  [ ("STATS_YEAR", "https://www.pgatour.com/stats");
    ("ROTO_STANDINGS", "https://www.pgatour.com/stats/detail/02675");
    ("DRIVING", "https://www.pgatour.com/stats/detail/101");
    ("PUTTING", "https://www.pgatour.com/stats/detail/02676") ].

(** [stat_urls.get(stat_type, stat_urls['STATS_YEAR'])]. *)
Definition stat_url (stat_type : string) : string :=
  match dict_get stat_type stat_urls with
  | Some url => url
  | None => "https://www.pgatour.com/stats"
  end.

(** [lambda x: x and word in str(x).lower()]. *)
Definition class_contains_lower (word : string) : matcher :=
  MFun (fun x =>
          match x with
          | None => false
          | Some s => negb (Text.is_empty s) && Text.contains word (Text.lower s)
          end).

(** Body of [for row in rows[:50]] in [scrape_player_stats_page]. *)
Definition stats_row (row : node) (players : list record) : result (list record) :=
  let cols := find_all row ["td"; "th"] [] in
  if (3 <=? length cols)%nat then
    (rank <- text_at cols 0 ;;
     player_name <- text_at cols 1 ;;
     value <- text_at cols 2 ;;
     rounds <- text_at_or_empty cols 3 ;;
     Ok (players ++ [ [ ("rank", rank);
                        ("player_name", player_name);
                        ("value", value);
                        ("rounds", rounds) ] ]))%result
  else Ok players.

(** The table [scrape_player_stats_page] works on, if any. *)
Definition locate_stats_table (soup : node) : option node :=
  match find soup "table" [("class", class_contains_lower "stats")] with
  | Some t => Some t
  | None => find soup "table" []
  end.

Definition scrape_player_stats_page (self : PGATourScraperFixed) (w : world)
  (stat_type : string) : M pd.DataFrame :=
  try_exceptM
    (response <- fetch self w (stat_url stat_type) ;;
     if (status_code response =? 200)%Z then
       let soup := content response in
       match locate_stats_table soup with
       | Some stats_table =>
           let rows := skipn 1 (find_all stats_table ["tr"] []) in
           players <- lift (for_each (firstn 50 rows) stats_row []) ;;
           ret (pd.DataFrame_of players)
       | None => ret (pd.DataFrame_of [])
       end
     else ret (pd.DataFrame_of []))%M
    (fun _ => ret (pd.DataFrame_of [])).

(** ** The secondary source *)

(** [re.sub(r'\([A-Z]{3}\)', '', s)]: every non-overlapping occurrence of
    an opening parenthesis, three capitals and a closing parenthesis is
    removed, scanning from the left. *)
Fixpoint sub_country_code (s : string) : string :=
  match s with
  | EmptyString => EmptyString
  | String ch s1 =>
      match s1 with
      | String a (String b (String c (String close rest))) =>
          if Ascii.eqb ch "(" && Text.is_upper a && Text.is_upper b && Text.is_upper c
             && Ascii.eqb close ")"
          then sub_country_code rest
          else String ch (sub_country_code s1)
      | _ => String ch (sub_country_code s1)
      end
  end.

(** [re.sub(r'\([A-Z]{3}\)', '', player_name).strip()]. *)
Definition clean_player_name (player_name : string) : string :=
  Text.strip (sub_country_code player_name).

Definition espn_url : string := "https://www.espn.com/golf/leaderboard".

(** Body of [for row in rows[1:]] in [scrape_espn_leaderboard]. *)
Definition espn_row (row : node) (players : list record) : result (list record) :=
  let cols := find_all row ["td"; "th"] [] in
  if (3 <=? length cols)%nat then
    (c1 <- index cols 1 ;;
     let player_name := clean_player_name (get_text_strip c1) in
     position <- text_at cols 0 ;;
     score <- text_at cols 2 ;;
     thru <- text_at_or_empty cols 3 ;;
     today <- text_at_or_empty cols 4 ;;
     r1 <- text_at_or_empty cols 5 ;;
     r2 <- text_at_or_empty cols 6 ;;
     r3 <- text_at_or_empty cols 7 ;;
     r4 <- text_at_or_empty cols 8 ;;
     Ok (players ++ [ [ ("position", position);
                        ("player_name", PyStr player_name);
                        ("score", score);
                        ("thru", thru);
                        ("today", today);
                        ("r1", r1);
                        ("r2", r2);
                        ("r3", r3);
                        ("r4", r4) ] ]))%result
  else Ok players.

(** The element [scrape_espn_leaderboard] works on, if any. *)
Definition locate_espn_leaderboard (soup : node) : option node :=
  match find soup "div" [("class", MStr "ResponsiveTable")] with
  | Some d => Some d
  | None => find soup "table" [("class", MStr "Table")]
  end.

Definition scrape_espn_leaderboard (self : PGATourScraperFixed) (w : world) : M pd.DataFrame :=
  try_exceptM
    (response <- fetch self w espn_url ;;
     if (status_code response =? 200)%Z then
       let soup := content response in
       players <-
         match locate_espn_leaderboard soup with
         | Some leaderboard =>
             let rows := find_all leaderboard ["tr"] [] in
             lift (for_each (skipn 1 rows) espn_row [])
         | None => ret []
         end ;;
       ret (pd.DataFrame_of players)
     else ret (pd.DataFrame_of []))%M
    (fun _ => ret (pd.DataFrame_of [])).

(** ** The field normalizer and the player page *)

Definition digit_value (c : ascii) : Z := Z.of_nat (nat_of_ascii c - 48).

Fixpoint digits_value (s : string) (acc : Z) : Z :=
  match s with
  | EmptyString => acc
  | String c rest => digits_value rest (10 * acc + digit_value c)
  end.

Fixpoint all_digits (s : string) : bool :=
  match s with
  | EmptyString => true
  | String c rest => Text.is_digit c && all_digits rest
  end.

(** The interpreter refuses to convert a string of more than 640 digits
    that is longer than its limit, when it has one. *)
Definition too_many_digits (w : world) (n : nat) : bool :=
  negb (int_max_str_digits w =? 0)%nat && (int_max_str_digits w <? n)%nat && (640 <? n)%nat.

(** [int(s)] for a string: the strings that reach it here hold digits only;
    anything else that is not a number is a [ValueError], and so is a
    string of too many digits. *)
Definition int_of_str (w : world) (s : string) : result pyval :=
  if negb (Text.is_empty s) && all_digits s then
    if too_many_digits w (String.length s) then Raise ValueError
    else Ok (PyInt (digits_value s 0))
  else Raise ValueError.

(** The text before the first dot, and the text after it if there is one. *)
Fixpoint split_dot (s : string) : string * option string :=
  match s with
  | EmptyString => (EmptyString, None)
  | String c rest =>
      if Ascii.eqb c "." then (EmptyString, Some rest)
      else let (a, b) := split_dot rest in (String c a, b)
  end.

(** [float(s)] for a string of digits and dots: at most one dot and at least
    one digit, otherwise a [ValueError]. *)
Definition float_of_str (s : string) : result pyval :=
  let (ip, fp) := split_dot s in
  let frac := match fp with Some f => f | None => EmptyString end in
  if all_digits ip && all_digits frac && negb (Text.is_empty (ip ++ frac)) then
    Ok (PyFloat (digits_value (ip ++ frac) 0) (- Z.of_nat (String.length frac)))
  else Raise ValueError.

(** [int(re.sub(r'\D', '', value_text) or 0)]. *)
Definition parse_int (w : world) (value_text : string) : result pyval :=
  let digits := Text.filter Text.is_digit value_text in
  if Text.is_empty digits then Ok (PyInt 0) else int_of_str w digits.

(** [float(re.sub(r'[^\d.]', '', value_text) or 0)]. *)
Definition parse_float (value_text : string) : result pyval :=
  let kept := Text.filter (fun c => Text.is_digit c || Ascii.eqb c ".") value_text in
  if Text.is_empty kept then Ok (PyFloat 0 0) else float_of_str kept.

(** [d[key] = v]: the value is replaced in place, a new key goes last. *)
Fixpoint dict_set {A : Type} (key : string) (v : A) (d : list (string * A))
  : list (string * A) :=
  match d with
  | [] => [(key, v)]
  | (k, x) :: rest =>
      if String.eqb k key then (k, v) :: rest else (k, x) :: dict_set key v rest
  end.

(** [f"https://www.pgatour.com/players/player.{player_slug}.html"]. *)
Definition player_url (player_name : string) : string :=
  let player_slug := Text.replace_char " " "-" (Text.lower player_name) in
  "https://www.pgatour.com/players/player." ++ player_slug ++ ".html".

(** Body of [for item in stat_items]. *)
Definition stat_item (w : world) (item : node) (stats : record) : result record :=
  match find item "span" [("class", MStr "label")],
        find item "span" [("class", MStr "value")] with
  | Some label, Some value =>
      let label_text := Text.lower (get_text_strip label) in
      let value_text := get_text_strip value in
      if Text.contains "wins" label_text then
        (v <- parse_int w value_text ;; Ok (dict_set "career_wins" v stats))%result
      else if Text.contains "top 10" label_text then
        (v <- parse_int w value_text ;; Ok (dict_set "career_top10s" v stats))%result
      else if Text.contains "earnings" label_text then
        (v <- parse_float value_text ;; Ok (dict_set "career_earnings" v stats))%result
      else Ok stats
  | _, _ => Ok stats
  end.

(** The dict [stats] before any stat element is read. *)
Definition initial_stats (player_name : string) : record :=
  [ ("player_name", PyStr player_name);
    ("career_wins", PyInt 0);
    ("career_top10s", PyInt 0);
    ("career_earnings", PyInt 0) ].

Definition get_player_historical_stats (self : PGATourScraperFixed) (w : world)
  (player_name : string) : M record :=
  try_exceptM
    (response <- fetch self w (player_url player_name) ;;
     if (status_code response =? 200)%Z then
       let soup := content response in
       let stat_items := find_all soup ["div"] [("class", class_contains_lower "stat")] in
       lift (for_each stat_items (stat_item w) (initial_stats player_name))
     else ret [])%M
    (fun _ => ret []).

(** ** The combined dataset *)

(** [d.update(other)]. *)
Definition dict_update {A : Type} (d other : list (string * A)) : list (string * A) :=
  fold_left (fun acc kv => dict_set (fst kv) (snd kv) acc) other d.

Definition placeholder_stats : record :=
  [ ("strokes_gained_total", PyFloat 0 0);
    ("driving_distance", PyFloat 290 0);
    ("driving_accuracy", PyFloat 60 0);
    ("gir_percentage", PyFloat 65 0);
    ("scrambling", PyFloat 55 0);
    ("putting_average", PyFloat 29 0);
    ("world_ranking", PyInt 50);
    ("fedex_points", PyInt 500) ].

(** Body of [for _, player_row in base_data.iterrows()]. *)
Definition comprehensive_row (player_row : list (string * pyval)) (all_stats : list record)
  : result (list record) :=
  (player_name <- pd.series_getitem player_row "player_name" ;;
   let player_stats :=
     [ ("player_name", player_name);
       ("current_position", pd.series_get player_row "position" (PyStr ""));
       ("current_score", pd.series_get player_row "score" (PyStr "")) ] in
   Ok (all_stats ++ [dict_update player_stats placeholder_stats]))%result.

Definition get_comprehensive_stats (self : PGATourScraperFixed) (w : world) : M pd.DataFrame :=
  (base_data <- get_current_leaderboard self w ;;
   base_data <-
     (if pd.empty base_data then scrape_espn_leaderboard self w else ret base_data) ;;
   all_stats <-
     (if negb (pd.empty base_data)
      then lift (for_each (pd.iterrows base_data) comprehensive_row [])
      else ret []) ;;
   ret (pd.DataFrame_of all_stats))%M.

(** ** Historical results *)

(** [f"https://www.pgatour.com/tournaments/schedule.{year}.html"]. *)
Definition schedule_url (year : Z) : string :=
  "https://www.pgatour.com/tournaments/schedule."
    ++ NilZero.string_of_int (Z.to_int year) ++ ".html".

(** Body of [for row in tournament_rows]; [.get_text] on the [None] of a
    failed [find] is an [AttributeError]. *)
Definition tournament_row (row : node) (tournaments : list record)
  : result (list record) :=
  match find row "div" [("class", MStr "winner")] with
  | Some winner =>
      (tournament <-
         match find row "div" [("class", MStr "tournament-name")] with
         | Some name => Ok (PyStr (get_text_strip name))
         | None => Raise AttributeError
         end ;;
       let date :=
         match find row "div" [("class", MStr "dates")] with
         | Some dates => PyStr (get_text_strip dates)
         | None => PyStr ""
         end in
       Ok (tournaments ++ [ [ ("tournament", tournament);
                              ("winner", PyStr (get_text_strip winner));
                              ("date", date) ] ]))%result
  | None => Ok tournaments
  end.

Definition scrape_historical_results (self : PGATourScraperFixed) (w : world)
  (year : Z) : M pd.DataFrame :=
  try_exceptM
    (response <- fetch self w (schedule_url year) ;;
     if (status_code response =? 200)%Z then
       let soup := content response in
       let tournament_rows :=
         find_all soup ["div"] [("class", class_contains "tournament-row")] in
       tournaments <- lift (for_each tournament_rows tournament_row []) ;;
       ret (pd.DataFrame_of tournaments)
     else ret (pd.DataFrame_of []))%M
    (fun _ => ret (pd.DataFrame_of [])).

(** ** [test_scraper] *)

(** [f"pga_data_{name}_{datetime.now().strftime('%Y%m%d')}.csv"]. *)
Definition filename (w : world) (name : string) : string :=
  "pga_data_" ++ name ++ "_" ++ today w ++ ".csv".

(** [if not df.empty: results[name] = df]. *)
Definition keep_result (name : string) (df : pd.DataFrame)
  (results : list (string * pd.DataFrame)) : list (string * pd.DataFrame) :=
  if negb (pd.empty df) then dict_set name df results else results.

(** [for name, df in results.items(): if not df.empty: df.to_csv(...)]. *)
Fixpoint save_results (w : world) (results : list (string * pd.DataFrame)) : M unit :=
  match results with
  | [] => ret tt
  | (name, df) :: rest =>
      (_ <- (if negb (pd.empty df) then write_csv (filename w name) df else ret tt) ;;
       save_results w rest)%M
  end.

Definition test_scraper (w : world) : M (list (string * pd.DataFrame)) :=
  (let scraper := default_scraper in
   leaderboard <- get_current_leaderboard scraper w ;;
   let results := keep_result "pga_leaderboard" leaderboard [] in
   espn_data <- scrape_espn_leaderboard scraper w ;;
   let results := keep_result "espn_leaderboard" espn_data results in
   stats <- scrape_player_stats_page scraper w "STATS_YEAR" ;;
   let results := keep_result "stats" stats results in
   comprehensive <- get_comprehensive_stats scraper w ;;
   let results := keep_result "comprehensive" comprehensive results in
   _ <- save_results w results ;;
   ret results)%M.

(** ** Vocabulary of the specification *)

Definition is_dict (v : pyval) : bool :=
  match v with
  | PyDict _ => true
  | _ => false
  end.

(** The fixed field-name translation: source key, then field. *)
Definition field_translation : list (string * string) :=
  [ ("playerName", "player_name");
    ("position", "position");
    ("totalScore", "total_score");
    ("scoreToPar", "score_to_par");
    ("thru", "thru");
    ("today", "today") ].

(** The Record a player entry translates to: each field holds the value
    under its source key, or the empty string when the key is absent. *)
Definition translate (player : pyval) : record :=
  match player with
  | PyDict d =>
      map (fun sf => (snd sf, match dict_get (fst sf) d with
                              | Some v => v
                              | None => PyStr ""
                              end)) field_translation
  | _ => []
  end.

(** A key-path resolves to a sequence in a document. *)
Definition resolves_to_list (data : pyval) (path : list string) : Prop :=
  exists current, navigate data path = Some (PyList current).

(** The cells of a row and the rows of a table, as the extractors take them. *)
Definition cells (row : node) : list node := find_all row ["td"; "th"] [].

Definition table_rows (table : node) : list node := find_all table ["tr"] [].

Definition cell_text (c : node) : pyval := PyStr (get_text_strip c).

Definition optional_text (c : option node) : pyval :=
  match c with
  | Some n => PyStr (get_text_strip n)
  | None => PyStr ""
  end.

(** What a row of the leaderboard table contributes: one Record from its
    first five cells when it has at least three, nothing otherwise. *)
Definition leaderboard_record (row : node) : list record :=
  match cells row with
  | c0 :: c1 :: c2 :: extra =>
      [ [ ("position", cell_text c0);
          ("player_name", cell_text c1);
          ("score", cell_text c2);
          ("thru", optional_text (nth_error extra 0));
          ("today", optional_text (nth_error extra 1)) ] ]
  | _ => []
  end.

(** The same for a row of the statistics table. *)
Definition stats_record (row : node) : list record :=
  match cells row with
  | c0 :: c1 :: c2 :: extra =>
      [ [ ("rank", cell_text c0);
          ("player_name", cell_text c1);
          ("value", cell_text c2);
          ("rounds", optional_text (nth_error extra 0)) ] ]
  | _ => []
  end.

(** The same for a row of the secondary source. *)
Definition espn_record (row : node) : list record :=
  match cells row with
  | c0 :: c1 :: c2 :: extra =>
      [ [ ("position", cell_text c0);
          ("player_name", PyStr (clean_player_name (get_text_strip c1)));
          ("score", cell_text c2);
          ("thru", optional_text (nth_error extra 0));
          ("today", optional_text (nth_error extra 1));
          ("r1", optional_text (nth_error extra 2));
          ("r2", optional_text (nth_error extra 3));
          ("r3", optional_text (nth_error extra 4));
          ("r4", optional_text (nth_error extra 5)) ] ]
  | _ => []
  end.

(** Keeping the first occurrence of every key of a list. *)
Fixpoint first_occurrences (l : list string) : list string :=
  match l with
  | [] => []
  | k :: rest => k :: List.filter (fun x => negb (String.eqb x k)) (first_occurrences rest)
  end.

Definition has_player_name (r : record) : Prop := In "player_name" (keys r).

Definition is_numeric (v : pyval) : bool :=
  match v with
  | PyInt _ | PyFloat _ _ => true
  | _ => false
  end.

(** The field a stat element of the player page writes, if any. *)
Definition item_field (item : node) : option string :=
  match find item "span" [("class", MStr "label")],
        find item "span" [("class", MStr "value")] with
  | Some label, Some _ =>
      let label_text := Text.lower (get_text_strip label) in
      if Text.contains "wins" label_text then Some "career_wins"
      else if Text.contains "top 10" label_text then Some "career_top10s"
      else if Text.contains "earnings" label_text then Some "career_earnings"
      else None
  | _, _ => None
  end.

(** The state after one more request. *)
Definition requested (url : string) (st : state) : state :=
  {| requests := requests st ++ [url]; files := files st |}.

Definition nonempty_frames (results : list (string * pd.DataFrame)) : Prop :=
  Forall (fun r => pd.empty (snd r) = false) results.

(** The file each entry of [results] is saved to. *)
Definition saved (w : world) (r : string * pd.DataFrame) : string * pd.csv :=
  (filename w (fst r), pd.to_csv (snd r)).

(** The dict [stats] at any point of a successful run: the four keys, with
    numeric career fields. *)
Definition career_stats (player_name : string) (stats : record) : Prop :=
  exists wins top10s earnings,
    stats = [ ("player_name", PyStr player_name);
              ("career_wins", wins);
              ("career_top10s", top10s);
              ("career_earnings", earnings) ]
    /\ is_numeric wins = true /\ is_numeric top10s = true /\ is_numeric earnings = true.

Definition career_fields : list string :=
  ["career_wins"; "career_top10s"; "career_earnings"].

(** The elements of a player page the loop of
    [get_player_historical_stats] runs over. *)
Definition stat_items (soup : node) : list node :=
  find_all soup ["div"] [("class", class_contains_lower "stat")].

(** The outcome of [fetch]: the response, unless the request or the wait
    after it raises. *)
Definition fetched (self : PGATourScraperFixed) (w : world) (st : state) (url : string)
  : result Response :=
  (response <- http_get w (requests st) url ;;
   _ <- time_sleep (delay self) ;;
   Ok response)%result.

(** A request fails: the transport raises, or the status is not 200. *)
Definition request_failed (w : world) (st : state) (url : string) : Prop :=
  match http_get w (requests st) url with
  | Ok response => status_code response <> 200%Z
  | Raise _ => True
  end.

(** ** Sample inputs *)

Module Samples.

Definition cell (tag text : string) : node := Tag tag [] [NavigableString text].

Definition table_row (texts : list string) : node := Tag "tr" [] (map (cell "td") texts).

Definition header_row : node :=
  Tag "tr" [] [cell "th" "Pos"; cell "th" "Player"; cell "th" "Score"].

Definition document (contents : list node) : node := Tag "[document]" [] contents.

(** A page with a leaderboard table: a header, a full row, a two-cell row
    and a three-cell row. *)
Definition leaderboard_table : node :=
  Tag "table" [("class", AttrList ["leaderboard"; "wide"])]
    [ header_row;
      table_row ["1"; " Jon Rahm "; "-12"; "F"; "-4"; "68"];
      table_row ["Projected cut"; "+1"];
      table_row ["T2"; "Rory McIlroy"; "-10"] ].

Definition leaderboard_page : node := document [leaderboard_table].

(** The secondary source's page. *)
Definition espn_page : node :=
  document
    [ Tag "div" [("class", AttrList ["ResponsiveTable"])]
        [ Tag "table" [("class", AttrList ["Table"])]
            [ header_row;
              table_row ["1"; "Jon Rahm (ESP)"; "-12"; "F"] ] ] ].

(** A statistics table of a header and sixty rows. *)
Definition stats_page : node :=
  document
    [ Tag "table" [("class", AttrList ["stats-table"])]
        (header_row :: repeat (table_row ["1"; "Jon Rahm"; "1.5"; "40"]) 60) ].

Definition stat_div (label value : string) : node :=
  Tag "div" [("class", AttrList ["stat-item"])]
    [ Tag "span" [("class", AttrList ["label"])] [NavigableString label];
      Tag "span" [("class", AttrList ["value"])] [NavigableString value] ].

Definition player_page : node :=
  document [stat_div "Career Wins" "11"; stat_div "Official Earnings" "$45.6M"].

(** A page whose earnings do not read as a number. *)
Definition garbled_player_page : node :=
  document [stat_div "Career Wins" "11"; stat_div "Official Earnings" "1.2.3"].

Definition blank_page : node := document [].

(** A JSON document with two players under the first candidate path. *)
Definition players_doc : pyval :=
  PyDict [ ("props", PyDict [ ("pageProps", PyDict [ ("leaderboard", PyDict [
    ("players", PyList [ PyDict [ ("playerName", PyStr "Jon Rahm");
                                  ("position", PyStr "1");
                                  ("totalScore", PyInt 276) ];
                         PyDict [ ("playerName", PyStr "Rory McIlroy") ] ]) ]) ]) ]) ].

(** The Records the two players translate to. *)
Definition players_records : list record :=
  [ [ ("player_name", PyStr "Jon Rahm"); ("position", PyStr "1");
      ("total_score", PyInt 276); ("score_to_par", PyStr "");
      ("thru", PyStr ""); ("today", PyStr "") ];
    [ ("player_name", PyStr "Rory McIlroy"); ("position", PyStr "");
      ("total_score", PyStr ""); ("score_to_par", PyStr "");
      ("thru", PyStr ""); ("today", PyStr "") ] ].

(** The same with a [null] among the players. *)
Definition null_entry_doc : pyval :=
  PyDict [ ("props", PyDict [ ("pageProps", PyDict [ ("leaderboard", PyDict [
    ("players", PyList [ PyDict [ ("playerName", PyStr "Jon Rahm") ];
                         PyNone ]) ]) ]) ]) ].

(** A world that answers every request with the same page. *)
Definition serving (status : Z) (page : node) : world :=
  {| http_get := fun _ _ => Ok {| status_code := status; content := page |};
     json_loads := fun _ => Raise JSONDecodeError;
     int_max_str_digits := 4300;
     today := "20240101" |}.

Definition blank_site : world := serving 200 blank_page.
Definition espn_site : world := serving 200 espn_page.
Definition stats_site : world := serving 200 stats_page.
Definition player_site : world := serving 200 player_page.
Definition garbled_site : world := serving 200 garbled_player_page.
Definition missing_site : world := serving 404 player_page.
Definition unavailable_site : world := serving 503 espn_page.

(** A world without a network. *)
Definition offline : world :=
  {| http_get := fun _ _ => Raise RequestException;
     json_loads := fun _ => Raise JSONDecodeError;
     int_max_str_digits := 4300;
     today := "20240101" |}.

Definition start : state := {| requests := []; files := [] |}.

End Samples.

(** A parenthesized three-letter code. *)
Definition country_code (a b c : ascii) : string :=
  String "(" (String a (String b (String c ")"))).

(** ** Further vocabulary *)

(** The columns of the frames the extractors build. *)
Definition json_columns : list string :=
  ["player_name"; "position"; "total_score"; "score_to_par"; "thru"; "today"].

Definition table_columns : list string :=
  ["position"; "player_name"; "score"; "thru"; "today"].

Definition stats_columns : list string := ["rank"; "player_name"; "value"; "rounds"].

Definition espn_columns : list string :=
  ["position"; "player_name"; "score"; "thru"; "today"; "r1"; "r2"; "r3"; "r4"].

Definition comprehensive_columns : list string :=
  [ "player_name"; "current_position"; "current_score"; "strokes_gained_total";
    "driving_distance"; "driving_accuracy"; "gir_percentage"; "scrambling";
    "putting_average"; "world_ranking"; "fedex_points" ].

Definition is_str (v : pyval) : bool :=
  match v with
  | PyStr _ => true
  | _ => false
  end.

(** A frame of text: the given columns, and in every row one string per
    column. *)
Definition text_frame (cols : list string) (df : pd.DataFrame) : Prop :=
  pd.columns df = cols
  /\ Forall (fun row => length row = length cols /\ forallb is_str row = true) (pd.rows df).

(** The tournament rows of a schedule page. *)
Definition tournament_rows (soup : node) : list node :=
  find_all soup ["div"] [("class", class_contains "tournament-row")].

(** A tournament row that names a winner but no tournament. *)
Definition unreadable (row : node) : bool :=
  match find row "div" [("class", MStr "winner")],
        find row "div" [("class", MStr "tournament-name")] with
  | Some _, None => true
  | _, _ => false
  end.

(** What a tournament row contributes when it can be read: one Record when
    it names a winner, nothing otherwise. *)
Definition tournament_record (row : node) : list record :=
  match find row "div" [("class", MStr "winner")] with
  | Some winner =>
      [ [ ("tournament", optional_text (find row "div" [("class", MStr "tournament-name")]));
          ("winner", PyStr (get_text_strip winner));
          ("date", optional_text (find row "div" [("class", MStr "dates")])) ] ]
  | None => []
  end.

(** The number of dots and of digits of a text. *)
Definition dots (s : string) : nat :=
  String.length (Text.filter (fun c => Ascii.eqb c ".") s).

Definition digits (s : string) : nat := String.length (Text.filter Text.is_digit s).

(** A network whose answers do not depend on the requests sent before. *)
Definition stable (w : world) : Prop :=
  forall history history' url, http_get w history url = http_get w history' url.

(** The combined Record built from a row of the base frame: the player's
    name, position and score, then the placeholder statistics. *)
Definition combines (row : list (string * pyval)) (r : record) : Prop :=
  exists name,
    dict_get "player_name" row = Some name
    /\ r = [ ("player_name", name);
             ("current_position", pd.series_get row "position" (PyStr ""));
             ("current_score", pd.series_get row "score" (PyStr ""));
             ("strokes_gained_total", PyFloat 0 0);
             ("driving_distance", PyFloat 290 0);
             ("driving_accuracy", PyFloat 60 0);
             ("gir_percentage", PyFloat 65 0);
             ("scrambling", PyFloat 55 0);
             ("putting_average", PyFloat 29 0);
             ("world_ranking", PyInt 50);
             ("fedex_points", PyInt 500) ].

(** More sample inputs. *)
Module MoreSamples.

(** A leaderboard page that carries the payload script and a table. *)
Definition payload_page : node :=
  Samples.document
    [ Tag "script" [("id", AttrStr "__NEXT_DATA__")] [NavigableString "{}"];
      Samples.leaderboard_table ].

(** A world serving that page, whose payload parses to the two players. *)
Definition payload_site : world :=
  {| http_get := fun _ _ => Ok {| status_code := 200; content := payload_page |};
     json_loads := fun _ => Ok Samples.players_doc;
     int_max_str_digits := 4300;
     today := "20240101" |}.

Definition tournament (fields : list (string * string)) : node :=
  Tag "div" [("class", AttrList ["tournament-row"])]
    (map (fun f => Tag "div" [("class", AttrList [fst f])] [NavigableString (snd f)])
       fields).

(** A schedule: a played tournament, one still to come, one without dates. *)
Definition schedule_page : node :=
  Samples.document
    [ tournament [("tournament-name", "The Open"); ("dates", "Jul 18-21");
                  ("winner", "Xander Schauffele")];
      tournament [("tournament-name", "Tour Championship"); ("dates", "Aug 29")];
      tournament [("tournament-name", "Masters"); ("winner", "Scottie Scheffler")] ].

(** The same with a row that names a winner only. *)
Definition broken_schedule_page : node :=
  Samples.document
    [ tournament [("tournament-name", "The Open"); ("winner", "Xander Schauffele")];
      tournament [("winner", "Scottie Scheffler")] ].

(** A player page that reports the wins twice. *)
Definition repeated_player_page : node :=
  Samples.document [Samples.stat_div "Wins (season)" "3"; Samples.stat_div "Career Wins" "11"].

Definition repeated_site : world := Samples.serving 200 repeated_player_page.

Definition schedule_site : world := Samples.serving 200 schedule_page.
Definition broken_schedule_site : world := Samples.serving 200 broken_schedule_page.

End MoreSamples.

(** The names [test_scraper] files its frames under, in the order it tries
    them. *)
Definition result_names : list string :=
  ["pga_leaderboard"; "espn_leaderboard"; "stats"; "comprehensive"].

(** What a stat element of the player page writes: the field and the value
    read for it (or the error of reading it), if it writes at all. *)
Definition item_write (w : world) (item : node) : option (string * result pyval) :=
  match find item "span" [("class", MStr "label")],
        find item "span" [("class", MStr "value")] with
  | Some label, Some value =>
      let label_text := Text.lower (get_text_strip label) in
      let value_text := get_text_strip value in
      if Text.contains "wins" label_text then
        Some ("career_wins", parse_int w value_text)
      else if Text.contains "top 10" label_text then
        Some ("career_top10s", parse_int w value_text)
      else if Text.contains "earnings" label_text then
        Some ("career_earnings", parse_float value_text)
      else None
  | _, _ => None
  end.

(** The characters [float] parsing keeps. *)
Definition digit_or_dot (c : ascii) : bool := Text.is_digit c || Ascii.eqb c ".".

(** The digits after the dot, given the second part of [split_dot]. *)
Definition fraction (fp : option string) : string :=
  match fp with
  | Some f => f
  | None => EmptyString
  end.

(** A network on which every request fails. *)
Definition unreachable (w : world) : Prop :=
  forall history url,
    match http_get w history url with
    | Ok response => status_code response <> 200%Z
    | Raise _ => True
    end.

(** ** Names of ASCII characters *)

(** Every character of the text is an ASCII character.  On such a text
    [Text.lower] is [str.lower]. *)
Fixpoint is_ascii (s : string) : bool :=
  match s with
  | EmptyString => true
  | String c rest => (nat_of_ascii c <? 128)%nat && is_ascii rest
  end.

(** A space or a capital letter. *)
Definition space_or_capital (c : ascii) : bool := Ascii.eqb c " " || Text.is_upper c.

(** ** Writing to a disk that can refuse *)

(** The outcome of writing a file, given the files written before it. *)
Definition disk : Type := list (string * pd.csv) -> string -> result unit.

(** A disk that takes every write. *)
Definition writable : disk := fun _ _ => Ok tt.

(** [df.to_csv(filename, index=False)] on a disk: the file is written, or
    the error of the write is raised. *)
Definition write_csv_to (d : disk) (filename : string) (df : pd.DataFrame) : M unit :=
  fun st =>
    match d (files st) filename with
    | Ok _ =>
        (Ok tt,
         {| requests := requests st; files := files st ++ [(filename, pd.to_csv df)] |})
    | Raise e => (Raise e, st)
    end.

(** The saving loop of [test_scraper] on a disk; nothing catches the error
    of a write. *)
Fixpoint save_results_to (d : disk) (w : world) (results : list (string * pd.DataFrame))
  : M unit :=
  match results with
  | [] => ret tt
  | (name, df) :: rest =>
      (_ <- (if negb (pd.empty df) then write_csv_to d (filename w name) df else ret tt) ;;
       save_results_to d w rest)%M
  end.

(** The four tests of [test_scraper], up to the summary. *)
Definition collect_results (w : world) : M (list (string * pd.DataFrame)) :=
  (let scraper := default_scraper in
   leaderboard <- get_current_leaderboard scraper w ;;
   let results := keep_result "pga_leaderboard" leaderboard [] in
   espn_data <- scrape_espn_leaderboard scraper w ;;
   let results := keep_result "espn_leaderboard" espn_data results in
   stats <- scrape_player_stats_page scraper w "STATS_YEAR" ;;
   let results := keep_result "stats" stats results in
   comprehensive <- get_comprehensive_stats scraper w ;;
   ret (keep_result "comprehensive" comprehensive results))%M.

(** [test_scraper] on a disk. *)
Definition test_scraper_to (d : disk) (w : world) : M (list (string * pd.DataFrame)) :=
  (results <- collect_results w ;;
   _ <- save_results_to d w results ;;
   ret results)%M.

(** A disk with room for [n] files: a later write is an [OSError]. *)
Definition room_for (n : nat) : disk :=
  fun written _ => if (length written <? n)%nat then Ok tt else Raise OSError.

(** ** Loops *)

Lemma for_each_flat_map {A R : Type} (body : A -> list R -> result (list R))
  (f : A -> list R) (l : list A) :
  (forall x acc, body x acc = Ok (acc ++ f x)) ->
  forall acc, for_each l body acc = Ok (acc ++ flat_map f l).
Proof.
  intros Hbody. induction l as [|x rest IH]; intros acc; simpl.
  - now rewrite app_nil_r.
  - rewrite Hbody. simpl. rewrite IH. now rewrite app_assoc.
Qed.

(** ** The JSON-path extractor *)

Lemma player_record_dict (d : list (string * pyval)) :
  player_record (PyDict d) = Ok (translate (PyDict d)).
Proof. reflexivity. Qed.

Lemma player_record_not_dict (p : pyval) :
  is_dict p = false -> player_record p = Raise AttributeError.
Proof. destruct p; simpl; intros H; try reflexivity; discriminate. Qed.

Lemma append_players_dicts (current : list pyval) :
  forallb is_dict current = true ->
  forall players, append_players current players = Ok (players ++ map translate current).
Proof.
  induction current as [|p rest IH]; intros Hall players; simpl.
  - now rewrite app_nil_r.
  - simpl in Hall. apply andb_true_iff in Hall as [Hp Hrest].
    destruct p; try discriminate.
    rewrite player_record_dict. simpl rbind.
    rewrite (IH Hrest). now rewrite <- app_assoc.
Qed.

Lemma append_players_not_dict (current : list pyval) :
  forallb is_dict current = false ->
  forall players, append_players current players = Raise AttributeError.
Proof.
  induction current as [|p rest IH]; intros Hall players; simpl in *.
  - discriminate.
  - destruct (is_dict p) eqn:Hp.
    + destruct p; try discriminate.
      rewrite player_record_dict. simpl rbind. now apply IH.
    + now rewrite (player_record_not_dict p Hp).
Qed.

Lemma extract_paths_first (data : pyval) (before : list (list string)) :
  forall path after current players,
    Forall (fun p => ~ resolves_to_list data p) before ->
    navigate data path = Some (PyList current) ->
    extract_paths data (before ++ path :: after) players = append_players current players.
Proof.
  induction before as [|p rest IH]; intros path after current players Hbefore Hpath; simpl.
  - now rewrite Hpath.
  - inversion Hbefore as [|? ? Hp Hrest]; subst.
    destruct (navigate data p) as [[]|] eqn:Hnav; try (now apply IH).
    exfalso. apply Hp. unfold resolves_to_list. eexists. eassumption.
Qed.

Lemma extract_paths_none (data : pyval) (ps : list (list string)) :
  Forall (fun p => ~ resolves_to_list data p) ps ->
  forall players, extract_paths data ps players = Ok [].
Proof.
  induction ps as [|p rest IH]; intros Hall players; simpl.
  - reflexivity.
  - inversion Hall as [|? ? Hp Hrest]; subst.
    destruct (navigate data p) as [[]|] eqn:Hnav; try (now apply IH).
    exfalso. apply Hp. unfold resolves_to_list. eexists. eassumption.
Qed.

(** Whatever the paths and the document, the winning list is the only
    source of records. *)
Lemma extract_paths_origin (data : pyval) (ps : list (list string)) :
  forall players records,
    extract_paths data ps players = Ok records ->
    records = [] \/
    exists path current,
      In path ps /\ navigate data path = Some (PyList current) /\
      forallb is_dict current = true /\ records = players ++ map translate current.
Proof.
  induction ps as [|p rest IH]; intros players records H; simpl in H.
  - left. now inversion H.
  - destruct (navigate data p) as [v|] eqn:Hnav.
    + destruct v;
        try (destruct (IH _ _ H) as [->|(path & current & Hin & Hrest)];
             [now left | right; exists path, current; split; [now right | exact Hrest]]).
      right. exists p, l. split; [now left|]. split; [exact Hnav|].
      destruct (forallb is_dict l) eqn:Hd.
      * rewrite (append_players_dicts l Hd) in H. inversion H. now split.
      * rewrite (append_players_not_dict l Hd) in H. discriminate.
    + destruct (IH _ _ H) as [->|(path & current & Hin & Hrest)];
        [now left | right; exists path, current; split; [now right | exact Hrest]].
Qed.

Lemma extract_total (data : pyval) :
  exists records, _extract_leaderboard_from_json data = Ok records.
Proof.
  unfold _extract_leaderboard_from_json.
  destruct (extract_paths data paths []) as [records|e]; simpl; eauto.
Qed.

(** ** Frames *)

Lemma add_keys_app (a b : list string) :
  forall cols, pd.add_keys cols (a ++ b) = pd.add_keys (pd.add_keys cols a) b.
Proof.
  induction a as [|k rest IH]; intros cols; simpl; [reflexivity | apply IH].
Qed.

Lemma fold_add_keys (data : list record) :
  forall cols,
    fold_left (fun cols r => pd.add_keys cols (keys r)) data cols
    = pd.add_keys cols (concat (map keys data)).
Proof.
  induction data as [|r rest IH]; intros cols; simpl.
  - reflexivity.
  - now rewrite add_keys_app, IH.
Qed.

Lemma filter_filter_and {A : Type} (P Q : A -> bool) (l : list A) :
  List.filter P (List.filter Q l) = List.filter (fun x => Q x && P x) l.
Proof.
  induction l as [|x rest IH]; simpl; [reflexivity|].
  destruct (Q x); simpl; [destruct (P x)|]; now rewrite IH.
Qed.

Lemma filter_all {A : Type} (P : A -> bool) (l : list A) :
  (forall x, P x = true) -> List.filter P l = l.
Proof.
  intros HP. induction l as [|x rest IH]; simpl; [reflexivity|].
  now rewrite HP, IH.
Qed.

Lemma add_keys_first_occurrences (ks : list string) :
  forall cols,
    pd.add_keys cols ks
    = cols ++ List.filter (fun x => negb (existsb (String.eqb x) cols)) (first_occurrences ks).
Proof.
  induction ks as [|k rest IH]; intros cols; simpl.
  - now rewrite app_nil_r.
  - destruct (existsb (String.eqb k) cols) eqn:Hk; rewrite IH; simpl.
    + f_equal. rewrite filter_filter_and. apply filter_ext. intros x.
      destruct (String.eqb_spec x k) as [->|Hne]; simpl; [now rewrite Hk | reflexivity].
    + rewrite <- app_assoc. simpl. do 2 f_equal.
      rewrite filter_filter_and. apply filter_ext. intros x.
      rewrite existsb_app. simpl. rewrite orb_false_r, negb_orb. apply andb_comm.
Qed.

(** The columns of a frame are the first occurrences of the keys of its
    records, read record by record. *)
Lemma first_seen_keys_spec (data : list record) :
  pd.first_seen_keys data = first_occurrences (concat (map keys data)).
Proof.
  unfold pd.first_seen_keys. rewrite fold_add_keys, add_keys_first_occurrences. simpl.
  now apply filter_all.
Qed.

Lemma In_first_occurrences (l : list string) (x : string) :
  In x (first_occurrences l) <-> In x l.
Proof.
  induction l as [|k rest IH]; simpl; [tauto|].
  rewrite filter_In, IH.
  destruct (String.eqb_spec x k) as [->|Hne]; simpl.
  - tauto.
  - split; [intros [H|[H _]]; auto | intros [H|H]; auto].
Qed.

Lemma In_first_seen_keys (data : list record) (k : string) :
  In k (pd.first_seen_keys data) <-> exists r, In r data /\ In k (keys r).
Proof.
  rewrite first_seen_keys_spec, In_first_occurrences, in_concat. split.
  - intros (ks & Hks & Hk). apply in_map_iff in Hks as (r & <- & Hr). eauto.
  - intros (r & Hr & Hk). exists (keys r). split; [now apply in_map | exact Hk].
Qed.

Lemma empty_DataFrame_of_nil : pd.empty (pd.DataFrame_of []) = true.
Proof. reflexivity. Qed.

Lemma empty_DataFrame_of (data : list record) :
  Forall has_player_name data ->
  pd.empty (pd.DataFrame_of data) = match data with [] => true | _ :: _ => false end.
Proof.
  intros Hall. destruct data as [|r rest]; [reflexivity|].
  unfold pd.empty. simpl pd.columns. simpl pd.rows.
  assert (Hin : In "player_name" (pd.first_seen_keys (r :: rest))).
  { apply In_first_seen_keys. exists r. split; [now left|]. now inversion Hall. }
  destruct (pd.first_seen_keys (r :: rest)); [destruct Hin | reflexivity].
Qed.

(** Every row of a frame built from records that all name the player
    answers [row['player_name']]. *)
Lemma dict_get_combine_map {A : Type} (f : string -> A) (k : string) (cols : list string) :
  In k cols -> dict_get k (combine cols (map f cols)) = Some (f k).
Proof.
  induction cols as [|c rest IH]; simpl; [tauto|].
  intros Hin. destruct (String.eqb_spec c k) as [->|Hne]; [reflexivity|].
  destruct Hin as [->|Hin]; [contradiction | now apply IH].
Qed.

Lemma iterrows_player_name (data : list record) (row : list (string * pyval)) :
  Forall has_player_name data ->
  In row (pd.iterrows (pd.DataFrame_of data)) ->
  exists v, dict_get "player_name" row = Some v.
Proof.
  intros Hall Hrow. unfold pd.iterrows in Hrow. simpl in Hrow.
  apply in_map_iff in Hrow as (cells_ & <- & Hcells).
  apply in_map_iff in Hcells as (r & <- & Hr).
  unfold pd.row_of. rewrite dict_get_combine_map; [eauto|].
  apply In_first_seen_keys. exists r. split; [exact Hr|].
  rewrite Forall_forall in Hall. now apply Hall.
Qed.

(** ** Rows of a table *)

Ltac split_cells row :=
  unfold cells;
  destruct (find_all row ["td"; "th"] []) as [|?c0 [|?c1 [|?c2 ?extra]]];
  simpl; try (rewrite app_nil_r; reflexivity).

Lemma leaderboard_row_spec (row : node) (players : list record) :
  leaderboard_row row players = Ok (players ++ leaderboard_record row).
Proof.
  unfold leaderboard_row, leaderboard_record. split_cells row.
  destruct extra as [|c3 [|c4 extra]]; reflexivity.
Qed.

Lemma stats_row_spec (row : node) (players : list record) :
  stats_row row players = Ok (players ++ stats_record row).
Proof.
  unfold stats_row, stats_record. split_cells row.
  destruct extra as [|c3 extra]; reflexivity.
Qed.

Lemma espn_row_spec (row : node) (players : list record) :
  espn_row row players = Ok (players ++ espn_record row).
Proof.
  unfold espn_row, espn_record. split_cells row.
  destruct extra as [|c3 [|c4 [|c5 [|c6 [|c7 [|c8 extra]]]]]]; reflexivity.
Qed.

Lemma Forall_flat_map {A B : Type} (P : B -> Prop) (f : A -> list B) (l : list A) :
  (forall x, Forall P (f x)) -> Forall P (flat_map f l).
Proof.
  intros Hf. induction l as [|x rest IH]; simpl; [constructor|].
  apply Forall_app. split; [apply Hf | exact IH].
Qed.

Ltac named_rows def :=
  intros; apply Forall_flat_map; intros row; unfold def;
  destruct (cells row) as [|?c0 [|?c1 [|?c2 ?extra]]];
  try (constructor; fail);
  (constructor; [unfold has_player_name; simpl; auto | constructor]).

Lemma leaderboard_records_named (rows : list node) :
  Forall has_player_name (flat_map leaderboard_record rows).
Proof. named_rows leaderboard_record. Qed.

Lemma stats_records_named (rows : list node) :
  Forall has_player_name (flat_map stats_record rows).
Proof. named_rows stats_record. Qed.

Lemma espn_records_named (rows : list node) :
  Forall has_player_name (flat_map espn_record rows).
Proof. named_rows espn_record. Qed.

Lemma length_flat_map_le {A B : Type} (f : A -> list B) (l : list A) :
  (forall x, length (f x) <= 1) -> length (flat_map f l) <= length l.
Proof.
  intros Hf. induction l as [|x rest IH]; simpl; [lia|].
  rewrite length_app. specialize (Hf x). lia.
Qed.

(** ** The markup-table fallback extractor *)

(** The records the fallback extractor reads off a page. *)
Lemma scrape_leaderboard_table_run (soup : node) :
  _scrape_leaderboard_table soup
  = Ok (pd.DataFrame_of
          match locate_table soup with
          | Some table => flat_map leaderboard_record (skipn 1 (table_rows table))
          | None => []
          end).
Proof.
  unfold _scrape_leaderboard_table, table_rows.
  destruct (locate_table soup) as [table|]; [|reflexivity].
  rewrite (for_each_flat_map leaderboard_row leaderboard_record); [reflexivity|].
  intros; apply leaderboard_row_spec.
Qed.

Lemma extract_named (data : pyval) (records : list record) :
  _extract_leaderboard_from_json data = Ok records -> Forall has_player_name records.
Proof.
  unfold _extract_leaderboard_from_json. intros H.
  destruct (extract_paths data paths []) as [rs|e] eqn:Hx; simpl in H; inversion H; subst.
  - destruct (extract_paths_origin _ _ _ _ Hx) as [->|(path & current & _ & _ & Hd & ->)];
      [constructor|].
    simpl. clear Hx H. induction current as [|p rest IH]; simpl; [constructor|].
    simpl in Hd. apply andb_true_iff in Hd as [Hp Hrest].
    constructor; [|now apply IH].
    destruct p; try discriminate. unfold has_player_name. simpl. auto.
  - constructor.
Qed.

(** ** Runs of the operations *)

Lemma fetch_run (self : PGATourScraperFixed) (w : world) (url : string) (st : state) :
  fetch self w url st = (fetched self w st url, requested url st).
Proof.
  unfold fetch, fetched, bind, session_get, lift, ret, requested. simpl.
  destruct (http_get w (requests st) url) as [response|e]; [|reflexivity].
  now destruct (time_sleep (delay self)) as [[]|e].
Qed.

Lemma fetched_failed (self : PGATourScraperFixed) (w : world) (st : state) (url : string) :
  request_failed w st url ->
  match fetched self w st url with
  | Ok response => (status_code response =? 200)%Z = false
  | Raise _ => True
  end.
Proof.
  unfold request_failed, fetched.
  destruct (http_get w (requests st) url) as [response|e]; [|trivial].
  intros H. simpl. destruct (time_sleep (delay self)) as [[]|e]; simpl; [|trivial].
  now apply Z.eqb_neq.
Qed.

Ltac run_M := unfold try_exceptM, bind; rewrite ?fetch_run; unfold ret, lift; simpl.

Lemma get_current_leaderboard_run (self : PGATourScraperFixed) (w : world) (st : state) :
  exists data,
    get_current_leaderboard self w st
    = (Ok (pd.DataFrame_of data), requested leaderboard_url st)
    /\ Forall has_player_name data.
Proof.
  unfold get_current_leaderboard. run_M.
  destruct (fetched self w st leaderboard_url) as [response|e];
    [|exists []; split; [reflexivity | constructor]].
  destruct (status_code response =? 200)%Z;
    [|exists []; split; [reflexivity | constructor]].
  assert (Htable : exists data,
             _scrape_leaderboard_table (content response) = Ok (pd.DataFrame_of data)
             /\ Forall has_player_name data).
  { rewrite scrape_leaderboard_table_run. eexists. split; [reflexivity|].
    destruct (locate_table (content response));
      [apply leaderboard_records_named | constructor]. }
  destruct Htable as (tdata & Htable & Hnamed).
  destruct (find (content response) "script" [("id", MStr "__NEXT_DATA__")]) as [script_tag|].
  - destruct (json_loads_string w (tag_string script_tag)) as [data|e];
      [|exists []; split; [reflexivity | constructor]].
    destruct (_extract_leaderboard_from_json data) as [records|e] eqn:Hx.
    + destruct records as [|r rest].
      * rewrite Htable. now exists tdata.
      * exists (r :: rest). split; [reflexivity | now apply (extract_named data)].
    + destruct (extract_total data) as (records & Hok). congruence.
  - rewrite Htable. now exists tdata.
Qed.

Lemma scrape_espn_leaderboard_run (self : PGATourScraperFixed) (w : world) (st : state) :
  exists data,
    scrape_espn_leaderboard self w st = (Ok (pd.DataFrame_of data), requested espn_url st)
    /\ Forall has_player_name data.
Proof.
  unfold scrape_espn_leaderboard. run_M.
  destruct (fetched self w st espn_url) as [response|e];
    [|exists []; split; [reflexivity | constructor]].
  destruct (status_code response =? 200)%Z;
    [|exists []; split; [reflexivity | constructor]].
  destruct (locate_espn_leaderboard (content response)) as [leaderboard|];
    [|exists []; split; [reflexivity | constructor]].
  rewrite (for_each_flat_map espn_row espn_record) by (intros; apply espn_row_spec).
  eexists. split; [reflexivity | apply espn_records_named].
Qed.

Lemma scrape_player_stats_page_run (self : PGATourScraperFixed) (w : world)
  (stat_type : string) (st : state) :
  exists data,
    scrape_player_stats_page self w stat_type st
    = (Ok (pd.DataFrame_of data), requested (stat_url stat_type) st)
    /\ Forall has_player_name data /\ length data <= 50.
Proof.
  unfold scrape_player_stats_page. run_M.
  destruct (fetched self w st (stat_url stat_type)) as [response|e];
    [|exists []; simpl; repeat split; [constructor | lia]].
  destruct (status_code response =? 200)%Z;
    [|exists []; simpl; repeat split; [constructor | lia]].
  destruct (locate_stats_table (content response)) as [stats_table|];
    [|exists []; simpl; repeat split; [constructor | lia]].
  rewrite (for_each_flat_map stats_row stats_record) by (intros; apply stats_row_spec).
  eexists. split; [reflexivity|]. split; [apply stats_records_named|].
  apply Nat.le_trans
    with (length (firstn 50 (skipn 1 (find_all stats_table ["tr"] [])))).
  - apply length_flat_map_le. intros row. unfold stats_record.
    destruct (cells row) as [|c0 [|c1 [|c2 extra]]]; simpl; lia.
  - apply firstn_le_length.
Qed.

Lemma for_each_cons_ok {A S : Type} (body : A -> S -> result S) (x : A) (rest : list A)
  (s s' : S) :
  body x s = Ok s' -> for_each (x :: rest) body s = for_each rest body s'.
Proof. simpl. now intros ->. Qed.

Lemma comprehensive_row_named (row : list (string * pyval)) (acc : list record) (v : pyval) :
  dict_get "player_name" row = Some v ->
  comprehensive_row row acc
  = Ok (acc ++ [dict_update
                  [ ("player_name", v);
                    ("current_position", pd.series_get row "position" (PyStr ""));
                    ("current_score", pd.series_get row "score" (PyStr "")) ]
                  placeholder_stats]).
Proof. intros Hv. unfold comprehensive_row, pd.series_getitem. now rewrite Hv. Qed.

Lemma comprehensive_rows (rows : list (list (string * pyval))) :
  (forall row, In row rows -> exists v, dict_get "player_name" row = Some v) ->
  forall acc,
    exists out,
      for_each rows comprehensive_row acc = Ok (acc ++ out)
      /\ length out = length rows /\ Forall has_player_name out.
Proof.
  induction rows as [|row rest IH]; intros Hrows acc.
  - exists []. simpl. rewrite app_nil_r. repeat split. constructor.
  - destruct (Hrows row (or_introl eq_refl)) as (v & Hv).
    destruct (IH (fun r Hr => Hrows r (or_intror Hr))
                 (acc ++ [dict_update
                            [ ("player_name", v);
                              ("current_position", pd.series_get row "position" (PyStr ""));
                              ("current_score", pd.series_get row "score" (PyStr "")) ]
                            placeholder_stats]))
      as (out & Hout & Hlen & Hnamed).
    eexists (_ :: out).
    rewrite (for_each_cons_ok _ _ _ _ _
               (comprehensive_row_named row acc v Hv)), Hout, <- app_assoc.
    split; [reflexivity|].
    split; [simpl; now rewrite Hlen|].
    constructor; [unfold has_player_name; simpl; auto | exact Hnamed].
Qed.

Lemma length_iterrows (data : list record) :
  length (pd.iterrows (pd.DataFrame_of data)) = length data.
Proof. unfold pd.iterrows. simpl. now rewrite !length_map. Qed.

(** The combined dataset from a base frame. *)
Lemma comprehensive_of_base (base : list record) :
  Forall has_player_name base ->
  exists data,
    (if negb (pd.empty (pd.DataFrame_of base))
     then for_each (pd.iterrows (pd.DataFrame_of base)) comprehensive_row []
     else Ok []) = Ok data
    /\ length data = length base /\ Forall has_player_name data.
Proof.
  intros Hbase. rewrite (empty_DataFrame_of base Hbase).
  destruct base as [|r rest]; simpl negb; cbv iota.
  - exists []. repeat split. constructor.
  - destruct (comprehensive_rows (pd.iterrows (pd.DataFrame_of (r :: rest)))
                (fun row Hrow => iterrows_player_name _ row Hbase Hrow) [])
      as (out & Hout & Hlen & Hnamed).
    exists out. rewrite length_iterrows in Hlen. now repeat split.
Qed.

(** [get_comprehensive_stats] builds on the primary source, and on the
    secondary one when the primary yields no record. *)
Lemma get_comprehensive_stats_run (self : PGATourScraperFixed) (w : world) (st : state) :
  let st1 := requested leaderboard_url st in
  let st2 := requested espn_url st1 in
  exists primary secondary data,
    get_current_leaderboard self w st = (Ok (pd.DataFrame_of primary), st1)
    /\ scrape_espn_leaderboard self w st1 = (Ok (pd.DataFrame_of secondary), st2)
    /\ Forall has_player_name primary /\ Forall has_player_name secondary
    /\ get_comprehensive_stats self w st
       = (Ok (pd.DataFrame_of data), match primary with [] => st2 | _ :: _ => st1 end)
    /\ length data = length (match primary with [] => secondary | _ :: _ => primary end)
    /\ Forall has_player_name data.
Proof.
  intros st1 st2.
  destruct (get_current_leaderboard_run self w st) as (primary & Hp & Hprimary).
  destruct (scrape_espn_leaderboard_run self w st1) as (secondary & Hs & Hsecondary).
  unfold get_comprehensive_stats, bind. rewrite Hp.
  rewrite (empty_DataFrame_of primary Hprimary).
  destruct primary as [|r rest].
  - fold st1. rewrite Hs.
    destruct (comprehensive_of_base secondary Hsecondary) as (data & Hdata & Hlen & Hnamed).
    exists [], secondary, data. unfold lift, ret.
    destruct (pd.empty (pd.DataFrame_of secondary)); simpl negb in *; cbv iota in *.
    + inversion Hdata; subst. now repeat split.
    + rewrite Hdata. now repeat split.
  - unfold ret at 1.
    destruct (comprehensive_of_base (r :: rest) Hprimary) as (data & Hdata & Hlen & Hnamed).
    rewrite (empty_DataFrame_of (r :: rest) Hprimary) in *.
    simpl negb in *. cbv iota in *. unfold lift, ret.
    rewrite Hdata. exists (r :: rest), secondary, data. now repeat split.
Qed.

(** ** [test_scraper] *)

Lemma dict_set_Forall {A : Type} (P : string * A -> Prop) (k : string) (v : A)
  (d : list (string * A)) :
  (forall k', P (k', v)) -> Forall P d -> Forall P (dict_set k v d).
Proof.
  intros Hv. induction 1 as [|[k0 x] rest Hx Hrest IH]; simpl.
  - constructor; [apply Hv | constructor].
  - destruct (String.eqb k0 k); constructor; auto.
Qed.

Lemma keys_dict_set {A : Type} (k : string) (v : A) (d : list (string * A)) :
  incl (keys (dict_set k v d)) (k :: keys d).
Proof.
  induction d as [|[k0 x] rest IH]; simpl.
  - apply incl_refl.
  - destruct (String.eqb k0 k); simpl.
    + apply incl_tl, incl_refl.
    + intros y [<-|Hy]; [right; now left|].
      destruct (IH y Hy) as [<-|Hin]; [now left | right; now right].
Qed.

Lemma keep_result_nonempty (name : string) (df : pd.DataFrame)
  (results : list (string * pd.DataFrame)) :
  nonempty_frames results -> nonempty_frames (keep_result name df results).
Proof.
  intros H. unfold keep_result. destruct (pd.empty df) eqn:He; simpl; [exact H|].
  now apply dict_set_Forall.
Qed.

Lemma keys_keep_result (name : string) (df : pd.DataFrame)
  (results : list (string * pd.DataFrame)) :
  incl (keys (keep_result name df results)) (name :: keys results).
Proof.
  unfold keep_result. destruct (negb (pd.empty df)).
  - apply keys_dict_set.
  - apply incl_tl, incl_refl.
Qed.

Lemma dict_get_absent {A : Type} (k : string) (d : list (string * A)) :
  ~ In k (keys d) -> dict_get k d = None.
Proof.
  induction d as [|[k0 x] rest IH]; simpl; [reflexivity|].
  intros Hnot. destruct (String.eqb_spec k0 k) as [->|Hne]; [tauto|].
  apply IH. tauto.
Qed.

Lemma save_results_run (w : world) (results : list (string * pd.DataFrame)) :
  nonempty_frames results ->
  forall st,
    save_results w results st
    = (Ok tt, {| requests := requests st; files := files st ++ map (saved w) results |}).
Proof.
  induction 1 as [|[name df] rest Hdf Hrest IH]; intros st; simpl.
  - rewrite app_nil_r. now destruct st.
  - simpl in Hdf. unfold bind. rewrite Hdf. unfold write_csv. cbn.
    rewrite IH. cbn. now rewrite <- app_assoc.
Qed.

Lemma files_requested (url : string) (st : state) : files (requested url st) = files st.
Proof. reflexivity. Qed.

(** One run of [test_scraper]: the four operations in turn, then one file
    per frame kept. *)
Lemma test_scraper_run (w : world) (st : state) :
  let st1 := requested leaderboard_url st in
  let st2 := requested espn_url st1 in
  let st3 := requested (stat_url "STATS_YEAR") st2 in
  exists leaderboard espn_data stats comprehensive st4,
    get_current_leaderboard default_scraper w st = (Ok (pd.DataFrame_of leaderboard), st1)
    /\ scrape_espn_leaderboard default_scraper w st1 = (Ok (pd.DataFrame_of espn_data), st2)
    /\ scrape_player_stats_page default_scraper w "STATS_YEAR" st2
       = (Ok (pd.DataFrame_of stats), st3)
    /\ get_comprehensive_stats default_scraper w st3 = (Ok (pd.DataFrame_of comprehensive), st4)
    /\ files st4 = files st
    /\ let results :=
         keep_result "comprehensive" (pd.DataFrame_of comprehensive)
           (keep_result "stats" (pd.DataFrame_of stats)
              (keep_result "espn_leaderboard" (pd.DataFrame_of espn_data)
                 (keep_result "pga_leaderboard" (pd.DataFrame_of leaderboard) []))) in
       nonempty_frames results
       /\ Forall (fun r => exists data, snd r = pd.DataFrame_of data) results
       /\ test_scraper w st
          = (Ok results,
             {| requests := requests st4; files := files st ++ map (saved w) results |}).
Proof.
  intros st1 st2 st3.
  destruct (get_current_leaderboard_run default_scraper w st) as (d1 & H1 & _).
  destruct (scrape_espn_leaderboard_run default_scraper w st1) as (d2 & H2 & _).
  destruct (scrape_player_stats_page_run default_scraper w "STATS_YEAR" st2) as (d3 & H3 & _).
  destruct (get_comprehensive_stats_run default_scraper w st3)
    as (p & s & d4 & _ & _ & _ & _ & H4 & _).
  exists d1, d2, d3, d4. eexists. repeat (split; [eassumption|]).
  split; [now destruct p|].
  assert (Hne : nonempty_frames
                  (keep_result "comprehensive" (pd.DataFrame_of d4)
                     (keep_result "stats" (pd.DataFrame_of d3)
                        (keep_result "espn_leaderboard" (pd.DataFrame_of d2)
                           (keep_result "pga_leaderboard" (pd.DataFrame_of d1) []))))).
  { repeat apply keep_result_nonempty. constructor. }
  split; [exact Hne|]. split.
  - unfold keep_result.
    repeat match goal with
           | |- Forall _ (if ?b then _ else _) => destruct b
           | |- Forall _ (dict_set _ _ _) => apply dict_set_Forall; [intros; simpl; eauto|]
           end; constructor.
  - unfold test_scraper, bind. rewrite H1. fold st1. rewrite H2. fold st2.
    rewrite H3. fold st3. rewrite H4. rewrite (save_results_run w _ Hne).
    unfold ret. do 3 f_equal. now destruct p.
Qed.

Lemma NoDup_first_occurrences (l : list string) : NoDup (first_occurrences l).
Proof.
  induction l as [|k rest IH]; simpl; constructor.
  - rewrite filter_In. intros [_ H]. now rewrite String.eqb_refl in H.
  - now apply NoDup_filter.
Qed.

Lemma empty_frame_no_records (data : list record) :
  Forall has_player_name data -> pd.empty (pd.DataFrame_of data) = true -> data = [].
Proof.
  intros Hnamed. rewrite (empty_DataFrame_of data Hnamed).
  now destruct data.
Qed.

Lemma comprehensive_file_name (w : world) (name : string) :
  In name ["stats"; "espn_leaderboard"; "pga_leaderboard"] ->
  filename w name <> filename w "comprehensive".
Proof.
  unfold filename.
  intros [<-|[<-|[<-|[]]]]; simpl; discriminate.
Qed.

(** ** The field normalizer and the player page *)

Lemma all_digits_filter (s : string) : all_digits (Text.filter Text.is_digit s) = true.
Proof.
  induction s as [|c rest IH]; simpl; [reflexivity|].
  destruct (Text.is_digit c) eqn:Hc; simpl; [now rewrite Hc|exact IH].
Qed.

(** Integer coercion gives the value of the digits kept, unless the
    interpreter refuses their number. *)
Lemma parse_int_cases (w : world) (value_text : string) :
  parse_int w value_text
  = if too_many_digits w (String.length (Text.filter Text.is_digit value_text))
    then Raise ValueError
    else Ok (PyInt (digits_value (Text.filter Text.is_digit value_text) 0)).
Proof.
  unfold parse_int, int_of_str.
  destruct (Text.filter Text.is_digit value_text) as [|c rest] eqn:Hf.
  - unfold too_many_digits. simpl. now rewrite andb_false_r.
  - rewrite <- Hf, all_digits_filter. now rewrite Hf.
Qed.

Lemma few_digits (w : world) (n : nat) : n <= 640 -> too_many_digits w n = false.
Proof.
  intros H. unfold too_many_digits.
  replace (640 <? n)%nat with false by (symmetry; apply Nat.ltb_ge; exact H).
  apply andb_false_r.
Qed.

Lemma parse_float_cases (value_text : string) :
  (exists m e, parse_float value_text = Ok (PyFloat m e))
  \/ parse_float value_text = Raise ValueError.
Proof.
  unfold parse_float, float_of_str.
  destruct (Text.is_empty _); [left; now eexists _, _|].
  destruct (split_dot _) as [ip fp].
  destruct (_ && _); [left; now eexists _, _ | now right].
Qed.

Lemma dict_get_set_other {A : Type} (k field : string) (v : A) (d : list (string * A)) :
  k <> field -> dict_get field (dict_set k v d) = dict_get field d.
Proof.
  intros Hne. induction d as [|[k0 x] rest IH]; simpl.
  - now destruct (String.eqb_spec k field).
  - destruct (String.eqb_spec k0 k) as [->|Hk]; simpl.
    + now destruct (String.eqb_spec k field).
    + now rewrite IH.
Qed.

Ltac field_written key :=
  cbn [rbind]; intros [= <-]; split;
  [ eexists _, _, _; split; [reflexivity | now repeat split]
  | intros field Hf;
    match goal with
    | |- _ = dict_get _ ?d =>
        exact (dict_get_set_other key field _ d (fun E => Hf (f_equal Some E)))
    end ].

Lemma stat_item_step (w : world) (player_name : string) (item : node)
  (stats stats' : record) :
  career_stats player_name stats ->
  stat_item w item stats = Ok stats' ->
  career_stats player_name stats'
  /\ forall field, item_field item <> Some field ->
                   dict_get field stats' = dict_get field stats.
Proof.
  intros (wins & top10s & earnings & -> & Hw & Ht & He).
  unfold stat_item, item_field.
  destruct (find item "span" [("class", MStr "label")]) as [label|];
    [|intros H; inversion H; subst; split; [now exists wins, top10s, earnings | reflexivity]].
  destruct (find item "span" [("class", MStr "value")]) as [value|];
    [|intros H; inversion H; subst; split; [now exists wins, top10s, earnings | reflexivity]].
  cbv zeta.
  destruct (Text.contains "wins" _).
  { rewrite parse_int_cases. destruct (too_many_digits _ _);
      [discriminate | field_written "career_wins"]. }
  destruct (Text.contains "top 10" _).
  { rewrite parse_int_cases. destruct (too_many_digits _ _);
      [discriminate | field_written "career_top10s"]. }
  destruct (Text.contains "earnings" _).
  { destruct (parse_float_cases (get_text_strip value)) as [(m & e & ->)| ->];
      [field_written "career_earnings" | discriminate]. }
  intros H; inversion H; subst. split; [now exists wins, top10s, earnings | reflexivity].
Qed.

Lemma stat_items_loop (w : world) (player_name : string) (items : list node) :
  forall stats stats',
    career_stats player_name stats ->
    for_each items (stat_item w) stats = Ok stats' ->
    career_stats player_name stats'
    /\ forall field, Forall (fun item => item_field item <> Some field) items ->
                     dict_get field stats' = dict_get field stats.
Proof.
  induction items as [|item rest IH]; intros stats stats' Hinv Hrun; simpl in Hrun.
  - inversion Hrun; subst. now split.
  - destruct (stat_item w item stats) as [mid|e] eqn:Hitem; simpl in Hrun; [|discriminate].
    destruct (stat_item_step _ _ _ _ _ Hinv Hitem) as (Hmid & Hsame).
    destruct (IH _ _ Hmid Hrun) as (Hfinal & Hrest).
    split; [exact Hfinal|].
    intros field Hall. inversion Hall; subst.
    rewrite Hrest by assumption. now apply Hsame.
Qed.

Lemma initial_stats_career (player_name : string) :
  career_stats player_name (initial_stats player_name).
Proof. now exists (PyInt 0), (PyInt 0), (PyInt 0). Qed.

(** What [get_player_historical_stats] returns, by the outcome of the
    request and of the loop over the stat elements. *)
Lemma get_player_historical_stats_run (self : PGATourScraperFixed) (w : world)
  (player_name : string) (st : state) :
  get_player_historical_stats self w player_name st
  = (Ok match fetched self w st (player_url player_name) with
        | Ok response =>
            if (status_code response =? 200)%Z then
              match for_each (stat_items (content response)) (stat_item w)
                      (initial_stats player_name) with
              | Ok stats => stats
              | Raise _ => []
              end
            else []
        | Raise _ => []
        end,
     requested (player_url player_name) st).
Proof.
  unfold get_player_historical_stats, stat_items. run_M.
  destruct (fetched self w st (player_url player_name)) as [response|e];
    [|reflexivity].
  destruct (status_code response =? 200)%Z; [|reflexivity].
  now destruct (for_each _ (stat_item w) (initial_stats player_name)).
Qed.

(** ** Historical results *)

Lemma scrape_historical_results_run (self : PGATourScraperFixed) (w : world)
  (year : Z) (st : state) :
  exists data,
    scrape_historical_results self w year st
    = (Ok (pd.DataFrame_of data), requested (schedule_url year) st).
Proof.
  unfold scrape_historical_results. run_M.
  destruct (fetched self w st (schedule_url year)) as [response|e];
    [|now exists []].
  destruct (status_code response =? 200)%Z; [|now exists []].
  destruct (for_each _ tournament_row []) as [tournaments|e]; [|now exists []].
  now exists tournaments.
Qed.

(** * The claims *)

(** ** The JSON-path extractor *)

(** C1, as the code has it: the candidate paths are tried in order and the
    first one that resolves to a list decides the result.  When every
    element of that list is a mapping, the result is the list of their
    translations, one Record per element, in order; when some element is
    not a mapping, the error is caught and the result is empty.  When no
    path resolves to a list the result is empty.  The extractor returns
    normally on every document. *)
Theorem json_extractor_first_list_wins (data : pyval) :
  (forall before path after current,
      paths = before ++ path :: after ->
      Forall (fun p => ~ resolves_to_list data p) before ->
      navigate data path = Some (PyList current) ->
      _extract_leaderboard_from_json data
      = Ok (if forallb is_dict current then map translate current else []))
  /\ (Forall (fun p => ~ resolves_to_list data p) paths ->
      _extract_leaderboard_from_json data = Ok [])
  /\ exists records, _extract_leaderboard_from_json data = Ok records.
Proof.
  split; [|split].
  - intros before path after current Hpaths Hbefore Hpath.
    unfold _extract_leaderboard_from_json. rewrite Hpaths.
    rewrite (extract_paths_first data before path after current [] Hbefore Hpath).
    destruct (forallb is_dict current) eqn:Hd.
    + now rewrite (append_players_dicts current Hd).
    + now rewrite (append_players_not_dict current Hd).
  - intros Hnone. unfold _extract_leaderboard_from_json.
    now rewrite (extract_paths_none data paths Hnone).
  - apply extract_total.
Qed.

Lemma json_extractor_first_list_wins_witness :
  _extract_leaderboard_from_json Samples.players_doc
  = Ok Samples.players_records.
Proof.
  exact (proj1 (json_extractor_first_list_wins Samples.players_doc)
           [] ["props"; "pageProps"; "leaderboard"; "players"] _ _
           eq_refl (Forall_nil _) eq_refl).
Defined.

(** C1 as stated fails where the winning list holds an element that is not
    a mapping: the first path resolves to a list of two elements, and no
    Record at all is returned. *)
Lemma json_extractor_null_entry :
  navigate Samples.null_entry_doc ["props"; "pageProps"; "leaderboard"; "players"]
  = Some (PyList [PyDict [("playerName", PyStr "Jon Rahm")]; PyNone])
  /\ _extract_leaderboard_from_json Samples.null_entry_doc = Ok [].
Proof. split; reflexivity. Qed.

(** C9: every Record of the JSON-path extractor has exactly the six fields
    player_name, position, total_score, score_to_par, thru, today; it comes
    from a player entry of a list some candidate path leads to, and each
    field holds the entry's value under its source key, the empty string
    when the entry lacks that key. *)
Theorem json_records_have_six_fields (data : pyval) (records : list record) :
  _extract_leaderboard_from_json data = Ok records ->
  forall r, In r records ->
    keys r = ["player_name"; "position"; "total_score"; "score_to_par"; "thru"; "today"]
    /\ exists path current player,
         In path paths /\ navigate data path = Some (PyList current)
         /\ In (PyDict player) current
         /\ forall source field, In (source, field) field_translation ->
              dict_get field r
              = Some (match dict_get source player with
                      | Some v => v
                      | None => PyStr ""
                      end)
              /\ (dict_get source player = None -> dict_get field r = Some (PyStr "")).
Proof.
  unfold _extract_leaderboard_from_json. intros H r Hr.
  destruct (extract_paths data paths []) as [rs|e] eqn:Hx; simpl in H;
    inversion H; subst; [|destruct Hr].
  destruct (extract_paths_origin _ _ _ _ Hx) as [->|(path & current & Hin & Hnav & Hd & ->)];
    [destruct Hr|].
  simpl in Hr. apply in_map_iff in Hr as (p & <- & Hp).
  rewrite forallb_forall in Hd. specialize (Hd p Hp).
  destruct p as [| | | | | | |player]; try discriminate.
  split; [reflexivity|].
  exists path, current, player. repeat (split; [assumption|]).
  intros source field Hsf.
  assert (Hget : dict_get field (translate (PyDict player))
                 = Some match dict_get source player with
                        | Some v => v
                        | None => PyStr ""
                        end).
  { simpl in Hsf.
    repeat (destruct Hsf as [[= <- <-]|Hsf]; [reflexivity|]). destruct Hsf. }
  split; [exact Hget|]. intros Habsent. now rewrite Hget, Habsent.
Qed.

Lemma json_records_have_six_fields_witness :
  let r := [ ("player_name", PyStr "Rory McIlroy"); ("position", PyStr "");
             ("total_score", PyStr ""); ("score_to_par", PyStr "");
             ("thru", PyStr ""); ("today", PyStr "") ] in
  keys r = ["player_name"; "position"; "total_score"; "score_to_par"; "thru"; "today"]
  /\ exists path current player,
       In path paths /\ navigate Samples.players_doc path = Some (PyList current)
       /\ In (PyDict player) current
       /\ forall source field, In (source, field) field_translation ->
            dict_get field r
            = Some (match dict_get source player with
                    | Some v => v
                    | None => PyStr ""
                    end)
            /\ (dict_get source player = None -> dict_get field r = Some (PyStr "")).
Proof.
  exact (json_records_have_six_fields Samples.players_doc Samples.players_records
           eq_refl _ (or_intror (or_introl eq_refl))).
Defined.

(** ** The markup-table fallback extractor *)

Lemma length_leaderboard_records (rows : list node) :
  length (flat_map leaderboard_record rows)
  = length (List.filter (fun row => (3 <=? length (cells row))%nat) rows).
Proof.
  induction rows as [|row rest IH]; simpl; [reflexivity|].
  rewrite length_app, IH. unfold leaderboard_record.
  destruct (cells row) as [|c0 [|c1 [|c2 extra]]]; reflexivity.
Qed.

(** C2: once a table is located, its first row is skipped and the remaining
    rows are read in document order; a row with at least three cells gives
    exactly one Record (cell 0 is the position, cell 1 the name, cell 2 the
    score, cells 3 and 4 the optional thru and today, empty when missing),
    a row with fewer than three cells gives none.  The frame returned has
    one row per Record. *)
Theorem table_rows_become_records (soup table : node) :
  locate_table soup = Some table ->
  let data_rows := skipn 1 (table_rows table) in
  _scrape_leaderboard_table soup
  = Ok (pd.DataFrame_of (flat_map leaderboard_record data_rows))
  /\ length (pd.rows (pd.DataFrame_of (flat_map leaderboard_record data_rows)))
     = length (List.filter (fun row => (3 <=? length (cells row))%nat) data_rows)
  /\ (forall row, 3 <= length (cells row) ->
        exists c0 c1 c2 extra,
          cells row = c0 :: c1 :: c2 :: extra
          /\ leaderboard_record row
             = [ [ ("position", PyStr (get_text_strip c0));
                   ("player_name", PyStr (get_text_strip c1));
                   ("score", PyStr (get_text_strip c2));
                   ("thru", optional_text (nth_error extra 0));
                   ("today", optional_text (nth_error extra 1)) ] ])
  /\ (forall row, length (cells row) < 3 -> leaderboard_record row = []).
Proof.
  intros Hlocate data_rows. split; [|split; [|split]].
  - rewrite scrape_leaderboard_table_run, Hlocate. reflexivity.
  - simpl. rewrite length_map. apply length_leaderboard_records.
  - intros row Hlen. unfold leaderboard_record.
    destruct (cells row) as [|c0 [|c1 [|c2 extra]]]; simpl in Hlen; try lia.
    now exists c0, c1, c2, extra.
  - intros row Hlen. unfold leaderboard_record.
    destruct (cells row) as [|c0 [|c1 [|c2 extra]]]; simpl in Hlen; try lia; reflexivity.
Qed.

Lemma table_rows_become_records_witness :
  locate_table Samples.leaderboard_page = Some Samples.leaderboard_table
  /\ _scrape_leaderboard_table Samples.leaderboard_page
     = Ok (pd.DataFrame_of
             [ [ ("position", PyStr "1"); ("player_name", PyStr "Jon Rahm");
                 ("score", PyStr "-12"); ("thru", PyStr "F"); ("today", PyStr "-4") ];
               [ ("position", PyStr "T2"); ("player_name", PyStr "Rory McIlroy");
                 ("score", PyStr "-10"); ("thru", PyStr ""); ("today", PyStr "") ] ]).
Proof.
  split; [reflexivity|].
  exact (proj1 (table_rows_become_records Samples.leaderboard_page
                  Samples.leaderboard_table eq_refl)).
Defined.

(** ** The statistics page *)

(** C8: [scrape_player_stats_page] returns at most 50 Records on every
    input; on a fetched page with a statistics table the result is read off
    the first 50 rows after the header row, whatever rows follow them. *)
Theorem stats_page_at_most_50 (self : PGATourScraperFixed) (w : world)
  (stat_type : string) (st : state) :
  (exists data,
      scrape_player_stats_page self w stat_type st
      = (Ok (pd.DataFrame_of data), requested (stat_url stat_type) st)
      /\ length data <= 50
      /\ length (pd.rows (pd.DataFrame_of data)) <= 50)
  /\ (forall response stats_table,
        fetched self w st (stat_url stat_type) = Ok response ->
        status_code response = 200%Z ->
        locate_stats_table (content response) = Some stats_table ->
        fst (scrape_player_stats_page self w stat_type st)
        = Ok (pd.DataFrame_of
                (flat_map stats_record (firstn 50 (skipn 1 (table_rows stats_table)))))).
Proof.
  split.
  - destruct (scrape_player_stats_page_run self w stat_type st) as (data & Hrun & _ & Hlen).
    exists data. repeat split; [exact Hrun | exact Hlen|].
    simpl. now rewrite length_map.
  - intros response stats_table Hget Hstatus Hlocate.
    unfold scrape_player_stats_page, table_rows. run_M.
    rewrite Hget, Hstatus, Hlocate. simpl.
    now rewrite (for_each_flat_map stats_row stats_record)
      by (intros; apply stats_row_spec).
Qed.

Lemma stats_page_at_most_50_witness :
  length (table_rows Samples.stats_page) = 61
  /\ fst (scrape_player_stats_page default_scraper Samples.stats_site
            "STATS_YEAR" Samples.start)
     = Ok (pd.DataFrame_of
             (repeat [ ("rank", PyStr "1"); ("player_name", PyStr "Jon Rahm");
                       ("value", PyStr "1.5"); ("rounds", PyStr "40") ] 50)).
Proof.
  split; [reflexivity|].
  exact (proj2 (stats_page_at_most_50 default_scraper
                  Samples.stats_site "STATS_YEAR" Samples.start)
           _ _ eq_refl eq_refl eq_refl).
Defined.

(** ** The field normalizer *)

(** C5: integer parsing keeps the digits only and gives their value, zero
    when none is left, so "1,234" gives 1234 and "" gives 0; float parsing
    keeps digits and dots only and gives zero when nothing is left, so
    "$45.6M" is cut down to "45.6" and gives the float 45.6.  (Up to 640
    digits are converted by every interpreter, whatever its limit.) *)
Theorem numeric_coercion (w : world) :
  (forall value_text,
      String.length (Text.filter Text.is_digit value_text) <= 640 ->
      parse_int w value_text
      = Ok (PyInt (digits_value (Text.filter Text.is_digit value_text) 0)))
  /\ (forall value_text,
        Text.filter Text.is_digit value_text = "" -> parse_int w value_text = Ok (PyInt 0))
  /\ parse_int w "1,234" = Ok (PyInt 1234)
  /\ parse_int w "" = Ok (PyInt 0)
  /\ (forall value_text,
        Text.filter (fun c => Text.is_digit c || Ascii.eqb c ".") value_text = "" ->
        parse_float value_text = Ok (PyFloat 0 0))
  /\ Text.filter (fun c => Text.is_digit c || Ascii.eqb c ".") "$45.6M" = "45.6"
  /\ parse_float "$45.6M" = Ok (PyFloat 456 (-1)).
Proof.
  split; [intros value_text H; now rewrite parse_int_cases, (few_digits w _ H)|].
  split; [intros value_text H; unfold parse_int; now rewrite H|].
  split; [rewrite parse_int_cases, few_digits by (simpl; lia); reflexivity|].
  split; [reflexivity|].
  split; [intros value_text H; unfold parse_float; now rewrite H|].
  split; reflexivity.
Qed.

Lemma numeric_coercion_witness :
  parse_int Samples.offline "Tied 3rd (2019)" = Ok (PyInt 32019)
  /\ parse_int Samples.offline "N/A" = Ok (PyInt 0)
  /\ parse_float "N/A" = Ok (PyFloat 0 0).
Proof.
  split; [|split].
  - refine (proj1 (numeric_coercion Samples.offline) "Tied 3rd (2019)" _).
    simpl. lia.
  - exact (proj1 (proj2 (numeric_coercion Samples.offline)) "N/A" eq_refl).
  - exact (proj1 (proj2 (proj2 (proj2 (proj2 (numeric_coercion Samples.offline)))))
             "N/A" eq_refl).
Defined.

(** ** Name cleaning *)

Lemma sub_country_code_other (ch : ascii) (s : string) :
  Ascii.eqb ch "(" = false ->
  sub_country_code (String ch s) = String ch (sub_country_code s).
Proof.
  intros Hch. destruct s as [|a [|b [|c [|d rest]]]]; try reflexivity.
  change (sub_country_code (String ch (String a (String b (String c (String d rest))))))
    with (if Ascii.eqb ch "(" && Text.is_upper a && Text.is_upper b && Text.is_upper c
             && Ascii.eqb d ")"
          then sub_country_code rest
          else String ch (sub_country_code (String a (String b (String c (String d rest)))))).
  now rewrite Hch.
Qed.

Lemma contains_paren_cons (ch : ascii) (s : string) :
  Text.contains "(" (String ch s) = false ->
  Ascii.eqb ch "(" = false /\ Text.contains "(" s = false.
Proof.
  simpl. intros H. apply orb_false_iff in H as [Hp Hs]. split; [|exact Hs].
  destruct (Ascii.eqb_spec ch "(") as [->|Hne]; [|reflexivity].
  simpl in Hp. now destruct s.
Qed.

Lemma sub_country_code_trailing (name : string) (a b c : ascii) :
  Text.contains "(" name = false ->
  Text.is_upper a = true -> Text.is_upper b = true -> Text.is_upper c = true ->
  sub_country_code (name ++ country_code a b c) = name.
Proof.
  intros Hname Ha Hb Hc. induction name as [|ch rest IH].
  - simpl. now rewrite Ha, Hb, Hc.
  - apply contains_paren_cons in Hname as [Hch Hrest].
    change (String ch rest ++ country_code a b c)%string
      with (String ch (rest ++ country_code a b c)).
    rewrite (sub_country_code_other _ _ Hch). now rewrite IH.
Qed.

(** C6: the name cleaning of the secondary-source extractor removes a
    trailing parenthesized code of three capitals, and the surrounding
    whitespace with it; "Jon Rahm (ESP)" becomes "Jon Rahm". *)
Theorem name_cleaning_strips_country_code :
  (forall name a b c,
      Text.contains "(" name = false ->
      Text.is_upper a = true -> Text.is_upper b = true -> Text.is_upper c = true ->
      clean_player_name (name ++ country_code a b c) = Text.strip name)
  /\ clean_player_name "Jon Rahm (ESP)" = "Jon Rahm"
  /\ fst (scrape_espn_leaderboard default_scraper Samples.espn_site Samples.start)
     = Ok (pd.DataFrame_of
             [ [ ("position", PyStr "1"); ("player_name", PyStr "Jon Rahm");
                 ("score", PyStr "-12"); ("thru", PyStr "F"); ("today", PyStr "");
                 ("r1", PyStr ""); ("r2", PyStr ""); ("r3", PyStr ""); ("r4", PyStr "") ] ]).
Proof.
  split; [|split; reflexivity].
  intros name a b c Hname Ha Hb Hc. unfold clean_player_name.
  now rewrite sub_country_code_trailing.
Qed.

Lemma name_cleaning_strips_country_code_witness :
  clean_player_name ("Rory McIlroy " ++ country_code "N" "I" "R") = "Rory McIlroy".
Proof.
  exact (proj1 name_cleaning_strips_country_code "Rory McIlroy " "N"%char "I"%char "R"%char
           eq_refl eq_refl eq_refl eq_refl).
Defined.

(** ** Export *)

(** C7: for every RecordSet the file written has the union of the keys as
    its columns, in first-seen order, and one data row per Record; three
    Records with the fields a,b then a,c then a,b,c give the columns a,b,c
    and three data rows; and [test_scraper] writes exactly one such file per
    frame it kept. *)
Theorem export_columns_first_seen :
  (forall data,
      let file := pd.to_csv (pd.DataFrame_of data) in
      pd.csv_header file = first_occurrences (concat (map keys data))
      /\ NoDup (pd.csv_header file)
      /\ (forall k, In k (pd.csv_header file) <-> exists r, In r data /\ In k (keys r))
      /\ length (pd.csv_rows file) = length data)
  /\ (forall a1 b1 a2 c2 a3 b3 c3 : pyval,
        let file := pd.to_csv (pd.DataFrame_of [ [("a", a1); ("b", b1)];
                                                 [("a", a2); ("c", c2)];
                                                 [("a", a3); ("b", b3); ("c", c3)] ]) in
        pd.csv_header file = ["a"; "b"; "c"]
        /\ pd.csv_rows file = [ [a1; b1; PyNaN]; [a2; PyNaN; c2]; [a3; b3; c3] ])
  /\ (forall w st,
        exists results st',
          test_scraper w st = (Ok results, st')
          /\ files st' = files st ++ map (saved w) results
          /\ Forall (fun r => exists data, snd r = pd.DataFrame_of data) results).
Proof.
  split; [|split].
  - intros data file. subst file. simpl.
    split; [apply first_seen_keys_spec|].
    split; [rewrite first_seen_keys_spec; apply NoDup_first_occurrences|].
    split; [intros k; apply In_first_seen_keys | apply length_map].
  - intros. subst file. split; reflexivity.
  - intros w st.
    destruct (test_scraper_run w st)
      as (d1 & d2 & d3 & d4 & st4 & _ & _ & _ & _ & _ & _ & Hframes & Hrun).
    eexists _, _. split; [exact Hrun|]. split; [reflexivity | exact Hframes].
Qed.

Lemma export_columns_first_seen_witness :
  pd.csv_header (pd.to_csv (pd.DataFrame_of Samples.players_records))
  = ["player_name"; "position"; "total_score"; "score_to_par"; "thru"; "today"]
  /\ length (pd.csv_rows (pd.to_csv (pd.DataFrame_of Samples.players_records))) = 2.
Proof.
  destruct (proj1 export_columns_first_seen Samples.players_records)
    as (Hheader & _ & _ & Hrows).
  split; [exact Hheader | exact Hrows].
Defined.

(** ** Fallback to the secondary source *)

(** C3: when the primary source's pipeline yields an empty RecordSet,
    [get_comprehensive_stats] goes on to request the secondary source; its
    result then has one Record per Record of the secondary source, and is
    empty when the secondary source yields nothing either.  In
    [test_scraper] an empty combined result is not kept, and no file is
    written for it. *)
Theorem fallback_to_secondary_source (self : PGATourScraperFixed) (w : world) (st : state) :
  let st1 := requested leaderboard_url st in
  let st2 := requested espn_url st1 in
  (forall primary,
      fst (get_current_leaderboard self w st) = Ok primary ->
      pd.empty primary = true ->
      exists secondary,
        scrape_espn_leaderboard self w st1 = (Ok secondary, st2)
        /\ snd (get_comprehensive_stats self w st) = st2
        /\ requests st2 = requests st ++ [leaderboard_url; espn_url]
        /\ (pd.empty secondary = true ->
            fst (get_comprehensive_stats self w st) = Ok (pd.DataFrame_of []))
        /\ (pd.empty secondary = false ->
            exists data,
              fst (get_comprehensive_stats self w st) = Ok (pd.DataFrame_of data)
              /\ length data = length (pd.rows secondary)))
  /\ (forall comprehensive,
        let st3 := requested (stat_url "STATS_YEAR") st2 in
        fst (get_comprehensive_stats default_scraper w st3) = Ok comprehensive ->
        pd.empty comprehensive = true ->
        exists results st',
          test_scraper w st = (Ok results, st')
          /\ dict_get "comprehensive" results = None
          /\ files st' = files st ++ map (saved w) results
          /\ ~ In (filename w "comprehensive") (map fst (map (saved w) results))).
Proof.
  intros st1 st2. split.
  - intros primary Hprimary Hempty.
    destruct (get_comprehensive_stats_run self w st)
      as (pdata & sdata & data & Hp & Hs & Hpn & Hsn & Hrun & Hlen & _).
    fold st1 in Hp, Hs, Hrun. fold st2 in Hs, Hrun.
    rewrite Hp in Hprimary. simpl in Hprimary. inversion Hprimary; subst primary.
    apply (empty_frame_no_records pdata Hpn) in Hempty. subst pdata.
    exists (pd.DataFrame_of sdata). rewrite Hrun. simpl fst. simpl snd.
    split; [exact Hs|]. split; [reflexivity|].
    split; [simpl; now rewrite <- app_assoc|]. split.
    + intros Hsecond. apply (empty_frame_no_records sdata Hsn) in Hsecond. subst sdata.
      now destruct data.
    + intros _. exists data. split; [reflexivity|].
      simpl pd.rows. now rewrite length_map.
  - intros comprehensive st3 Hcomp Hempty.
    destruct (test_scraper_run w st)
      as (d1 & d2 & d3 & d4 & st4 & _ & _ & _ & H4 & _ & _ & _ & Hrun).
    fold st1 st2 st3 in H4. rewrite H4 in Hcomp. simpl in Hcomp.
    inversion Hcomp; subst comprehensive.
    assert (Hdrop : forall rs, keep_result "comprehensive" (pd.DataFrame_of d4) rs = rs)
      by (intros rs; unfold keep_result; now rewrite Hempty).
    rewrite !Hdrop in Hrun.
    set (results := keep_result "stats" (pd.DataFrame_of d3)
                      (keep_result "espn_leaderboard" (pd.DataFrame_of d2)
                         (keep_result "pga_leaderboard" (pd.DataFrame_of d1) []))) in *.
    assert (Hkeys : incl (keys results) ["stats"; "espn_leaderboard"; "pga_leaderboard"]).
    { subst results. intros k Hk.
      apply keys_keep_result in Hk as [<-|Hk]; [now left|]. right.
      apply keys_keep_result in Hk as [<-|Hk]; [now left|]. right.
      apply keys_keep_result in Hk as [<-|Hk]; [now left | destruct Hk]. }
    eexists _, _. split; [exact Hrun|]. split; [|split; [reflexivity|]].
    + apply dict_get_absent. intros Hin. apply Hkeys in Hin.
      simpl in Hin. repeat (destruct Hin as [Hin|Hin]; [discriminate|]). destruct Hin.
    + rewrite map_map. intros Hin. apply in_map_iff in Hin as ([name df] & Hname & Hin).
      simpl in Hname. apply (comprehensive_file_name w name); [|exact Hname].
      apply Hkeys. unfold keys. now apply (in_map fst) in Hin.
Qed.

Lemma fallback_to_secondary_source_witness :
  snd (get_comprehensive_stats default_scraper Samples.offline Samples.start)
  = requested espn_url (requested leaderboard_url Samples.start)
  /\ exists results st',
       test_scraper Samples.blank_site Samples.start = (Ok results, st')
       /\ dict_get "comprehensive" results = None
       /\ files st' = files Samples.start
                      ++ map (saved Samples.blank_site) results
       /\ ~ In (filename Samples.blank_site "comprehensive")
            (map fst (map (saved Samples.blank_site) results)).
Proof.
  split.
  - destruct (proj1 (fallback_to_secondary_source default_scraper
                       Samples.offline Samples.start)
                (pd.DataFrame_of []) eq_refl eq_refl) as (secondary & _ & Hstate & _).
    exact Hstate.
  - exact (proj2 (fallback_to_secondary_source default_scraper
                    Samples.blank_site Samples.start)
             (pd.DataFrame_of []) eq_refl eq_refl).
Defined.

(** ** The player page *)

Lemma stat_item_write (w : world) (item : node) (stats : record) :
  stat_item w item stats
  = match item_write w item with
    | None => Ok stats
    | Some (field, Ok v) => Ok (dict_set field v stats)
    | Some (field, Raise e) => Raise e
    end.
Proof.
  unfold stat_item, item_write.
  destruct (find item "span" [("class", MStr "label")]) as [label|]; [|reflexivity].
  destruct (find item "span" [("class", MStr "value")]) as [value|]; [|reflexivity].
  cbv zeta.
  destruct (Text.contains "wins" _); [now destruct (parse_int w _)|].
  destruct (Text.contains "top 10" _); [now destruct (parse_int w _)|].
  destruct (Text.contains "earnings" _); [now destruct (parse_float _)|].
  reflexivity.
Qed.

(** Stat elements whose values all coerce are read to the end. *)
Lemma stat_items_read (w : world) (items : list node) :
  Forall (fun item => forall field e, item_write w item <> Some (field, Raise e)) items ->
  forall stats, exists final, for_each items (stat_item w) stats = Ok final.
Proof.
  induction 1 as [|item rest Hitem Hrest IH]; intros stats; simpl; [eauto|].
  rewrite stat_item_write.
  destruct (item_write w item) as [[field [v|e]]|]; simpl; [apply IH | | apply IH].
  exfalso. now apply (Hitem field e).
Qed.

(** C10: for every player name [get_player_historical_stats] returns
    normally, with either an empty dictionary or a dictionary of exactly
    the keys player_name, career_wins, career_top10s, career_earnings whose
    three career fields are numeric.  A failed request (an exception or a
    status other than 200) gives the empty dictionary, and so does any
    exception of the wait after the request or while the stat elements are
    read, whatever was parsed before it.  On a page fetched with status 200
    whose stat elements are read without an exception (as they are when
    every value they hold coerces), the dictionary of the four keys is
    returned; in it a career field no stat element of the page writes is 0,
    and all three are 0 on a page without stat elements. *)
Theorem player_stats_shape (self : PGATourScraperFixed) (w : world)
  (player_name : string) (st : state) :
  exists stats,
    get_player_historical_stats self w player_name st
    = (Ok stats, requested (player_url player_name) st)
    /\ (stats = [] \/ career_stats player_name stats)
    /\ (request_failed w st (player_url player_name) -> stats = [])
    /\ (forall e, fetched self w st (player_url player_name) = Raise e -> stats = [])
    /\ (forall response,
          fetched self w st (player_url player_name) = Ok response ->
          status_code response = 200%Z ->
          let items := stat_items (content response) in
          (forall e,
              for_each items (stat_item w) (initial_stats player_name) = Raise e ->
              stats = [])
          /\ (forall final,
                for_each items (stat_item w) (initial_stats player_name) = Ok final ->
                stats = final
                /\ career_stats player_name stats
                /\ forall field,
                     In field career_fields ->
                     Forall (fun item => item_field item <> Some field) items ->
                     dict_get field stats = Some (PyInt 0))
          /\ (Forall (fun item => forall field e,
                                    item_write w item <> Some (field, Raise e)) items ->
              career_stats player_name stats)
          /\ (items = [] ->
              stats = [ ("player_name", PyStr player_name);
                        ("career_wins", PyInt 0);
                        ("career_top10s", PyInt 0);
                        ("career_earnings", PyInt 0) ])).
Proof.
  eexists. split; [apply get_player_historical_stats_run|].
  pose proof (fetched_failed self w st (player_url player_name)) as Hfailed.
  destruct (fetched self w st (player_url player_name)) as [response|e].
  2:{ split; [now left|]. split; [reflexivity|]. split; [reflexivity|].
      intros r H. discriminate. }
  destruct (Z.eqb_spec (status_code response) 200) as [Hstatus|Hstatus].
  2:{ split; [now left|]. split; [reflexivity|]. split; [reflexivity|].
      intros r [= <-] H200. contradiction. }
  destruct (for_each (stat_items (content response)) (stat_item w) (initial_stats player_name))
    as [final|e] eqn:Hloop.
  - destruct (stat_items_loop w player_name _ _ _ (initial_stats_career player_name) Hloop)
      as (Hshape & Hkept).
    split; [now right|].
    split; [intros H; specialize (Hfailed H); discriminate|].
    split; [discriminate|].
    intros r [= <-] _ items. subst items. rewrite Hloop.
    split; [discriminate|]. split; [|split].
    + intros final' [= <-]. split; [reflexivity|]. split; [exact Hshape|].
      intros field Hfield Hnone. rewrite (Hkept field Hnone).
      simpl in Hfield. repeat (destruct Hfield as [<-|Hfield]; [reflexivity|]).
      destruct Hfield.
    + intros _. exact Hshape.
    + intros Hnone. rewrite Hnone in Hloop. now injection Hloop as <-.
  - split; [now left|]. split; [reflexivity|]. split; [reflexivity|].
    intros r [= <-] _ items. subst items. rewrite Hloop.
    split; [reflexivity|]. split; [discriminate|]. split.
    + intros Hread.
      destruct (stat_items_read w _ Hread (initial_stats player_name)) as (final & Hok).
      congruence.
    + intros Hnone. rewrite Hnone in Hloop. discriminate.
Qed.

Lemma player_stats_shape_witness :
  fst (get_player_historical_stats default_scraper Samples.garbled_site
         "Jon Rahm" Samples.start) = Ok []
  /\ fst (get_player_historical_stats default_scraper Samples.missing_site
            "Jon Rahm" Samples.start) = Ok []
  /\ fst (get_player_historical_stats default_scraper Samples.player_site
            "Jon Rahm" Samples.start)
     = Ok [ ("player_name", PyStr "Jon Rahm"); ("career_wins", PyInt 11);
            ("career_top10s", PyInt 0); ("career_earnings", PyFloat 456 (-1)) ]
  /\ fst (get_player_historical_stats default_scraper Samples.blank_site
            "Jon Rahm" Samples.start)
     = Ok [ ("player_name", PyStr "Jon Rahm"); ("career_wins", PyInt 0);
            ("career_top10s", PyInt 0); ("career_earnings", PyInt 0) ].
Proof.
  split; [|split; [|split]].
  - destruct (player_stats_shape default_scraper Samples.garbled_site
                "Jon Rahm" Samples.start) as (stats & Hrun & _ & _ & _ & Hpage).
    rewrite Hrun. simpl fst. f_equal.
    exact (proj1 (Hpage _ eq_refl eq_refl) ValueError eq_refl).
  - destruct (player_stats_shape default_scraper Samples.missing_site
                "Jon Rahm" Samples.start) as (stats & Hrun & _ & Hfailed & _).
    rewrite Hrun. simpl fst. f_equal. apply Hfailed.
    unfold request_failed. simpl. discriminate.
  - destruct (player_stats_shape default_scraper Samples.player_site
                "Jon Rahm" Samples.start) as (stats & Hrun & _ & _ & _ & Hpage).
    rewrite Hrun. simpl fst. f_equal.
    exact (proj1 (proj1 (proj2 (Hpage _ eq_refl eq_refl)) _ eq_refl)).
  - destruct (player_stats_shape default_scraper Samples.blank_site
                "Jon Rahm" Samples.start) as (stats & Hrun & _ & _ & _ & Hpage).
    rewrite Hrun. simpl fst. f_equal.
    exact (proj2 (proj2 (proj2 (Hpage _ eq_refl eq_refl))) eq_refl).
Defined.

(** ** Error handling *)

Ltac failed_request self url :=
  let H := fresh "H" in
  let response := fresh "response" in
  intros H; apply (fetched_failed self) in H; run_M;
  destruct (fetched self _ _ url) as [response|];
  [now rewrite H | reflexivity].

Lemma get_current_leaderboard_failed (self : PGATourScraperFixed) (w : world) (st : state) :
  request_failed w st leaderboard_url ->
  get_current_leaderboard self w st = (Ok (pd.DataFrame_of []), requested leaderboard_url st).
Proof. unfold get_current_leaderboard. failed_request self leaderboard_url. Qed.

Lemma scrape_espn_leaderboard_failed (self : PGATourScraperFixed) (w : world) (st : state) :
  request_failed w st espn_url ->
  scrape_espn_leaderboard self w st = (Ok (pd.DataFrame_of []), requested espn_url st).
Proof. unfold scrape_espn_leaderboard. failed_request self espn_url. Qed.

Ltac served Hget Hstatus := run_M; rewrite Hget, Hstatus.

(** C4, as the code has it: every extraction operation returns normally on
    every input, with a frame or a dictionary.  A failed request (the
    transport raises, or the status is not 200) gives an empty result in
    every operation.  On a page that was fetched, an unparseable JSON
    payload, a payload without any candidate path on a page without a
    table, a page without the table or element looked for, a tournament row
    that cannot be read and a value that cannot be coerced all give an empty
    result.  A player page without any stat element is the exception: it
    gives the dictionary of the player's name and three zeros. *)
Theorem operations_never_raise (self : PGATourScraperFixed) (w : world) (st : state) :
  ((forall data, exists records, _extract_leaderboard_from_json data = Ok records)
   /\ (forall soup, exists df, _scrape_leaderboard_table soup = Ok df)
   /\ (exists df, fst (get_current_leaderboard self w st) = Ok df)
   /\ (forall stat_type, exists df, fst (scrape_player_stats_page self w stat_type st) = Ok df)
   /\ (exists df, fst (scrape_espn_leaderboard self w st) = Ok df)
   /\ (forall player_name,
         exists stats, fst (get_player_historical_stats self w player_name st) = Ok stats)
   /\ (exists df, fst (get_comprehensive_stats self w st) = Ok df)
   /\ (forall year, exists df, fst (scrape_historical_results self w year st) = Ok df))
  /\ ((request_failed w st leaderboard_url ->
       fst (get_current_leaderboard self w st) = Ok (pd.DataFrame_of []))
      /\ (forall stat_type,
            request_failed w st (stat_url stat_type) ->
            fst (scrape_player_stats_page self w stat_type st) = Ok (pd.DataFrame_of []))
      /\ (request_failed w st espn_url ->
          fst (scrape_espn_leaderboard self w st) = Ok (pd.DataFrame_of []))
      /\ (forall player_name,
            request_failed w st (player_url player_name) ->
            fst (get_player_historical_stats self w player_name st) = Ok [])
      /\ (forall year,
            request_failed w st (schedule_url year) ->
            fst (scrape_historical_results self w year st) = Ok (pd.DataFrame_of []))
      /\ (request_failed w st leaderboard_url ->
          request_failed w (requested leaderboard_url st) espn_url ->
          fst (get_comprehensive_stats self w st) = Ok (pd.DataFrame_of [])))
  /\ (forall response,
        status_code response = 200%Z ->
        (fetched self w st leaderboard_url = Ok response ->
         (forall script_tag e,
             find (content response) "script" [("id", MStr "__NEXT_DATA__")]
             = Some script_tag ->
             json_loads_string w (tag_string script_tag) = Raise e ->
             fst (get_current_leaderboard self w st) = Ok (pd.DataFrame_of []))
         /\ (forall script_tag data,
               find (content response) "script" [("id", MStr "__NEXT_DATA__")]
               = Some script_tag ->
               json_loads_string w (tag_string script_tag) = Ok data ->
               Forall (fun p => ~ resolves_to_list data p) paths ->
               locate_table (content response) = None ->
               fst (get_current_leaderboard self w st) = Ok (pd.DataFrame_of []))
         /\ (find (content response) "script" [("id", MStr "__NEXT_DATA__")] = None ->
             locate_table (content response) = None ->
             fst (get_current_leaderboard self w st) = Ok (pd.DataFrame_of [])))
        /\ (forall stat_type,
              fetched self w st (stat_url stat_type) = Ok response ->
              locate_stats_table (content response) = None ->
              fst (scrape_player_stats_page self w stat_type st) = Ok (pd.DataFrame_of []))
        /\ (fetched self w st espn_url = Ok response ->
            locate_espn_leaderboard (content response) = None ->
            fst (scrape_espn_leaderboard self w st) = Ok (pd.DataFrame_of []))
        /\ (forall year e,
              fetched self w st (schedule_url year) = Ok response ->
              for_each (find_all (content response) ["div"]
                          [("class", class_contains "tournament-row")])
                tournament_row [] = Raise e ->
              fst (scrape_historical_results self w year st) = Ok (pd.DataFrame_of []))
        /\ (forall player_name e,
              fetched self w st (player_url player_name) = Ok response ->
              for_each (stat_items (content response)) (stat_item w) (initial_stats player_name)
              = Raise e ->
              fst (get_player_historical_stats self w player_name st) = Ok [])
        /\ (forall player_name,
              fetched self w st (player_url player_name) = Ok response ->
              stat_items (content response) = [] ->
              fst (get_player_historical_stats self w player_name st)
              = Ok [ ("player_name", PyStr player_name);
                     ("career_wins", PyInt 0);
                     ("career_top10s", PyInt 0);
                     ("career_earnings", PyInt 0) ])).
Proof.
  split; [|split].
  - split; [exact extract_total|].
    split; [intros soup; rewrite scrape_leaderboard_table_run; eauto|].
    split; [destruct (get_current_leaderboard_run self w st) as (d & -> & _); simpl; eauto|].
    split; [intros stat_type;
            destruct (scrape_player_stats_page_run self w stat_type st) as (d & -> & _);
            simpl; eauto|].
    split; [destruct (scrape_espn_leaderboard_run self w st) as (d & -> & _); simpl; eauto|].
    split; [intros player_name; rewrite get_player_historical_stats_run; simpl; eauto|].
    split; [destruct (get_comprehensive_stats_run self w st)
              as (p & s & d & _ & _ & _ & _ & -> & _); simpl; eauto|].
    intros year. destruct (scrape_historical_results_run self w year st) as (d & ->).
    simpl; eauto.
  - split; [unfold get_current_leaderboard; failed_request self leaderboard_url|].
    split; [intros stat_type; unfold scrape_player_stats_page;
            failed_request self (stat_url stat_type)|].
    split; [unfold scrape_espn_leaderboard; failed_request self espn_url|].
    split; [intros player_name; unfold get_player_historical_stats;
            failed_request self (player_url player_name)|].
    split; [intros year; unfold scrape_historical_results;
            failed_request self (schedule_url year)|].
    intros Hprimary Hsecondary.
    unfold get_comprehensive_stats, bind.
    rewrite (get_current_leaderboard_failed self w st Hprimary).
    rewrite empty_DataFrame_of_nil.
    now rewrite (scrape_espn_leaderboard_failed self w _ Hsecondary).
  - intros response Hstatus.
    apply Z.eqb_eq in Hstatus.
    split; [intros Hget; split; [|split]|].
    + intros script_tag e Hscript Hjson. unfold get_current_leaderboard.
      served Hget Hstatus. now rewrite Hscript, Hjson.
    + intros script_tag data Hscript Hjson Hpaths Htable. unfold get_current_leaderboard.
      served Hget Hstatus. rewrite Hscript, Hjson.
      unfold _extract_leaderboard_from_json. rewrite (extract_paths_none _ _ Hpaths).
      cbn. now rewrite scrape_leaderboard_table_run, Htable.
    + intros Hscript Htable. unfold get_current_leaderboard.
      served Hget Hstatus. now rewrite Hscript, scrape_leaderboard_table_run, Htable.
    + split; [intros stat_type Hget Htable; unfold scrape_player_stats_page;
              served Hget Hstatus; now rewrite Htable|].
      split; [intros Hget Htable; unfold scrape_espn_leaderboard;
              served Hget Hstatus; now rewrite Htable|].
      split; [intros year e Hget Hloop; unfold scrape_historical_results;
              served Hget Hstatus; now rewrite Hloop|].
      split; intros player_name.
      * intros e Hget Hloop. rewrite get_player_historical_stats_run, Hget, Hstatus.
        now rewrite Hloop.
      * intros Hget Hnone. rewrite get_player_historical_stats_run, Hget, Hstatus.
        now rewrite Hnone.
Qed.

Lemma operations_never_raise_witness :
  fst (get_current_leaderboard default_scraper Samples.offline Samples.start)
  = Ok (pd.DataFrame_of [])
  /\ fst (scrape_espn_leaderboard default_scraper Samples.unavailable_site Samples.start)
     = Ok (pd.DataFrame_of [])
  /\ fst (get_current_leaderboard default_scraper Samples.blank_site Samples.start)
     = Ok (pd.DataFrame_of [])
  /\ fst (get_player_historical_stats default_scraper Samples.garbled_site
            "Jon Rahm" Samples.start) = Ok [].
Proof.
  split; [|split; [|split]].
  - exact (proj1 (proj1 (proj2 (operations_never_raise default_scraper
                                  Samples.offline Samples.start))) I).
  - destruct (operations_never_raise default_scraper Samples.unavailable_site Samples.start)
      as (_ & (_ & _ & Hespn & _) & _).
    apply Hespn. unfold request_failed. simpl. discriminate.
  - destruct (operations_never_raise default_scraper Samples.blank_site Samples.start)
      as (_ & _ & Hserved).
    destruct (Hserved {| status_code := 200; content := Samples.blank_page |} eq_refl)
      as (Hprimary & _).
    exact (proj2 (proj2 (Hprimary eq_refl)) eq_refl eq_refl).
  - destruct (operations_never_raise default_scraper Samples.garbled_site
                Samples.start) as (_ & _ & Hserved).
    destruct (Hserved {| status_code := 200; content := Samples.garbled_player_page |}
                eq_refl) as (_ & _ & _ & _ & Hcoerce & _).
    exact (Hcoerce "Jon Rahm" ValueError eq_refl eq_refl).
Defined.

(** C4 as stated fails on a player page that was served but holds none of the
    expected stat elements: the structure is missing, and the result is not
    empty. *)
Lemma player_page_without_stats_not_empty :
  stat_items Samples.blank_page = []
  /\ fst (get_player_historical_stats default_scraper Samples.blank_site
            "Jon Rahm" Samples.start)
     = Ok [ ("player_name", PyStr "Jon Rahm"); ("career_wins", PyInt 0);
            ("career_top10s", PyInt 0); ("career_earnings", PyInt 0) ]
  /\ fst (get_player_historical_stats default_scraper Samples.blank_site
            "Jon Rahm" Samples.start) <> Ok [].
Proof. split; [reflexivity|]. split; [reflexivity | discriminate]. Qed.

(** * Further properties *)

(** ** The secondary source, row by row *)

(** X1: on a fetched page of the secondary source where the leaderboard
    element is found, the first row is skipped and the remaining rows are
    read in document order: a row with at least three cells gives one Record
    of nine fields, with the cleaned name and empty strings for the cells it
    lacks, a row with fewer cells gives none. *)
Theorem espn_rows_become_records (self : PGATourScraperFixed) (w : world) (st : state)
  (response : Response) (leaderboard : node) :
  fetched self w st espn_url = Ok response ->
  status_code response = 200%Z ->
  locate_espn_leaderboard (content response) = Some leaderboard ->
  let data_rows := skipn 1 (table_rows leaderboard) in
  scrape_espn_leaderboard self w st
  = (Ok (pd.DataFrame_of (flat_map espn_record data_rows)), requested espn_url st)
  /\ length (flat_map espn_record data_rows)
     = length (List.filter (fun row => (3 <=? length (cells row))%nat) data_rows)
  /\ (forall row, 3 <= length (cells row) ->
        exists c0 c1 c2 extra,
          cells row = c0 :: c1 :: c2 :: extra
          /\ espn_record row
             = [ [ ("position", PyStr (get_text_strip c0));
                   ("player_name", PyStr (clean_player_name (get_text_strip c1)));
                   ("score", PyStr (get_text_strip c2));
                   ("thru", optional_text (nth_error extra 0));
                   ("today", optional_text (nth_error extra 1));
                   ("r1", optional_text (nth_error extra 2));
                   ("r2", optional_text (nth_error extra 3));
                   ("r3", optional_text (nth_error extra 4));
                   ("r4", optional_text (nth_error extra 5)) ] ])
  /\ (forall row, length (cells row) < 3 -> espn_record row = []).
Proof.
  intros Hget Hstatus Hlocate data_rows. split; [|split; [|split]].
  - unfold scrape_espn_leaderboard. run_M. rewrite Hget, Hstatus, Hlocate. simpl.
    now rewrite (for_each_flat_map espn_row espn_record) by (intros; apply espn_row_spec).
  - clear. induction data_rows as [|row rest IH]; simpl; [reflexivity|].
    rewrite length_app, IH. unfold espn_record.
    destruct (cells row) as [|c0 [|c1 [|c2 extra]]]; reflexivity.
  - intros row Hlen. unfold espn_record.
    destruct (cells row) as [|c0 [|c1 [|c2 extra]]]; simpl in Hlen; try lia.
    now exists c0, c1, c2, extra.
  - intros row Hlen. unfold espn_record.
    destruct (cells row) as [|c0 [|c1 [|c2 extra]]]; simpl in Hlen; try lia; reflexivity.
Qed.

Lemma espn_rows_become_records_witness :
  scrape_espn_leaderboard default_scraper Samples.espn_site Samples.start
  = (Ok (pd.DataFrame_of
           [ [ ("position", PyStr "1"); ("player_name", PyStr "Jon Rahm");
               ("score", PyStr "-12"); ("thru", PyStr "F"); ("today", PyStr "");
               ("r1", PyStr ""); ("r2", PyStr ""); ("r3", PyStr ""); ("r4", PyStr "") ] ]),
     requested espn_url Samples.start).
Proof.
  exact (proj1 (espn_rows_become_records default_scraper Samples.espn_site Samples.start
                  _ _ eq_refl eq_refl eq_refl)).
Defined.

(** ** The primary source: payload before table *)

(** X2: on a fetched leaderboard page the embedded payload comes first: when
    it parses and the extractor finds Records in it, they are the result and
    no table is looked at; when it parses but gives no Record, or when the
    page has no payload script, the result is the table extractor's. *)
Theorem payload_before_table (self : PGATourScraperFixed) (w : world) (st : state)
  (response : Response) :
  fetched self w st leaderboard_url = Ok response ->
  status_code response = 200%Z ->
  let soup := content response in
  let script := find soup "script" [("id", MStr "__NEXT_DATA__")] in
  (forall script_tag data r rest,
      script = Some script_tag ->
      json_loads_string w (tag_string script_tag) = Ok data ->
      _extract_leaderboard_from_json data = Ok (r :: rest) ->
      fst (get_current_leaderboard self w st) = Ok (pd.DataFrame_of (r :: rest)))
  /\ (forall script_tag data,
        script = Some script_tag ->
        json_loads_string w (tag_string script_tag) = Ok data ->
        _extract_leaderboard_from_json data = Ok [] ->
        fst (get_current_leaderboard self w st) = _scrape_leaderboard_table soup)
  /\ (script = None ->
      fst (get_current_leaderboard self w st) = _scrape_leaderboard_table soup).
Proof.
  intros Hget Hstatus soup script. apply Z.eqb_eq in Hstatus.
  assert (Htable : exists df, _scrape_leaderboard_table soup = Ok df)
    by (rewrite scrape_leaderboard_table_run; eauto).
  destruct Htable as (df & Htable).
  subst script soup. split; [|split].
  - intros script_tag data r rest Hscript Hjson Hrecords.
    unfold get_current_leaderboard. run_M.
    now rewrite Hget, Hstatus, Hscript, Hjson, Hrecords.
  - intros script_tag data Hscript Hjson Hrecords.
    unfold get_current_leaderboard. run_M.
    rewrite Hget, Hstatus, Hscript, Hjson, Hrecords. now rewrite Htable.
  - intros Hscript. unfold get_current_leaderboard. run_M.
    rewrite Hget, Hstatus, Hscript. now rewrite Htable.
Qed.

Lemma payload_before_table_witness :
  locate_table MoreSamples.payload_page = Some Samples.leaderboard_table
  /\ fst (get_current_leaderboard default_scraper MoreSamples.payload_site Samples.start)
     = Ok (pd.DataFrame_of Samples.players_records).
Proof.
  split; [reflexivity|].
  exact (proj1 (payload_before_table default_scraper MoreSamples.payload_site Samples.start
                  _ eq_refl eq_refl)
           _ _ _ _ eq_refl eq_refl eq_refl).
Defined.

(** ** Locating the table *)

Lemma prefix_app (a b : string) :
  forall s, String.prefix (a ++ b) s = true -> String.prefix a s = true.
Proof.
  induction a as [|c a IH]; intros s H; [now destruct s|].
  destruct s as [|d s]; simpl in *; [discriminate|].
  destruct (ascii_dec c d); [now apply IH | discriminate].
Qed.

Lemma contains_app (a b s : string) :
  Text.contains (a ++ b) s = true -> Text.contains a s = true.
Proof.
  induction s as [|d s IH]; cbn [Text.contains]; intros H;
    apply orb_true_iff in H as [H|H].
  - apply (prefix_app a b) in H. now rewrite H.
  - discriminate.
  - apply (prefix_app a b) in H. now rewrite H.
  - rewrite (IH H). apply orb_true_r.
Qed.

Lemma matches_weaker (f g : option string -> bool) (markup : option attr_value) :
  (forall x, g x = true -> f x = true) ->
  matches markup (MFun g) = true -> matches markup (MFun f) = true.
Proof.
  intros Hfg. destruct markup as [[s|l]|]; simpl; auto.
  intros H. apply orb_true_iff in H as [H|H]; apply orb_true_iff.
  - left. apply existsb_exists in H as (item & Hin & Hitem).
    apply existsb_exists. exists item. auto.
  - right. auto.
Qed.

Lemma find_weaker (f g : option string -> bool) (soup : node) (name : string) :
  (forall x, g x = true -> f x = true) ->
  find soup name [("class", MFun f)] = None ->
  find soup name [("class", MFun g)] = None.
Proof.
  intros Hfg. unfold find, find_all.
  induction (descendants soup) as [|n rest IH]; simpl; [reflexivity|].
  destruct (search_tag [name] [("class", MFun f)] n) eqn:Hf; [discriminate|].
  intros Hrest. destruct (search_tag [name] [("class", MFun g)] n) eqn:Hg; [|now apply IH].
  exfalso. destruct n as [s|tag attrs contents]; [discriminate|].
  simpl in Hf, Hg. apply andb_true_iff in Hg as [Hname Hmatch]. rewrite Hname in Hf.
  rewrite andb_true_r in Hmatch. apply (matches_weaker f g _ Hfg) in Hmatch.
  simpl in Hmatch. rewrite Hmatch in Hf. discriminate.
Qed.

(** X3: the third class name the table search tries never matters: a table
    whose class contains "leaderboard-table" also contains "leaderboard",
    which is tried first, so the table located is the one the first two
    names and then the header keywords find. *)
Theorem third_class_name_is_redundant (soup : node) :
  find_table_by_class soup table_classes
  = find_table_by_class soup ["leaderboard"; "table"]
  /\ locate_table soup
     = match find_table_by_class soup ["leaderboard"; "table"] with
       | Some table => Some table
       | None => find_table_by_keyword (find_all soup ["table"] [])
       end.
Proof.
  assert (H : find_table_by_class soup table_classes
              = find_table_by_class soup ["leaderboard"; "table"]).
  { unfold table_classes. simpl.
    destruct (find soup "table" [("class", class_contains "leaderboard")]) eqn:Hfirst;
      [reflexivity|].
    destruct (find soup "table" [("class", class_contains "table")]); [reflexivity|].
    assert (Hthird : find soup "table" [("class", class_contains "leaderboard-table")]
                     = None).
    { unfold class_contains in *. eapply find_weaker; [|exact Hfirst].
      intros [s|] Hs; [|discriminate].
      apply andb_true_iff in Hs as [Hne Hs]. rewrite Hne. simpl.
      exact (contains_app "leaderboard" "-table" s Hs). }
    now rewrite Hthird. }
  split; [exact H|]. unfold locate_table. now rewrite H.
Qed.

(** ** The shape of the frames *)

Lemma add_keys_known (ks : list string) :
  forall cols, (forall k, In k ks -> In k cols) -> pd.add_keys cols ks = cols.
Proof.
  induction ks as [|k rest IH]; intros cols Hin; simpl; [reflexivity|].
  assert (Hk : existsb (String.eqb k) cols = true).
  { apply existsb_exists. exists k. split; [apply Hin; now left | apply String.eqb_refl]. }
  rewrite Hk. apply IH. intros k' Hk'. apply Hin. now right.
Qed.

Lemma fold_keys_known (ks : list string) (data : list record) :
  Forall (fun r => keys r = ks) data ->
  fold_left (fun cols r => pd.add_keys cols (keys r)) data ks = ks.
Proof.
  induction 1 as [|r rest Hr Hrest IH]; simpl; [reflexivity|].
  rewrite Hr, add_keys_known by auto. exact IH.
Qed.

(** Records that all have the same keys give a frame with those columns. *)
Lemma first_seen_keys_uniform (ks : list string) (r : record) (rest : list record) :
  pd.add_keys [] ks = ks ->
  Forall (fun r => keys r = ks) (r :: rest) ->
  pd.first_seen_keys (r :: rest) = ks.
Proof.
  intros Hks Hall. apply Forall_cons_iff in Hall as [Hr Hrest].
  unfold pd.first_seen_keys. simpl. rewrite Hr, Hks. now apply fold_keys_known.
Qed.

Lemma dict_get_head {A : Type} (k : string) (v : A) (rest : list (string * A)) :
  dict_get k ((k, v) :: rest) = Some v.
Proof. simpl. now rewrite String.eqb_refl. Qed.

Lemma row_of_own_keys (r : record) : NoDup (keys r) -> pd.row_of (keys r) r = map snd r.
Proof.
  induction r as [|[k v] rest IH]; intros Hnd; [reflexivity|].
  inversion Hnd as [|? ? Hk Hrest]; subst.
  unfold pd.row_of. cbn [keys map fst snd]. rewrite dict_get_head. f_equal.
  rewrite <- (IH Hrest). apply map_ext_in. intros c Hc. simpl.
  destruct (String.eqb_spec k c) as [->|Hne]; [contradiction | reflexivity].
Qed.

(** Records of strings under the same keys give a frame of text. *)
Lemma text_frame_of (ks : list string) (data : list record) :
  pd.add_keys [] ks = ks -> NoDup ks ->
  Forall (fun r => keys r = ks /\ forallb is_str (map snd r) = true) data ->
  pd.empty (pd.DataFrame_of data) = false ->
  text_frame ks (pd.DataFrame_of data).
Proof.
  intros Hks Hnd Hall Hne. destruct data as [|r rest]; [discriminate|].
  assert (Hcols : pd.first_seen_keys (r :: rest) = ks).
  { apply first_seen_keys_uniform; [exact Hks|].
    eapply Forall_impl; [|exact Hall]. now intros r' [H _]. }
  split; [exact Hcols|]. unfold pd.DataFrame_of. cbn [pd.rows]. rewrite Hcols.
  apply Forall_map. eapply Forall_impl; [|exact Hall].
  intros r' [Hkeys Hstr].
  assert (Hrow : pd.row_of ks r' = map snd r')
    by (rewrite <- Hkeys; apply row_of_own_keys; rewrite Hkeys; exact Hnd).
  rewrite Hrow. split; [|exact Hstr].
  rewrite length_map, <- Hkeys. unfold keys. now rewrite length_map.
Qed.

Ltac string_rows def :=
  intros; apply Forall_flat_map; intros row; unfold def;
  destruct (cells row) as [|?c0 [|?c1 [|?c2 ?extra]]];
  try (constructor; fail);
  (constructor; [split; [reflexivity|] | constructor]);
  unfold optional_text, cell_text; cbn [map snd forallb is_str andb];
  repeat match goal with
         | |- context [nth_error ?l ?i] => destruct (nth_error l i)
         end; reflexivity.

Lemma leaderboard_records_text (rows : list node) :
  Forall (fun r => keys r = table_columns /\ forallb is_str (map snd r) = true)
    (flat_map leaderboard_record rows).
Proof. string_rows leaderboard_record. Qed.

Lemma stats_records_text (rows : list node) :
  Forall (fun r => keys r = stats_columns /\ forallb is_str (map snd r) = true)
    (flat_map stats_record rows).
Proof. string_rows stats_record. Qed.

Lemma espn_records_text (rows : list node) :
  Forall (fun r => keys r = espn_columns /\ forallb is_str (map snd r) = true)
    (flat_map espn_record rows).
Proof. string_rows espn_record. Qed.

Lemma NoDup_columns :
  NoDup table_columns /\ NoDup stats_columns /\ NoDup espn_columns
  /\ NoDup json_columns /\ NoDup comprehensive_columns.
Proof.
  repeat split;
    repeat (constructor; [simpl; intros H;
                          repeat (destruct H as [H|H]; [discriminate|]); destruct H|]);
    constructor.
Qed.

(** The records each markup extractor reads, as rows of its table. *)
Lemma scrape_player_stats_page_rows (self : PGATourScraperFixed) (w : world)
  (stat_type : string) (st : state) :
  exists rows,
    fst (scrape_player_stats_page self w stat_type st)
    = Ok (pd.DataFrame_of (flat_map stats_record rows)).
Proof.
  unfold scrape_player_stats_page. run_M.
  destruct (fetched self w st (stat_url stat_type)) as [response|e]; [|now exists []].
  destruct (status_code response =? 200)%Z; [|now exists []].
  destruct (locate_stats_table (content response)) as [stats_table|]; [|now exists []].
  rewrite (for_each_flat_map stats_row stats_record) by (intros; apply stats_row_spec).
  now eexists.
Qed.

Lemma scrape_espn_leaderboard_rows (self : PGATourScraperFixed) (w : world) (st : state) :
  exists rows,
    fst (scrape_espn_leaderboard self w st)
    = Ok (pd.DataFrame_of (flat_map espn_record rows)).
Proof.
  unfold scrape_espn_leaderboard. run_M.
  destruct (fetched self w st espn_url) as [response|e]; [|now exists []].
  destruct (status_code response =? 200)%Z; [|now exists []].
  destruct (locate_espn_leaderboard (content response)) as [leaderboard|]; [|now exists []].
  rewrite (for_each_flat_map espn_row espn_record) by (intros; apply espn_row_spec).
  now eexists.
Qed.

Lemma scrape_leaderboard_table_rows (soup : node) :
  exists rows,
    _scrape_leaderboard_table soup = Ok (pd.DataFrame_of (flat_map leaderboard_record rows)).
Proof.
  rewrite scrape_leaderboard_table_run.
  destruct (locate_table soup) as [table|]; [now eexists | now exists []].
Qed.

(** X4: a non-empty frame returned by a markup extractor is a frame of text
    with that extractor's fixed columns: position, player_name, score, thru,
    today for the leaderboard table; rank, player_name, value, rounds for
    the statistics page; the nine columns of the secondary source.  Every
    row has one string per column, and no cell is missing. *)
Theorem markup_frames_are_text :
  (forall soup df,
      _scrape_leaderboard_table soup = Ok df ->
      pd.empty df = false -> text_frame table_columns df)
  /\ (forall self w stat_type st df,
        fst (scrape_player_stats_page self w stat_type st) = Ok df ->
        pd.empty df = false -> text_frame stats_columns df)
  /\ (forall self w st df,
        fst (scrape_espn_leaderboard self w st) = Ok df ->
        pd.empty df = false -> text_frame espn_columns df).
Proof.
  destruct NoDup_columns as (Ht & Hs & He & _).
  split; [|split].
  - intros soup df Hrun Hne.
    destruct (scrape_leaderboard_table_rows soup) as (rows & Hrows).
    rewrite Hrows in Hrun. injection Hrun as <-.
    apply text_frame_of; [reflexivity | exact Ht | apply leaderboard_records_text | exact Hne].
  - intros self w stat_type st df Hrun Hne.
    destruct (scrape_player_stats_page_rows self w stat_type st) as (rows & Hrows).
    rewrite Hrows in Hrun. injection Hrun as <-.
    apply text_frame_of; [reflexivity | exact Hs | apply stats_records_text | exact Hne].
  - intros self w st df Hrun Hne.
    destruct (scrape_espn_leaderboard_rows self w st) as (rows & Hrows).
    rewrite Hrows in Hrun. injection Hrun as <-.
    apply text_frame_of; [reflexivity | exact He | apply espn_records_text | exact Hne].
Qed.

Lemma markup_frames_are_text_witness :
  text_frame espn_columns
    (pd.DataFrame_of
       [ [ ("position", PyStr "1"); ("player_name", PyStr "Jon Rahm");
           ("score", PyStr "-12"); ("thru", PyStr "F"); ("today", PyStr "");
           ("r1", PyStr ""); ("r2", PyStr ""); ("r3", PyStr ""); ("r4", PyStr "") ] ]).
Proof.
  exact (proj2 (proj2 markup_frames_are_text)
           default_scraper Samples.espn_site Samples.start _ eq_refl eq_refl).
Defined.

(** ** The combined dataset *)

Lemma comprehensive_rows_combine (rows : list (list (string * pyval))) :
  (forall row, In row rows -> exists v, dict_get "player_name" row = Some v) ->
  forall acc,
    exists out,
      for_each rows comprehensive_row acc = Ok (acc ++ out) /\ Forall2 combines rows out.
Proof.
  induction rows as [|row rest IH]; intros Hrows acc.
  - exists []. simpl. rewrite app_nil_r. split; [reflexivity | constructor].
  - destruct (Hrows row (or_introl eq_refl)) as (v & Hv).
    pose proof (comprehensive_row_named row acc v Hv) as Hrow.
    destruct (IH (fun r Hr => Hrows r (or_intror Hr))
                 (acc ++ [dict_update
                            [ ("player_name", v);
                              ("current_position", pd.series_get row "position" (PyStr ""));
                              ("current_score", pd.series_get row "score" (PyStr "")) ]
                            placeholder_stats]))
      as (out & Hout & Hall).
    eexists (_ :: out).
    rewrite (for_each_cons_ok _ _ _ _ _ Hrow), Hout, <- app_assoc.
    split; [reflexivity|]. constructor; [|exact Hall].
    exists v. split; [exact Hv | reflexivity].
Qed.

Lemma comprehensive_of_frame (base : list record) :
  Forall has_player_name base ->
  exists data,
    (if negb (pd.empty (pd.DataFrame_of base))
     then for_each (pd.iterrows (pd.DataFrame_of base)) comprehensive_row []
     else Ok []) = Ok data
    /\ Forall2 combines (pd.iterrows (pd.DataFrame_of base)) data.
Proof.
  intros Hbase. rewrite (empty_DataFrame_of base Hbase).
  destruct base as [|r rest]; simpl negb; cbv iota.
  - exists []. split; [reflexivity | constructor].
  - destruct (comprehensive_rows_combine (pd.iterrows (pd.DataFrame_of (r :: rest)))
                (fun row Hrow => iterrows_player_name _ row Hbase Hrow) [])
      as (out & Hout & Hall).
    now exists out.
Qed.

(** X5: [get_comprehensive_stats] builds on the primary frame, or on the
    secondary one when the primary is empty, and returns one Record per row
    of that frame, in order: the row's player name, its position and score
    (an empty string where the frame has no such column), and the eight
    placeholder statistics, the same for every player. *)
Theorem comprehensive_dataset (self : PGATourScraperFixed) (w : world) (st : state) :
  let st1 := requested leaderboard_url st in
  let st2 := requested espn_url st1 in
  exists primary secondary data,
    get_current_leaderboard self w st = (Ok primary, st1)
    /\ scrape_espn_leaderboard self w st1 = (Ok secondary, st2)
    /\ get_comprehensive_stats self w st
       = (Ok (pd.DataFrame_of data), if pd.empty primary then st2 else st1)
    /\ Forall2 combines (pd.iterrows (if pd.empty primary then secondary else primary)) data.
Proof.
  intros st1 st2.
  destruct (get_current_leaderboard_run self w st) as (primary & Hp & Hprimary).
  destruct (scrape_espn_leaderboard_run self w st1) as (secondary & Hs & Hsecondary).
  exists (pd.DataFrame_of primary), (pd.DataFrame_of secondary).
  fold st1 in Hp. fold st2 in Hs.
  unfold get_comprehensive_stats, bind. rewrite Hp.
  destruct (pd.empty (pd.DataFrame_of primary)) eqn:Hempty.
  - rewrite Hs.
    destruct (comprehensive_of_frame secondary Hsecondary) as (data & Hdata & Hall).
    exists data. unfold lift, ret.
    destruct (pd.empty (pd.DataFrame_of secondary)); simpl negb in *; cbv iota in *;
      rewrite Hdata; now repeat split.
  - unfold ret at 1.
    destruct (comprehensive_of_frame primary Hprimary) as (data & Hdata & Hall).
    exists data. unfold lift, ret. rewrite Hempty in *. simpl negb in *. cbv iota in *.
    rewrite Hdata. now repeat split.
Qed.

Lemma extract_records_keys (data : pyval) (records : list record) :
  _extract_leaderboard_from_json data = Ok records ->
  Forall (fun r => keys r = json_columns) records.
Proof.
  unfold _extract_leaderboard_from_json. intros H.
  destruct (extract_paths data paths []) as [rs|e] eqn:Hx; simpl in H;
    injection H as <-; [|constructor].
  destruct (extract_paths_origin _ _ _ _ Hx) as [->|(path & current & _ & _ & Hd & ->)];
    [constructor|].
  simpl. apply Forall_map. rewrite forallb_forall in Hd. apply Forall_forall.
  intros p Hp. specialize (Hd p Hp). now destruct p.
Qed.

Lemma combine_keys_values {A : Type} (d : list (string * A)) :
  combine (keys d) (map snd d) = d.
Proof.
  induction d as [|[k v] rest IH]; simpl; [reflexivity | now rewrite IH].
Qed.

(** The rows of a frame of uniform records are the records themselves. *)
Lemma iterrows_uniform (ks : list string) (r : record) (rest : list record) :
  pd.add_keys [] ks = ks -> NoDup ks ->
  Forall (fun r => keys r = ks) (r :: rest) ->
  pd.iterrows (pd.DataFrame_of (r :: rest)) = r :: rest.
Proof.
  intros Hks Hnd Hall. unfold pd.iterrows, pd.DataFrame_of. cbn [pd.columns pd.rows].
  rewrite (first_seen_keys_uniform ks r rest Hks Hall), map_map.
  rewrite <- (map_id (r :: rest)) at 2. apply map_ext_in.
  intros r' Hr'. rewrite Forall_forall in Hall. specialize (Hall r' Hr').
  rewrite <- Hall, row_of_own_keys by (rewrite Hall; exact Hnd).
  apply combine_keys_values.
Qed.

Lemma dict_get_present {A : Type} (k : string) (d : list (string * A)) :
  In k (keys d) -> exists v, dict_get k d = Some v.
Proof.
  induction d as [|[k0 x] rest IH]; simpl; [tauto|].
  intros Hin. destruct (String.eqb_spec k0 k) as [->|Hne]; [eauto|].
  destruct Hin as [Hin|Hin]; [contradiction | now apply IH].
Qed.

(** X6: when the primary source is read from the embedded payload, the
    combined dataset is built from it alone, without a request to the
    secondary source, with one combined Record per payload Record, in order.
    Every combined Record has an empty current score: the payload Records
    call the score total_score, a column the combination does not read.  A
    player name or position that is a string is carried over as it is (what
    becomes of other values is left to the frame). *)
Theorem payload_scores_are_lost (self : PGATourScraperFixed) (w : world) (st : state)
  (response : Response) (script_tag : node) (data : pyval) (r : record)
  (rest : list record) :
  fetched self w st leaderboard_url = Ok response ->
  status_code response = 200%Z ->
  find (content response) "script" [("id", MStr "__NEXT_DATA__")] = Some script_tag ->
  json_loads_string w (tag_string script_tag) = Ok data ->
  _extract_leaderboard_from_json data = Ok (r :: rest) ->
  exists out,
    get_comprehensive_stats self w st
    = (Ok (pd.DataFrame_of out), requested leaderboard_url st)
    /\ Forall2 (fun player combined =>
                  dict_get "current_score" combined = Some (PyStr "")
                  /\ (forall name,
                        dict_get "player_name" player = Some (PyStr name) ->
                        dict_get "player_name" combined = Some (PyStr name))
                  /\ (forall position,
                        dict_get "position" player = Some (PyStr position) ->
                        dict_get "current_position" combined = Some (PyStr position)))
         (r :: rest) out.
Proof.
  intros Hget Hstatus Hscript Hjson Hrecords. apply Z.eqb_eq in Hstatus.
  assert (Hgcl : get_current_leaderboard self w st
                 = (Ok (pd.DataFrame_of (r :: rest)), requested leaderboard_url st)).
  { unfold get_current_leaderboard. run_M.
    now rewrite Hget, Hstatus, Hscript, Hjson, Hrecords. }
  pose proof (extract_named data _ Hrecords) as Hnamed.
  pose proof (extract_records_keys data _ Hrecords) as Hkeys.
  destruct NoDup_columns as (_ & _ & _ & Hnd & _).
  destruct (comprehensive_rows_combine (r :: rest)) with (acc := @nil record)
    as (out & Hout & Hall).
  { intros row Hrow. rewrite Forall_forall in Hnamed. apply dict_get_present.
    now apply Hnamed. }
  exists out. split.
  - unfold get_comprehensive_stats, bind. rewrite Hgcl.
    rewrite (empty_DataFrame_of _ Hnamed). unfold ret at 1.
    rewrite (empty_DataFrame_of _ Hnamed). simpl negb. cbv iota.
    unfold lift, ret.
    rewrite (iterrows_uniform json_columns r rest eq_refl Hnd Hkeys).
    now rewrite Hout.
  - clear Hout Hnamed Hgcl Hrecords.
    induction Hall as [|player combined players outs Hc Hrest IH]; [constructor|].
    apply Forall_cons_iff in Hkeys as [Hk Hks].
    constructor; [|now apply IH].
    destruct Hc as (name & Hname & ->).
    assert (Hscore : dict_get "score" player = None).
    { apply dict_get_absent. rewrite Hk. simpl. intros H.
      repeat (destruct H as [H|H]; [discriminate|]). destruct H. }
    unfold pd.series_get. rewrite Hscore, Hname.
    split; [reflexivity|]. split.
    + now intros s [= ->].
    + intros position Hposition. now rewrite Hposition.
Qed.

Lemma payload_scores_are_lost_witness :
  dict_get "total_score" (hd [] Samples.players_records) = Some (PyInt 276)
  /\ exists out,
       get_comprehensive_stats default_scraper MoreSamples.payload_site Samples.start
       = (Ok (pd.DataFrame_of out), requested leaderboard_url Samples.start)
       /\ Forall2 (fun player combined =>
                     dict_get "current_score" combined = Some (PyStr "")
                     /\ (forall name,
                           dict_get "player_name" player = Some (PyStr name) ->
                           dict_get "player_name" combined = Some (PyStr name))
                     /\ (forall position,
                           dict_get "position" player = Some (PyStr position) ->
                           dict_get "current_position" combined = Some (PyStr position)))
            Samples.players_records out.
Proof.
  split; [reflexivity|].
  exact (payload_scores_are_lost default_scraper MoreSamples.payload_site Samples.start
           _ _ _ _ _ eq_refl eq_refl eq_refl eq_refl eq_refl).
Defined.

(** ** Historical results *)

Lemma tournament_row_readable (row : node) (acc : list record) :
  unreadable row = false ->
  tournament_row row acc = Ok (acc ++ tournament_record row).
Proof.
  unfold unreadable, tournament_row, tournament_record, optional_text.
  destruct (find row "div" [("class", MStr "winner")]) as [winner|];
    [|intros _; now rewrite app_nil_r].
  destruct (find row "div" [("class", MStr "tournament-name")]); [|discriminate].
  intros _. reflexivity.
Qed.

Lemma tournament_row_unreadable (row : node) (acc : list record) :
  unreadable row = true -> tournament_row row acc = Raise AttributeError.
Proof.
  unfold unreadable, tournament_row.
  destruct (find row "div" [("class", MStr "winner")]) as [winner|]; [|discriminate].
  now destruct (find row "div" [("class", MStr "tournament-name")]).
Qed.

Lemma tournament_rows_loop (rows : list node) :
  forall acc,
    for_each rows tournament_row acc
    = if existsb unreadable rows then Raise AttributeError
      else Ok (acc ++ flat_map tournament_record rows).
Proof.
  induction rows as [|row rest IH]; intros acc; simpl.
  - now rewrite app_nil_r.
  - destruct (unreadable row) eqn:Hrow; simpl.
    + now rewrite tournament_row_unreadable.
    + rewrite tournament_row_readable by exact Hrow. simpl. rewrite IH.
      destruct (existsb unreadable rest); [reflexivity | now rewrite app_assoc].
Qed.

(** X7: on a fetched schedule page [scrape_historical_results] returns one
    Record per tournament row that names a winner (tournament, winner, and
    the dates or an empty string), in document order, and skips the rows
    without a winner; but a single row that names a winner and no tournament
    makes the whole result empty, the Records read before it included. *)
Theorem schedule_rows_become_records (self : PGATourScraperFixed) (w : world) (year : Z)
  (st : state) (response : Response) :
  fetched self w st (schedule_url year) = Ok response ->
  status_code response = 200%Z ->
  let rows := tournament_rows (content response) in
  scrape_historical_results self w year st
  = (Ok (pd.DataFrame_of
           (if existsb unreadable rows then [] else flat_map tournament_record rows)),
     requested (schedule_url year) st).
Proof.
  intros Hget Hstatus rows. apply Z.eqb_eq in Hstatus.
  unfold scrape_historical_results. run_M. rewrite Hget, Hstatus.
  fold (tournament_rows (content response)). fold rows.
  rewrite tournament_rows_loop. now destruct (existsb unreadable rows).
Qed.

Lemma schedule_rows_become_records_witness :
  fst (scrape_historical_results default_scraper MoreSamples.schedule_site 2024
         Samples.start)
  = Ok (pd.DataFrame_of
          [ [ ("tournament", PyStr "The Open"); ("winner", PyStr "Xander Schauffele");
              ("date", PyStr "Jul 18-21") ];
            [ ("tournament", PyStr "Masters"); ("winner", PyStr "Scottie Scheffler");
              ("date", PyStr "") ] ])
  /\ fst (scrape_historical_results default_scraper MoreSamples.broken_schedule_site 2024
            Samples.start)
     = Ok (pd.DataFrame_of []).
Proof.
  split.
  - exact (f_equal fst
             (schedule_rows_become_records default_scraper MoreSamples.schedule_site 2024
                Samples.start _ eq_refl eq_refl)).
  - exact (f_equal fst
             (schedule_rows_become_records default_scraper
                MoreSamples.broken_schedule_site 2024 Samples.start _ eq_refl eq_refl)).
Defined.

(** ** Requests and files *)

(** X8: every fetching operation sends exactly one request, to its own
    address, whether it succeeds or not, and writes no file; a statistics
    category that is not known is read from the default statistics page;
    [get_comprehensive_stats] sends one request to the primary source and a
    second one, to the secondary source, exactly when the primary frame is
    empty. *)
Theorem one_request_each (self : PGATourScraperFixed) (w : world) (st : state) :
  snd (get_current_leaderboard self w st) = requested leaderboard_url st
  /\ snd (scrape_espn_leaderboard self w st) = requested espn_url st
  /\ (forall stat_type,
        snd (scrape_player_stats_page self w stat_type st)
        = requested (stat_url stat_type) st
        /\ (~ In stat_type (keys stat_urls) ->
            stat_url stat_type = "https://www.pgatour.com/stats"))
  /\ (forall player_name,
        snd (get_player_historical_stats self w player_name st)
        = requested (player_url player_name) st)
  /\ (forall year,
        snd (scrape_historical_results self w year st) = requested (schedule_url year) st)
  /\ (exists primary,
        fst (get_current_leaderboard self w st) = Ok primary
        /\ snd (get_comprehensive_stats self w st)
           = if pd.empty primary
             then requested espn_url (requested leaderboard_url st)
             else requested leaderboard_url st).
Proof.
  split; [destruct (get_current_leaderboard_run self w st) as (d & -> & _); reflexivity|].
  split; [destruct (scrape_espn_leaderboard_run self w st) as (d & -> & _); reflexivity|].
  split.
  { intros stat_type. split.
    - destruct (scrape_player_stats_page_run self w stat_type st) as (d & -> & _).
      reflexivity.
    - intros Hnot. unfold stat_url. now rewrite (dict_get_absent _ _ Hnot). }
  split; [intros player_name; now rewrite get_player_historical_stats_run|].
  split; [intros year; destruct (scrape_historical_results_run self w year st) as (d & ->);
          reflexivity|].
  destruct (get_comprehensive_stats_run self w st)
    as (primary & secondary & data & Hp & _ & Hnamed & _ & Hrun & _).
  exists (pd.DataFrame_of primary). rewrite Hp, Hrun, (empty_DataFrame_of _ Hnamed).
  split; [reflexivity | now destruct primary].
Qed.

Lemma one_request_each_witness :
  stat_url "EAGLES" = "https://www.pgatour.com/stats".
Proof.
  apply (proj2 (proj1 (proj2 (proj2 (one_request_each default_scraper Samples.offline
                                       Samples.start))) "EAGLES")).
  simpl. intros H. repeat (destruct H as [H|H]; [discriminate|]). destruct H.
Defined.

Lemma collect_results_run (w : world) (st : state) :
  exists d1 d2 d3 d4 st4,
    get_comprehensive_stats default_scraper w
      (requested (stat_url "STATS_YEAR")
         (requested espn_url (requested leaderboard_url st)))
    = (Ok (pd.DataFrame_of d4), st4)
    /\ collect_results w st
       = (Ok (keep_result "comprehensive" (pd.DataFrame_of d4)
                (keep_result "stats" (pd.DataFrame_of d3)
                   (keep_result "espn_leaderboard" (pd.DataFrame_of d2)
                      (keep_result "pga_leaderboard" (pd.DataFrame_of d1) [])))),
          st4).
Proof.
  destruct (get_current_leaderboard_run default_scraper w st) as (d1 & H1 & _).
  destruct (scrape_espn_leaderboard_run default_scraper w (requested leaderboard_url st))
    as (d2 & H2 & _).
  destruct (scrape_player_stats_page_run default_scraper w "STATS_YEAR"
              (requested espn_url (requested leaderboard_url st))) as (d3 & H3 & _).
  destruct (get_comprehensive_stats_run default_scraper w
              (requested (stat_url "STATS_YEAR")
                 (requested espn_url (requested leaderboard_url st))))
    as (p & s & d4 & _ & _ & _ & _ & H4 & _).
  exists d1, d2, d3, d4. eexists. split; [exact H4|].
  unfold collect_results, bind. cbv zeta. now rewrite H1, H2, H3, H4.
Qed.

(** The saving loop on a disk: it writes the files of the frames in order
    and stops at the first write that is refused. *)
Lemma save_results_to_run (d : disk) (w : world) (results : list (string * pd.DataFrame)) :
  nonempty_frames results ->
  forall st,
    exists written,
      snd (save_results_to d w results st)
      = {| requests := requests st; files := files st ++ written |}
      /\ match fst (save_results_to d w results st) with
         | Ok _ => written = map (saved w) results
         | Raise e =>
             exists k name df,
               nth_error results k = Some (name, df)
               /\ written = map (saved w) (firstn k results)
               /\ d (files st ++ written) (filename w name) = Raise e
         end.
Proof.
  induction 1 as [|[name df] rest Hdf Hrest IH]; intros st.
  - exists []. simpl. rewrite app_nil_r. now destruct st.
  - simpl in Hdf. cbn [save_results_to]. unfold bind. rewrite Hdf. cbn [negb].
    unfold write_csv_to.
    destruct (d (files st) (filename w name)) as [[]|e] eqn:Hwrite.
    + destruct (IH {| requests := requests st;
                      files := files st ++ [(filename w name, pd.to_csv df)] |})
        as (written & Hstate & Hout).
      exists (saved w (name, df) :: written). cbn [requests files] in *.
      split; [rewrite Hstate; now rewrite <- app_assoc|].
      destruct (fst (save_results_to d w rest _)) as [[]|e].
      * now rewrite Hout.
      * destruct Hout as (k & name' & df' & Hk & Hwritten & Hrefused).
        exists (S k), name', df'. split; [exact Hk|].
        split; [cbn [firstn map]; now rewrite Hwritten|].
        rewrite <- app_assoc in Hrefused. exact Hrefused.
    + exists []. cbn [fst snd]. rewrite app_nil_r.
      split; [now destruct st|].
      exists 0, name, df. split; [reflexivity|]. split; [reflexivity|exact Hwrite].
Qed.

Lemma save_results_writable (w : world) (results : list (string * pd.DataFrame)) :
  forall st, save_results_to writable w results st = save_results w results st.
Proof.
  induction results as [|[name df] rest IH]; intros st; [reflexivity|].
  cbn [save_results_to save_results]. unfold bind.
  destruct (negb (pd.empty df)); [|apply IH].
  unfold write_csv_to, write_csv, writable. apply IH.
Qed.

Lemma test_scraper_writable (w : world) (st : state) :
  test_scraper_to writable w st = test_scraper w st.
Proof.
  unfold test_scraper_to, test_scraper, collect_results, bind. cbv zeta.
  destruct (get_current_leaderboard default_scraper w st) as [[a1|e1] s1]; [|reflexivity].
  destruct (scrape_espn_leaderboard default_scraper w s1) as [[a2|e2] s2]; [|reflexivity].
  destruct (scrape_player_stats_page default_scraper w "STATS_YEAR" s2) as [[a3|e3] s3];
    [|reflexivity].
  destruct (get_comprehensive_stats default_scraper w s3) as [[a4|e4] s4]; [|reflexivity].
  unfold ret. now rewrite save_results_writable.
Qed.

(** X9: the four tests of [test_scraper] never raise; they send four or five
    requests in a fixed order (leaderboard, secondary source, statistics,
    leaderboard again and, if that came back empty, the secondary source
    again) and keep the non-empty frames under their names, in the order
    pga_leaderboard, espn_leaderboard, stats, comprehensive.  The frames
    kept are then written in that order, each to the file named after it:
    when every write succeeds the results are returned and there is one file
    per frame kept, at most four; a write that is refused ends the run with
    its error, after the files of the frames before it and none after.
    [test_scraper] is this run on a disk that takes every write. *)
Theorem test_scraper_shape (d : disk) (w : world) (st : state) :
  exists results st4 again written,
    collect_results w st = (Ok results, st4)
    /\ (again = [] \/ again = [espn_url])
    /\ requests st4
       = requests st
         ++ [leaderboard_url; espn_url; "https://www.pgatour.com/stats"; leaderboard_url]
         ++ again
    /\ files st4 = files st
    /\ keys results
       = List.filter (fun name => existsb (String.eqb name) (keys results)) result_names
    /\ Forall (fun r => pd.empty (snd r) = false) results
    /\ snd (test_scraper_to d w st)
       = {| requests := requests st4; files := files st ++ written |}
    /\ match fst (test_scraper_to d w st) with
       | Ok returned =>
           returned = results
           /\ map fst written = map (filename w) (keys results)
           /\ map snd written = map (fun r => pd.to_csv (snd r)) results
       | Raise e =>
           exists k name df,
             nth_error results k = Some (name, df)
             /\ written = map (saved w) (firstn k results)
             /\ d (files st ++ written) (filename w name) = Raise e
       end
    /\ length written <= 4
    /\ test_scraper_to writable w st = test_scraper w st.
Proof.
  destruct (collect_results_run w st) as (d1 & d2 & d3 & d4 & st4 & H4 & Hrun).
  destruct (get_comprehensive_stats_run default_scraper w
              (requested (stat_url "STATS_YEAR")
                 (requested espn_url (requested leaderboard_url st))))
    as (p & s & d4' & _ & _ & _ & _ & H4' & _).
  rewrite H4 in H4'. apply (f_equal snd) in H4'. cbn [snd] in H4'. rename H4' into Hst4.
  set (results := keep_result "comprehensive" (pd.DataFrame_of d4)
                    (keep_result "stats" (pd.DataFrame_of d3)
                       (keep_result "espn_leaderboard" (pd.DataFrame_of d2)
                          (keep_result "pga_leaderboard" (pd.DataFrame_of d1) [])))) in *.
  assert (Hne : nonempty_frames results)
    by (subst results; repeat apply keep_result_nonempty; constructor).
  assert (Hlen : length results <= 4).
  { subst results. unfold keep_result.
    destruct (pd.empty (pd.DataFrame_of d1)), (pd.empty (pd.DataFrame_of d2)),
      (pd.empty (pd.DataFrame_of d3)), (pd.empty (pd.DataFrame_of d4)); simpl; lia. }
  assert (Hfiles : files st4 = files st) by (rewrite Hst4; now destruct p).
  destruct (save_results_to_run d w results Hne st4) as (written & Hstate & Hout).
  exists results, st4, (match p with [] => [espn_url] | _ :: _ => [] end), written.
  split; [exact Hrun|].
  split; [destruct p; auto|].
  split; [rewrite Hst4; destruct p; simpl; now rewrite <- !app_assoc|].
  split; [exact Hfiles|].
  split.
  { subst results. unfold keep_result.
    destruct (pd.empty (pd.DataFrame_of d1)), (pd.empty (pd.DataFrame_of d2)),
      (pd.empty (pd.DataFrame_of d3)), (pd.empty (pd.DataFrame_of d4)); reflexivity. }
  split; [exact Hne|].
  assert (Hto : test_scraper_to d w st
                = (match fst (save_results_to d w results st4) with
                   | Ok _ => Ok results
                   | Raise e => Raise e
                   end, snd (save_results_to d w results st4))).
  { unfold test_scraper_to, bind. rewrite Hrun.
    destruct (save_results_to d w results st4) as [[[]|e] st']; reflexivity. }
  split; [rewrite Hto; cbn [snd]; now rewrite Hstate, Hfiles|].
  split.
  { rewrite Hto. cbn [fst]. rewrite Hfiles in Hout.
    destruct (fst (save_results_to d w results st4)) as [[]|e]; [|exact Hout].
    subst written. split; [reflexivity|]. unfold keys. rewrite !map_map. now split. }
  split.
  { destruct (fst (save_results_to d w results st4)) as [[]|e].
    - subst written. now rewrite length_map.
    - destruct Hout as (k & name & df & _ & -> & _).
      rewrite length_map, length_firstn. lia. }
  apply test_scraper_writable.
Qed.

(** A run on a disk with room for one file: the write of the second frame
    is refused, the run ends with that error and one file is written. *)
Example test_scraper_disk_full :
  fst (test_scraper_to (room_for 1) Samples.espn_site Samples.start) = Raise OSError
  /\ map fst (files (snd (test_scraper_to (room_for 1) Samples.espn_site Samples.start)))
     = [filename Samples.espn_site "pga_leaderboard"].
Proof. vm_compute. split; reflexivity. Qed.

(** ** A network that does not change *)

Lemma get_current_leaderboard_same (self : PGATourScraperFixed) (w : world)
  (st st' : state) :
  fetched self w st leaderboard_url = fetched self w st' leaderboard_url ->
  fst (get_current_leaderboard self w st) = fst (get_current_leaderboard self w st').
Proof.
  intros H. unfold get_current_leaderboard. run_M. rewrite H.
  destruct (fetched self w st' leaderboard_url) as [response|]; [|reflexivity].
  destruct (status_code response =? 200)%Z; [|reflexivity].
  destruct (find (content response) "script" [("id", MStr "__NEXT_DATA__")]);
    [destruct (json_loads_string w _);
     [destruct (_extract_leaderboard_from_json _) as [[|]|]|]|];
    try reflexivity;
    now destruct (_scrape_leaderboard_table (content response)).
Qed.

Lemma scrape_espn_leaderboard_same (self : PGATourScraperFixed) (w : world)
  (st st' : state) :
  fetched self w st espn_url = fetched self w st' espn_url ->
  fst (scrape_espn_leaderboard self w st) = fst (scrape_espn_leaderboard self w st').
Proof.
  intros H. unfold scrape_espn_leaderboard. run_M. rewrite H.
  destruct (fetched self w st' espn_url) as [response|]; [|reflexivity].
  destruct (status_code response =? 200)%Z; [|reflexivity].
  destruct (locate_espn_leaderboard (content response)); [|reflexivity].
  now destruct (for_each _ espn_row []).
Qed.

Lemma fetched_stable (self : PGATourScraperFixed) (w : world) (st st' : state)
  (url : string) :
  stable w -> fetched self w st url = fetched self w st' url.
Proof. intros Hw. unfold fetched. now rewrite (Hw (requests st) (requests st') url). Qed.

(** X10: when the network answers the same address the same way throughout
    a run of [test_scraper], the combined frame is kept exactly when one of
    the two leaderboard frames is: there is a comprehensive entry (and file)
    if and only if there is a pga_leaderboard or an espn_leaderboard one. *)
Theorem comprehensive_kept_with_a_leaderboard (w : world) (st : state) :
  stable w ->
  exists results st',
    test_scraper w st = (Ok results, st')
    /\ (In "comprehensive" (keys results)
        <-> In "pga_leaderboard" (keys results) \/ In "espn_leaderboard" (keys results)).
Proof.
  intros Hw.
  destruct (test_scraper_run w st)
    as (d1 & d2 & d3 & d4 & st4 & H1 & H2 & _ & H4 & _ & _ & _ & Hrun).
  set (st1 := requested leaderboard_url st) in *.
  set (st3 := requested (stat_url "STATS_YEAR") (requested espn_url st1)) in *.
  destruct (get_comprehensive_stats_run default_scraper w st3)
    as (p & s & d & Hp & Hs & Hpn & Hsn & H4' & Hlen & Hdn).
  rewrite H4 in H4'. apply (f_equal fst) in H4'. cbn [fst] in H4'.
  assert (Hframe : pd.DataFrame_of d4 = pd.DataFrame_of d) by congruence.
  assert (Hpe : pd.empty (pd.DataFrame_of p) = pd.empty (pd.DataFrame_of d1)).
  { pose proof (get_current_leaderboard_same default_scraper w st3 st
                  (fetched_stable _ w st3 st _ Hw)) as Hsame.
    rewrite Hp, H1 in Hsame. cbn [fst] in Hsame.
    assert (Hsame' : pd.DataFrame_of p = pd.DataFrame_of d1) by congruence.
    now rewrite Hsame'. }
  assert (Hse : pd.empty (pd.DataFrame_of s) = pd.empty (pd.DataFrame_of d2)).
  { pose proof (scrape_espn_leaderboard_same default_scraper w
                  (requested leaderboard_url st3) st1
                  (fetched_stable _ w _ _ _ Hw)) as Hsame.
    rewrite Hs, H2 in Hsame. cbn [fst] in Hsame.
    assert (Hsame' : pd.DataFrame_of s = pd.DataFrame_of d2) by congruence.
    now rewrite Hsame'. }
  assert (H4e : pd.empty (pd.DataFrame_of d4)
                = pd.empty (pd.DataFrame_of d1) && pd.empty (pd.DataFrame_of d2)).
  { rewrite Hframe, <- Hpe, <- Hse.
    rewrite (empty_DataFrame_of d Hdn), (empty_DataFrame_of p Hpn),
      (empty_DataFrame_of s Hsn).
    destruct p, s, d; simpl in Hlen; try discriminate; reflexivity. }
  eexists _, _. split; [exact Hrun|].
  unfold keep_result. rewrite H4e.
  destruct (pd.empty (pd.DataFrame_of d1)), (pd.empty (pd.DataFrame_of d2)),
    (pd.empty (pd.DataFrame_of d3)); simpl;
    (split; [intros H | intros [H|H]]);
    repeat (destruct H as [H|H]; try discriminate); auto 10.
Qed.

Lemma comprehensive_kept_with_a_leaderboard_witness :
  exists results st',
    test_scraper Samples.espn_site Samples.start = (Ok results, st')
    /\ (In "comprehensive" (keys results)
        <-> In "pga_leaderboard" (keys results) \/ In "espn_leaderboard" (keys results)).
Proof.
  exact (comprehensive_kept_with_a_leaderboard Samples.espn_site Samples.start
           (fun _ _ _ => eq_refl)).
Defined.

(** ** Names without a country code *)

(** X11: a name without an opening parenthesis is left as it is by the name
    cleaning, apart from the whitespace around it. *)
Theorem names_without_parenthesis_kept (name : string) :
  Text.contains "(" name = false ->
  sub_country_code name = name /\ clean_player_name name = Text.strip name.
Proof.
  intros Hname.
  assert (H : sub_country_code name = name).
  { induction name as [|ch rest IH]; [reflexivity|].
    apply contains_paren_cons in Hname as [Hch Hrest].
    rewrite (sub_country_code_other _ _ Hch). now rewrite IH. }
  split; [exact H|]. unfold clean_player_name. now rewrite H.
Qed.

Lemma names_without_parenthesis_kept_witness :
  clean_player_name " Ludvig Aberg [SWE] " = "Ludvig Aberg [SWE]".
Proof.
  exact (proj2 (names_without_parenthesis_kept " Ludvig Aberg [SWE] " eq_refl)).
Defined.

(** ** Numbers *)

Lemma digit_is_no_dot (c : ascii) : Text.is_digit c = true -> Ascii.eqb c "." = false.
Proof.
  intros H. destruct (Ascii.eqb_spec c ".") as [->|]; [discriminate | reflexivity].
Qed.

Lemma dots_cons (c : ascii) (s : string) :
  dots (String c s) = if Ascii.eqb c "." then S (dots s) else dots s.
Proof. unfold dots. simpl. now destruct (Ascii.eqb c "."). Qed.

Lemma digits_cons (c : ascii) (s : string) :
  digits (String c s) = if Text.is_digit c then S (digits s) else digits s.
Proof. unfold digits. simpl. now destruct (Text.is_digit c). Qed.

Lemma kept_cons (c : ascii) (s : string) :
  Text.filter digit_or_dot (String c s)
  = if Text.is_digit c || Ascii.eqb c "."
    then String c (Text.filter digit_or_dot s)
    else Text.filter digit_or_dot s.
Proof. reflexivity. Qed.

Ltac by_char c :=
  rewrite ?kept_cons, ?dots_cons, ?digits_cons;
  let Hd := fresh "Hd" in
  let Hp := fresh "Hp" in
  destruct (Text.is_digit c) eqn:Hd;
  [ rewrite (digit_is_no_dot c Hd) | destruct (Ascii.eqb c ".") eqn:Hp ];
  cbn [orb].

Lemma kept_length (s : string) :
  String.length (Text.filter digit_or_dot s) = dots s + digits s.
Proof.
  induction s as [|c rest IH]; [reflexivity|].
  by_char c; cbn [String.length]; rewrite IH; lia.
Qed.

Lemma kept_all_digits (s : string) :
  all_digits (Text.filter digit_or_dot s) = (dots s =? 0)%nat.
Proof.
  induction s as [|c rest IH]; [reflexivity|].
  by_char c; cbn [all_digits]; rewrite ?Hd; try exact IH.
  apply Ascii.eqb_eq in Hp. now subst c.
Qed.

Lemma kept_split (s : string) :
  all_digits (fst (split_dot (Text.filter digit_or_dot s)))
  && all_digits (fraction (snd (split_dot (Text.filter digit_or_dot s))))
  = (dots s <=? 1)%nat.
Proof.
  induction s as [|c rest IH]; [reflexivity|].
  by_char c; cbn [split_dot]; rewrite ?Hp, ?(digit_is_no_dot c Hd); try exact IH.
  - destruct (split_dot (Text.filter digit_or_dot rest)) as [a b].
    cbn [fst snd all_digits] in *. rewrite Hd. exact IH.
  - cbn [fst snd fraction all_digits andb]. rewrite kept_all_digits.
    now destruct (dots rest).
Qed.

Lemma split_dot_digits (k : string) :
  digits (fst (split_dot k) ++ fraction (snd (split_dot k))) = digits k.
Proof.
  induction k as [|c rest IH]; [reflexivity|].
  cbn [split_dot]. rewrite digits_cons.
  destruct (Ascii.eqb_spec c ".") as [->|Hne]; [reflexivity|].
  destruct (split_dot rest) as [a b]. cbn [fst snd] in *.
  change (String c a ++ fraction b)%string with (String c (a ++ fraction b)).
  rewrite digits_cons, IH. reflexivity.
Qed.

Lemma digits_kept (s : string) : digits (Text.filter digit_or_dot s) = digits s.
Proof.
  induction s as [|c rest IH]; [reflexivity|].
  by_char c; rewrite ?digits_cons, ?Hd, IH; reflexivity.
Qed.

Lemma all_digits_length (t : string) :
  all_digits t = true -> digits t = String.length t.
Proof.
  induction t as [|c rest IH]; [reflexivity|].
  cbn [all_digits]. intros H. apply andb_true_iff in H as [Hc Hrest].
  rewrite digits_cons, Hc, (IH Hrest). reflexivity.
Qed.

Lemma all_digits_app (a b : string) :
  all_digits (a ++ b) = all_digits a && all_digits b.
Proof.
  induction a as [|c rest IH]; [reflexivity|].
  cbn [append all_digits]. now rewrite IH, andb_assoc.
Qed.

Lemma is_empty_length (t : string) : Text.is_empty t = (String.length t =? 0)%nat.
Proof. now destruct t. Qed.

(** Float coercion by the number of dots and digits of the text. *)
Lemma parse_float_by_count (s : string) :
  parse_float s
  = if (dots s + digits s =? 0)%nat then Ok (PyFloat 0 0)
    else if (dots s <=? 1)%nat && negb (digits s =? 0)%nat then
           let parts := split_dot (Text.filter digit_or_dot s) in
           Ok (PyFloat (digits_value (fst parts ++ fraction (snd parts)) 0)
                 (- Z.of_nat (String.length (fraction (snd parts)))))
         else Raise ValueError.
Proof.
  unfold parse_float. change (fun c => Text.is_digit c || Ascii.eqb c ".") with digit_or_dot.
  rewrite is_empty_length, kept_length.
  destruct (dots s + digits s =? 0)%nat; [reflexivity|].
  unfold float_of_str.
  pose proof (kept_split s) as Hsplit.
  pose proof (split_dot_digits (Text.filter digit_or_dot s)) as Hdigits.
  rewrite digits_kept in Hdigits.
  destruct (split_dot (Text.filter digit_or_dot s)) as [ip fp].
  cbn [fst snd] in *. fold (fraction fp). rewrite Hsplit.
  destruct (dots s <=? 1)%nat; [|reflexivity]. cbn [andb].
  rewrite <- all_digits_app in Hsplit.
  rewrite is_empty_length, <- (all_digits_length _ Hsplit), Hdigits.
  now destruct (digits s =? 0)%nat.
Qed.

Lemma digits_value_nonneg (s : string) :
  forall acc, (0 <= acc)%Z -> (0 <= digits_value s acc)%Z.
Proof.
  induction s as [|c rest IH]; intros acc Hacc; cbn [digits_value]; [exact Hacc|].
  apply IH. unfold digit_value. lia.
Qed.

(** X12: float coercion fails exactly on a text with two or more dots, or
    with a dot and no digit; on any other text it gives a float that is
    not negative (zero when the text has neither dot nor digit), whatever
    sign or unit the text carries. *)
Theorem float_coercion_fails_on_dots (value_text : string) :
  (parse_float value_text = Raise ValueError
   <-> 2 <= dots value_text \/ (dots value_text = 1 /\ digits value_text = 0))
  /\ (dots value_text = 0 /\ digits value_text = 0 ->
      parse_float value_text = Ok (PyFloat 0 0))
  /\ (forall v,
        parse_float value_text = Ok v ->
        exists m e, v = PyFloat m e /\ (0 <= m)%Z /\ (e <= 0)%Z).
Proof.
  rewrite parse_float_by_count.
  destruct (Nat.eqb_spec (dots value_text + digits value_text) 0) as [Hzero|Hsome].
  - split; [split; [discriminate | lia]|]. split; [reflexivity|].
    intros v [= <-]. exists 0%Z, 0%Z. repeat split; lia.
  - destruct (Nat.leb_spec (dots value_text) 1) as [Hle|Hgt];
      destruct (Nat.eqb_spec (digits value_text) 0) as [Hnone|Hdigit]; cbn [andb negb].
    + split; [split; [intros _; lia | reflexivity]|]. split; [lia | discriminate].
    + split; [split; [discriminate | lia]|]. split; [lia|].
      intros v [= <-]. eexists _, _. split; [reflexivity|].
      split; [apply digits_value_nonneg|]; lia.
    + split; [split; [intros _; lia | reflexivity]|]. split; [lia | discriminate].
    + split; [split; [intros _; lia | reflexivity]|]. split; [lia | discriminate].
Qed.

Lemma float_coercion_fails_on_dots_witness :
  parse_float "1.234.567" = Raise ValueError
  /\ parse_float "n/a" = Ok (PyFloat 0 0).
Proof.
  split.
  - apply (proj2 (proj1 (float_coercion_fails_on_dots "1.234.567"))).
    left. cbv. lia.
  - apply (proj1 (proj2 (float_coercion_fails_on_dots "n/a"))). split; reflexivity.
Defined.

Lemma filter_digits_again (s : string) :
  Text.filter Text.is_digit (Text.filter Text.is_digit s) = Text.filter Text.is_digit s.
Proof.
  induction s as [|c rest IH]; [reflexivity|].
  cbn [Text.filter]. destruct (Text.is_digit c) eqn:Hc; [|exact IH].
  cbn [Text.filter]. now rewrite Hc, IH.
Qed.

(** X13: integer coercion reads the digits of a text and nothing else: the
    result is never negative, whatever sign the text carries, and it is the
    same as for the digits alone.  It can only fail on more than 640 digits,
    when the interpreter has a limit below their number. *)
Theorem integer_coercion_reads_digits_only (w : world) (value_text : string) :
  parse_int w (Text.filter Text.is_digit value_text) = parse_int w value_text
  /\ (forall v, parse_int w value_text = Ok v -> exists z, v = PyInt z /\ (0 <= z)%Z)
  /\ (forall e,
        parse_int w value_text = Raise e ->
        e = ValueError /\ 640 < digits value_text
        /\ 0 < int_max_str_digits w < digits value_text).
Proof.
  split; [|split].
  - rewrite !parse_int_cases. now rewrite filter_digits_again.
  - intros v. rewrite parse_int_cases.
    destruct (too_many_digits w _); [discriminate|].
    intros [= <-]. eexists. split; [reflexivity|]. apply digits_value_nonneg. lia.
  - intros e. rewrite parse_int_cases. fold (digits value_text).
    unfold too_many_digits.
    destruct (Nat.eqb_spec (int_max_str_digits w) 0) as [Hz|Hnz]; [discriminate|].
    destruct (Nat.ltb_spec (int_max_str_digits w) (digits value_text)); [|discriminate].
    destruct (Nat.ltb_spec 640 (digits value_text)); [|discriminate].
    cbn [negb andb]. intros [= <-]. repeat split; lia.
Qed.

Lemma integer_coercion_reads_digits_only_witness :
  parse_int Samples.offline "12" = parse_int Samples.offline "-12"
  /\ parse_int Samples.offline "-12" = Ok (PyInt 12)
  /\ exists z, PyInt 12 = PyInt z /\ (0 <= z)%Z.
Proof.
  split; [|split; [reflexivity|]].
  - exact (proj1 (integer_coercion_reads_digits_only Samples.offline "-12")).
  - exact (proj1 (proj2 (integer_coercion_reads_digits_only Samples.offline "-12"))
             (PyInt 12) eq_refl).
Defined.

(** ** The player page, element by element *)

Lemma item_field_write (w : world) (item : node) :
  item_field item = option_map fst (item_write w item).
Proof.
  unfold item_field, item_write.
  destruct (find item "span" [("class", MStr "label")]) as [label|]; [|reflexivity].
  destruct (find item "span" [("class", MStr "value")]) as [value|]; [|reflexivity].
  cbv zeta.
  repeat match goal with
         | |- context [Text.contains ?a ?b] => destruct (Text.contains a b)
         end; reflexivity.
Qed.

Lemma dict_get_set_same {A : Type} (k : string) (v : A) (d : list (string * A)) :
  dict_get k (dict_set k v d) = Some v.
Proof.
  induction d as [|[k0 x] rest IH]; simpl.
  - now rewrite String.eqb_refl.
  - destruct (String.eqb_spec k0 k) as [->|Hne]; simpl.
    + now rewrite String.eqb_refl.
    + destruct (String.eqb_spec k0 k); [contradiction | exact IH].
Qed.

Lemma stat_items_keep (w : world) (field : string) (items : list node) :
  Forall (fun item => item_field item <> Some field) items ->
  forall stats final,
    for_each items (stat_item w) stats = Ok final ->
    dict_get field final = dict_get field stats.
Proof.
  induction 1 as [|item rest Hitem Hrest IH]; intros stats final Hrun; simpl in Hrun.
  - now injection Hrun as <-.
  - rewrite stat_item_write in Hrun. rewrite (item_field_write w) in Hitem.
    destruct (item_write w item) as [[f [v|e]]|]; simpl in *; try discriminate.
    + rewrite (IH _ _ Hrun). apply dict_get_set_other. congruence.
    + exact (IH _ _ Hrun).
Qed.

Lemma for_each_app {A S : Type} (body : A -> S -> result S) (a b : list A) :
  forall s, for_each (a ++ b) body s = rbind (for_each a body s) (for_each b body).
Proof.
  induction a as [|x rest IH]; intros s; simpl; [reflexivity|].
  destruct (body x s) as [s'|e]; simpl; [apply IH | reflexivity].
Qed.

(** X14: when several stat elements of a player page report the same
    statistic, the last one in document order decides: in the dictionary
    returned, a field holds the value read from the last element that writes
    it. *)
Theorem last_stat_element_wins (self : PGATourScraperFixed) (w : world)
  (player_name : string) (st : state) (response : Response)
  (front back : list node) (item : node) (field : string) (v : pyval) (stats : record) :
  fetched self w st (player_url player_name) = Ok response ->
  status_code response = 200%Z ->
  stat_items (content response) = front ++ item :: back ->
  item_write w item = Some (field, Ok v) ->
  Forall (fun later => item_field later <> Some field) back ->
  fst (get_player_historical_stats self w player_name st) = Ok stats ->
  stats <> [] ->
  dict_get field stats = Some v.
Proof.
  intros Hget Hstatus Hitems Hwrite Hback Hrun Hne. apply Z.eqb_eq in Hstatus.
  rewrite get_player_historical_stats_run, Hget, Hstatus, Hitems in Hrun.
  cbn [fst] in Hrun. injection Hrun as Hrun.
  rewrite for_each_app in Hrun.
  destruct (for_each front (stat_item w) (initial_stats player_name)) as [mid|e];
    simpl in Hrun; [|now subst stats].
  rewrite stat_item_write, Hwrite in Hrun. simpl in Hrun.
  destruct (for_each back (stat_item w) (dict_set field v mid)) as [final|e] eqn:Hloop;
    [|now subst stats].
  subst stats. rewrite (stat_items_keep w field back Hback _ _ Hloop).
  apply dict_get_set_same.
Qed.

Lemma last_stat_element_wins_witness :
  dict_get "career_wins"
    [ ("player_name", PyStr "Jon Rahm"); ("career_wins", PyInt 11);
      ("career_top10s", PyInt 0); ("career_earnings", PyInt 0) ]
  = Some (PyInt 11).
Proof.
  apply (last_stat_element_wins default_scraper MoreSamples.repeated_site "Jon Rahm"
           Samples.start {| status_code := 200; content := MoreSamples.repeated_player_page |}
           [Samples.stat_div "Wins (season)" "3"] [] (Samples.stat_div "Career Wins" "11"));
    try reflexivity; [constructor | discriminate].
Defined.

(** ** The address of a player page *)

Lemma lower_char_not_upper (c : ascii) : Text.is_upper (Text.lower_char c) = false.
Proof. destruct c as [[] [] [] [] [] [] [] []]; reflexivity. Qed.

Lemma filter_append (p : ascii -> bool) (a b : string) :
  Text.filter p (a ++ b) = (Text.filter p a ++ Text.filter p b)%string.
Proof.
  induction a as [|c rest IH]; [reflexivity|]. simpl. rewrite IH. now destruct (p c).
Qed.

Lemma length_append (a b : string) :
  String.length (a ++ b) = String.length a + String.length b.
Proof. induction a as [|c rest IH]; [reflexivity|]. simpl. now rewrite IH. Qed.

Lemma slug_length (s : string) :
  String.length (Text.replace_char " " "-" (Text.lower s)) = String.length s.
Proof. induction s as [|c rest IH]; [reflexivity|]. simpl. now rewrite IH. Qed.

Lemma slug_clean (s : string) :
  Text.filter space_or_capital (Text.replace_char " " "-" (Text.lower s)) = "".
Proof.
  induction s as [|c rest IH]; [reflexivity|].
  cbn [Text.lower Text.replace_char Text.filter]. unfold space_or_capital at 1.
  destruct (Ascii.eqb_spec (Text.lower_char c) " ") as [Hsp|Hsp]; [exact IH|].
  destruct (Ascii.eqb_spec (Text.lower_char c) " "); [contradiction|].
  rewrite lower_char_not_upper. exact IH.
Qed.

Lemma slug_of_clean (s : string) :
  Text.filter space_or_capital s = "" -> Text.replace_char " " "-" (Text.lower s) = s.
Proof.
  induction s as [|c rest IH]; [reflexivity|].
  cbn [Text.lower Text.replace_char Text.filter]. unfold space_or_capital at 1.
  destruct (Ascii.eqb_spec c " ") as [->|Hsp]; [discriminate|]. cbn [orb].
  destruct (Text.is_upper c) eqn:Hup; [discriminate|].
  intros Hrest. unfold Text.lower_char. rewrite Hup.
  destruct (Ascii.eqb_spec c " "); [contradiction|]. now rewrite (IH Hrest).
Qed.

(** X15: for a name of ASCII characters, the characters on which
    [Text.lower] is [str.lower], the address that [player_url] builds holds
    no space and no capital letter, and it has one character for each
    character of the name besides its 44 fixed ones; a name without space
    and capital letter stands in the address unchanged. *)
Theorem player_url_slug (player_name : string) :
  is_ascii player_name = true ->
  Text.filter space_or_capital (player_url player_name) = ""
  /\ String.length (player_url player_name) = 44 + String.length player_name
  /\ (Text.filter space_or_capital player_name = "" ->
      player_url player_name
      = ("https://www.pgatour.com/players/player." ++ player_name ++ ".html")%string).
Proof.
  intros _. unfold player_url. cbv zeta. split; [|split].
  - now rewrite !filter_append, slug_clean.
  - rewrite !length_append, slug_length. simpl. lia.
  - intros Hclean. now rewrite (slug_of_clean _ Hclean).
Qed.

Lemma player_url_slug_witness :
  String.length (player_url "Jon Rahm") = 52
  /\ player_url "o'neil-x.2" = "https://www.pgatour.com/players/player.o'neil-x.2.html".
Proof.
  split.
  - exact (proj1 (proj2 (player_url_slug "Jon Rahm" eq_refl))).
  - exact (proj2 (proj2 (player_url_slug "o'neil-x.2" eq_refl)) eq_refl).
Defined.

(** ** The two shapes of the primary frame *)

Lemma get_current_leaderboard_records (self : PGATourScraperFixed) (w : world)
  (st : state) :
  exists data,
    fst (get_current_leaderboard self w st) = Ok (pd.DataFrame_of data)
    /\ (Forall (fun r => keys r = json_columns) data
        \/ exists rows, data = flat_map leaderboard_record rows).
Proof.
  unfold get_current_leaderboard. run_M.
  destruct (fetched self w st leaderboard_url) as [response|e];
    [|exists []; split; [reflexivity | left; constructor]].
  destruct (status_code response =? 200)%Z;
    [|exists []; split; [reflexivity | left; constructor]].
  destruct (scrape_leaderboard_table_rows (content response)) as (rows & Htable).
  destruct (find (content response) "script" [("id", MStr "__NEXT_DATA__")]) as [script_tag|].
  - destruct (json_loads_string w (tag_string script_tag)) as [data|e];
      [|exists []; split; [reflexivity | left; constructor]].
    destruct (_extract_leaderboard_from_json data) as [[|r rest]|e] eqn:Hx.
    + rewrite Htable. eexists. split; [reflexivity | right; now exists rows].
    + exists (r :: rest). split; [reflexivity | left; now apply (extract_records_keys data)].
    + destruct (extract_total data) as (records & Hok). congruence.
  - rewrite Htable. eexists. split; [reflexivity | right; now exists rows].
Qed.

(** X16: a non-empty frame from [get_current_leaderboard] has one of two
    shapes: the six columns of the payload Records (player_name, position,
    total_score, score_to_par, thru, today), or the five text columns of the
    table fallback (position, player_name, score, thru, today). *)
Theorem primary_frame_has_two_shapes (self : PGATourScraperFixed) (w : world)
  (st : state) (df : pd.DataFrame) :
  fst (get_current_leaderboard self w st) = Ok df ->
  pd.empty df = false ->
  (pd.columns df = json_columns
   /\ Forall (fun row => length row = length json_columns) (pd.rows df))
  \/ text_frame table_columns df.
Proof.
  intros Hrun Hne.
  destruct (get_current_leaderboard_records self w st) as (data & Hdata & Hshape).
  rewrite Hdata in Hrun. injection Hrun as <-.
  destruct NoDup_columns as (Ht & _ & _ & Hj & _).
  destruct Hshape as [Hkeys|(rows & ->)].
  - left. destruct data as [|r rest]; [discriminate|].
    assert (Hcols : pd.first_seen_keys (r :: rest) = json_columns)
      by (now apply first_seen_keys_uniform).
    split; [exact Hcols|]. unfold pd.DataFrame_of. cbn [pd.rows]. rewrite Hcols.
    apply Forall_map, Forall_forall. intros r' _. unfold pd.row_of. apply length_map.
  - right.
    apply text_frame_of; [reflexivity | exact Ht | apply leaderboard_records_text | exact Hne].
Qed.

Lemma primary_frame_has_two_shapes_witness :
  (pd.columns (pd.DataFrame_of Samples.players_records) = json_columns
   /\ Forall (fun row => length row = length json_columns)
        (pd.rows (pd.DataFrame_of Samples.players_records)))
  \/ text_frame table_columns (pd.DataFrame_of Samples.players_records).
Proof.
  exact (primary_frame_has_two_shapes default_scraper MoreSamples.payload_site
           Samples.start _ eq_refl eq_refl).
Defined.

(** ** A network that cannot be reached *)

Lemma scrape_player_stats_page_failed (self : PGATourScraperFixed) (w : world)
  (stat_type : string) (st : state) :
  request_failed w st (stat_url stat_type) ->
  scrape_player_stats_page self w stat_type st
  = (Ok (pd.DataFrame_of []), requested (stat_url stat_type) st).
Proof.
  unfold scrape_player_stats_page. intros H.
  apply (fetched_failed self) in H. run_M.
  destruct (fetched self w st (stat_url stat_type)) as [response|];
    [now rewrite H | reflexivity].
Qed.

(** X17: when every request fails (the transport raises or the status is
    not 200), [test_scraper] still returns normally: it has sent its five
    requests, keeps no frame and writes no file. *)
Theorem nothing_saved_when_unreachable (w : world) (st : state) :
  unreachable w ->
  test_scraper w st
  = (Ok [],
     {| requests := requests st
                    ++ [ leaderboard_url; espn_url; "https://www.pgatour.com/stats";
                         leaderboard_url; espn_url ];
        files := files st |}).
Proof.
  intros Hw.
  assert (Hfail : forall s url, request_failed w s url) by (intros s url; apply Hw).
  unfold test_scraper, get_comprehensive_stats, bind. cbv zeta.
  rewrite (get_current_leaderboard_failed _ w st (Hfail _ _)).
  rewrite (scrape_espn_leaderboard_failed _ w _ (Hfail _ _)).
  rewrite (scrape_player_stats_page_failed _ w "STATS_YEAR" _ (Hfail _ _)).
  rewrite (get_current_leaderboard_failed _ w _ (Hfail _ _)).
  rewrite empty_DataFrame_of_nil.
  rewrite (scrape_espn_leaderboard_failed _ w _ (Hfail _ _)).
  rewrite empty_DataFrame_of_nil. unfold keep_result, ret, requested. simpl.
  rewrite <- !app_assoc. reflexivity.
Qed.

Lemma nothing_saved_when_unreachable_witness :
  test_scraper Samples.offline Samples.start
  = (Ok [],
     {| requests := [ leaderboard_url; espn_url; "https://www.pgatour.com/stats";
                      leaderboard_url; espn_url ];
        files := [] |}).
Proof.
  exact (nothing_saved_when_unreachable Samples.offline Samples.start (fun _ _ => I)).
Defined.
